(** * User-data synchronisation: the remote store client, the abstract
      synchroniser and the keybindings synchroniser

    Shallow embedding of
    - [vs/platform/userDataSync/common/userDataSyncStoreService.ts]
      ([UserDataSyncStoreService]),
    - [vs/platform/userDataSync/common/abstractSynchronizer.ts]
      ([AbstractSynchroniser], [AbstractFileSynchroniser],
      [AbstractJsonFileSynchroniser]),
    - [vs/platform/userDataSync/common/keybindingsSync.ts]
      ([KeybindingsSynchroniser]),
    - [vs/platform/userDataSync/common/userDataSync.ts]
      ([UserDataSyncError], the sync sources and the resource keys).

    Asynchronous methods become functions in a state-and-exception monad
    over a [World]: the fields of the synchroniser object, the local file
    system, the HTTP requests sent so far and a trace of the
    calls made to the outside (HTTP requests, file writes, backups, merge
    calls, events).  An [await] is sequencing; a rejected promise is
    [Throw].  Calls to the log service are left out: they neither read nor
    change anything the methods depend on.  Error messages and the
    [source] tag of errors are left out as well; errors keep their class
    and their code. *)

From Stdlib Require Import String Ascii ZArith List Bool.
From Stdlib Require Import DecimalString RelationClasses Lia.
Import ListNotations.

Local Open Scope list_scope.
Local Open Scope string_scope.
Local Set Warnings "-register-all".

(** ** JavaScript values *)

(** [if (s)] on a value of type [string | null]: null and the empty
    string are falsy. *)
Definition truthy (s : option string) : bool :=
  match s with
  | Some (String _ _) => true
  | _ => false
  end.

(** [a !== b] on strings. *)
Definition strictNotEqual (a b : string) : bool := negb (String.eqb a b).

(** [a !== b] where [a] is [string | null] and [b] a string. *)
Definition notEqualNullable (a : option string) (b : string) : bool :=
  match a with
  | Some s => strictNotEqual s b
  | None => true
  end.

(** The values [JSON.parse] produces.  Numbers are kept as integers: the
    only number the synchroniser reads is [version]. *)
Inductive json : Type :=
| JNull
| JBool (b : bool)
| JNum (n : Z)
| JStr (s : string)
| JArr (items : list json)
| JObj (members : list (string * json)).

(** [JSON.parse] and [JSON.stringify] of the runtime.  [JSON_parse]
    answers [None] where [JSON.parse] throws a [SyntaxError]. *)
Class JsonRuntime : Type := {
  JSON_parse : string -> option json;
  JSON_stringify : json -> string
}.

(** [obj[k]]: [None] is [undefined]. *)
Fixpoint member (k : string) (ms : list (string * json)) : option json :=
  match ms with
  | [] => None
  | (k', v) :: rest => if String.eqb k k' then Some v else member k rest
  end.

(** [obj[k] = v]: an existing key keeps its place, a new key goes last
    (the order [JSON.stringify] follows). *)
Fixpoint set_member (k : string) (v : json) (ms : list (string * json))
  : list (string * json) :=
  match ms with
  | [] => [(k, v)]
  | (k', v') :: rest =>
      if String.eqb k k' then (k, v) :: rest
      else (k', v') :: set_member k v rest
  end.

(** [delete obj[k]]. *)
Fixpoint delete_member (k : string) (ms : list (string * json))
  : list (string * json) :=
  match ms with
  | [] => []
  | (k', v') :: rest =>
      if String.eqb k k' then delete_member k rest
      else (k', v') :: delete_member k rest
  end.

(** ** Data model ([userDataSync.ts], [abstractSynchronizer.ts]) *)

Inductive SyncStatus : Type :=
| Uninitialized | Idle | Syncing | HasConflicts.

Definition SyncStatus_eqb (a b : SyncStatus) : bool :=
  match a, b with
  | Uninitialized, Uninitialized | Idle, Idle
  | Syncing, Syncing | HasConflicts, HasConflicts => true
  | _, _ => false
  end.

Inductive UserDataSyncErrorCode : Type :=
| Unauthorized | Forbidden | ConnectionRefused | RemotePreconditionFailed
| TooLarge | NoRef | TurnedOff | SessionExpired
| LocalPreconditionFailed | LocalInvalidContent | LocalError | Incompatible
| Unknown.

Inductive ResourceKey : Type :=
| settings | keybindings | extensions | globalState.

Definition ResourceKey_toString (k : ResourceKey) : string :=
  match k with
  | settings => "settings"
  | keybindings => "keybindings"
  | extensions => "extensions"
  | globalState => "globalState"
  end.

Inductive OperatingSystem : Type := Windows | Macintosh | Linux.

(** [FileOperationResult] and [FileSystemProviderErrorCode] of the file
    service, as far as the synchroniser tells them apart. *)
Inductive FileOperationResult : Type :=
| FILE_NOT_FOUND | FILE_MODIFIED_SINCE | FILE_OTHER_ERROR.

Inductive FileSystemProviderErrorCode : Type :=
| FileExists | FileNotFound.

(** What a rejected promise carries.  [UserDataSyncStoreError] extends
    [UserDataSyncError]; [RequestFailed] is whatever
    [requestService.request] throws; [TypeError] is the runtime's error on
    reading a property of [null]. *)
Inductive exn : Type :=
| UserDataSyncError (code : UserDataSyncErrorCode)
| UserDataSyncStoreError (code : UserDataSyncErrorCode)
| FileOperationError (fileOperationResult : FileOperationResult)
| FileSystemProviderError (code : FileSystemProviderErrorCode)
| Error (message : string)
| RequestFailed
| TypeError.

(** [e instanceof UserDataSyncError], giving [e.code]. *)
Definition codeOf (e : exn) : option UserDataSyncErrorCode :=
  match e with
  | UserDataSyncError c | UserDataSyncStoreError c => Some c
  | _ => None
  end.

Definition isRemotePreconditionFailed (e : exn) : bool :=
  match codeOf e with
  | Some RemotePreconditionFailed => true
  | _ => false
  end.

Definition isLocalPreconditionFailed (e : exn) : bool :=
  match codeOf e with
  | Some LocalPreconditionFailed => true
  | _ => false
  end.

Record IUserData : Type := {
  ud_ref : string;
  ud_content : option string
}.

Record ISyncData : Type := {
  sd_version : Z;
  sd_content : string
}.

Record IRemoteUserData : Type := {
  ref : string;
  syncData : option ISyncData
}.

(** [IFileContent]: the text of a file and the modification stamp it had
    when it was read. *)
Record IFileContent : Type := {
  value : string;
  mtime : nat
}.

Record IFileSyncPreviewResult : Type := {
  fileContent : option IFileContent;
  remoteUserData : IRemoteUserData;
  lastSyncUserData : option IRemoteUserData;
  content : option string;
  hasLocalChanged : bool;
  hasRemoteChanged : bool;
  hasConflicts : bool
}.

(** Result of the merge engine ([keybindingsMerge.merge]). *)
Record IMergeResult : Type := {
  mergeContent : string;
  hasChanges : bool;
  mergeHasConflicts : bool
}.

(** ** HTTP requests *)

Inductive RequestType : Type := GET | POST | DELETE.

Definition IHeaders : Type := list (string * string).

Record IRequestOptions : Type := {
  type : RequestType;
  url : string;
  data : option string;
  headers : IHeaders
}.

(** [IRequestContext]: [res_text] is what [asText(context)] resolves to
    ([null] for an empty body). *)
Record IRequestContext : Type := {
  statusCode : Z;
  res_headers : IHeaders;
  res_text : option string
}.

Fixpoint header (k : string) (h : IHeaders) : option string :=
  match h with
  | [] => None
  | (k', v) :: rest => if String.eqb k k' then Some v else header k rest
  end.

Fixpoint set_header (k v : string) (h : IHeaders) : IHeaders :=
  match h with
  | [] => [(k, v)]
  | (k', v') :: rest =>
      if String.eqb k k' then (k, v) :: rest
      else (k', v') :: set_header k v rest
  end.

(** Modelled from the spec: [isSuccess] of [vs/platform/request] is not
    part of the sources at hand; the specification speaks of a 2xx
    response throughout. *)
Definition isSuccess (context : IRequestContext) : bool :=
  (200 <=? statusCode context)%Z && (statusCode context <? 300)%Z.

(** ** The world *)

(** The three files the keybindings synchroniser touches: the keybindings
    file ([this.file]), the checkpoint ([this.lastSyncResource]) and the
    preview ([this.conflictsPreviewResource]). *)
Inductive URI : Type :=
| keybindingsResource | lastSyncResource | keybindingsSyncPreviewResource.

Definition URI_eqb (a b : URI) : bool :=
  match a, b with
  | keybindingsResource, keybindingsResource
  | lastSyncResource, lastSyncResource
  | keybindingsSyncPreviewResource, keybindingsSyncPreviewResource => true
  | _, _ => false
  end.

(** Calls that leave the synchroniser, newest first in [trace]. *)
Inductive Event : Type :=
| EvStatusChanged (s : SyncStatus)
| EvTelemetry (name : string)
| EvTokenFailed
| EvRequest (options : IRequestOptions)
| EvMerge (localContent remoteContent : string) (baseContent : option string)
| EvBackup (key : ResourceKey) (content : string)
| EvWriteFile (resource : URI) (content : string)
| EvCreateFile (resource : URI) (content : string)
| EvDelete (resource : URI).

Record World : Type := {
  _status : SyncStatus;
  syncPreviewResultPromise : option IFileSyncPreviewResult;
  files : URI -> option IFileContent;
  clock : nat;
  requests : list IRequestOptions;
  authToken : option string;
  resourceEnabled : bool;
  keybindingsPerPlatform : bool;
  trace : list Event
}.

Definition with_status (s : SyncStatus) (w : World) : World :=
  {| _status := s;
     syncPreviewResultPromise := syncPreviewResultPromise w;
     files := files w; clock := clock w; requests := requests w;
     authToken := authToken w; resourceEnabled := resourceEnabled w;
     keybindingsPerPlatform := keybindingsPerPlatform w;
     trace := trace w |}.

Definition with_preview (p : option IFileSyncPreviewResult) (w : World) : World :=
  {| _status := _status w;
     syncPreviewResultPromise := p;
     files := files w; clock := clock w; requests := requests w;
     authToken := authToken w; resourceEnabled := resourceEnabled w;
     keybindingsPerPlatform := keybindingsPerPlatform w;
     trace := trace w |}.

Definition with_files (f : URI -> option IFileContent) (c : nat) (w : World) : World :=
  {| _status := _status w;
     syncPreviewResultPromise := syncPreviewResultPromise w;
     files := f; clock := c; requests := requests w;
     authToken := authToken w; resourceEnabled := resourceEnabled w;
     keybindingsPerPlatform := keybindingsPerPlatform w;
     trace := trace w |}.

Definition with_requests (n : list IRequestOptions) (w : World) : World :=
  {| _status := _status w;
     syncPreviewResultPromise := syncPreviewResultPromise w;
     files := files w; clock := clock w; requests := n;
     authToken := authToken w; resourceEnabled := resourceEnabled w;
     keybindingsPerPlatform := keybindingsPerPlatform w;
     trace := trace w |}.

Definition with_event (e : Event) (w : World) : World :=
  {| _status := _status w;
     syncPreviewResultPromise := syncPreviewResultPromise w;
     files := files w; clock := clock w; requests := requests w;
     authToken := authToken w; resourceEnabled := resourceEnabled w;
     keybindingsPerPlatform := keybindingsPerPlatform w;
     trace := e :: trace w |}.

(** ** The monad of asynchronous methods *)

(** [Spin]: the retry bound of the model ran out; the source keeps
    retrying. *)
Inductive result (A : Type) : Type :=
| Ok (a : A)
| Throw (e : exn)
| Spin.

Arguments Ok {A} a.
Arguments Throw {A} e.
Arguments Spin {A}.

Definition M (A : Type) : Type := World -> result A * World.

Definition ret {A} (a : A) : M A := fun w => (Ok a, w).

Definition throw {A} (e : exn) : M A := fun w => (Throw e, w).

Definition spin {A} : M A := fun w => (Spin, w).

Definition bind {A B} (m : M A) (k : A -> M B) : M B :=
  fun w =>
    match m w with
    | (Ok a, w') => k a w'
    | (Throw e, w') => (Throw e, w')
    | (Spin, w') => (Spin, w')
    end.

(** [try { m } catch (e) { handler e }]. *)
Definition tryCatch {A} (m : M A) (handler : exn -> M A) : M A :=
  fun w =>
    match m w with
    | (Throw e, w') => handler e w'
    | r => r
    end.

(** [try { m } catch (e) { /* ignore */ }]. *)
Definition ignoreErrors (m : M unit) : M unit :=
  tryCatch m (fun _ => ret tt).

(** [try { m } finally { f }] where [f] does not throw. *)
Definition tryFinally {A} (m : M A) (f : World -> World) : M A :=
  fun w => let (r, w') := m w in (r, f w').

Definition gets {A} (f : World -> A) : M A := fun w => (Ok (f w), w).

Definition modify (f : World -> World) : M unit := fun w => (Ok tt, f w).

Definition emit (e : Event) : M unit := modify (with_event e).

Declare Scope sync_scope.
Delimit Scope sync_scope with sync.

Notation "x <- m ;; k" := (bind m (fun x => k))
  (at level 61, m at next level, right associativity) : sync_scope.
Notation "m ;;; k" := (bind m (fun _ => k))
  (at level 61, right associativity) : sync_scope.

Local Open Scope sync_scope.

(** ** Collaborators outside the synchroniser *)

(** What the synchroniser is constructed with and does not implement:
    - [userDataSyncStore]: the configured store url, if any;
    - [respond history options]: the answer of [requestService.request]
      to the request [options] sent after the requests of [history]
      (newest first), [None] where the request throws (no connection);
      the server and every other writer live behind it;
    - [parse_errors content]: the number of errors the JSON parser of
      [vs/base/common/json] reports for [content] (with
      [allowEmptyContent] and [allowTrailingComma]);
    - [merge localContent remoteContent baseContent]: the merge engine
      ([keybindingsMerge.merge]), with the formatting options and the
      utility service it is given;
    - [OS]: the platform. *)
Class Collaborators : Type := {
  userDataSyncStore : option string;
  respond : list IRequestOptions -> IRequestOptions -> option IRequestContext;
  parse_errors : string -> nat;
  merge : string -> string -> option string -> IMergeResult;
  OS : OperatingSystem
}.

(** ** The file service *)

Definition put_file (resource : URI) (text : string) (w : World) : World :=
  with_files
    (fun u => if URI_eqb u resource
              then Some {| value := text; mtime := clock w |}
              else files w u)
    (S (clock w)) w.

Definition remove_file (resource : URI) (w : World) : World :=
  with_files
    (fun u => if URI_eqb u resource then None else files w u)
    (clock w) w.

(** Modelled from the spec: [fileService.readFile(resource)] of
    [vs/platform/files], like the three operations below, is not part of
    the sources at hand: the content and the stamp of the file, or
    [FILE_NOT_FOUND]. *)
Definition fileService_readFile (resource : URI) : M IFileContent :=
  fun w =>
    match files w resource with
    | Some f => (Ok f, w)
    | None => (Throw (FileOperationError FILE_NOT_FOUND), w)
    end.

(** Modelled from the spec: [fileService.writeFile(resource, text,
    options)] of [vs/platform/files] is not part of the sources at hand.
    Without [options] the file is written whatever it held.  With the
    [IFileContent] of an earlier read as [options] the write is
    conditioned on the file's last-known modification stamp: it goes
    through only if the file still carries that stamp and is refused with
    [FILE_MODIFIED_SINCE] otherwise. *)
Definition fileService_writeFile (resource : URI) (text : string)
    (options : option IFileContent) : M unit :=
  fun w =>
    match options with
    | None => (Ok tt, with_event (EvWriteFile resource text) (put_file resource text w))
    | Some known =>
        match files w resource with
        | Some current =>
            if Nat.eqb (mtime current) (mtime known)
            then (Ok tt, with_event (EvWriteFile resource text) (put_file resource text w))
            else (Throw (FileOperationError FILE_MODIFIED_SINCE), w)
        | None => (Throw (FileOperationError FILE_MODIFIED_SINCE), w)
        end
    end.

(** Modelled from the spec: [fileService.createFile(resource, text,
    { overwrite: false })]: refused with [FileExists] when the file is
    there. *)
Definition fileService_createFile (resource : URI) (text : string) : M unit :=
  fun w =>
    match files w resource with
    | Some _ => (Throw (FileSystemProviderError FileExists), w)
    | None => (Ok tt, with_event (EvCreateFile resource text) (put_file resource text w))
    end.

(** Modelled from the spec: [fileService.del(resource)]. *)
Definition fileService_del (resource : URI) : M unit :=
  fun w =>
    match files w resource with
    | Some _ => (Ok tt, with_event (EvDelete resource) (remove_file resource w))
    | None => (Throw (FileOperationError FILE_NOT_FOUND), w)
    end.

(** ** [UserDataSyncStoreService] *)

Module UserDataSyncStoreService.
Section Service.

Context {collaborators : Collaborators}.

(** [authTokenService.getToken()]. *)
Definition getToken : M (option string) := gets authToken.

(** [authTokenService.sendTokenFailed()]. *)
Definition sendTokenFailed : M unit := emit EvTokenFailed.

(** [requestService.request(options, token)]. *)
Definition requestService_request (options : IRequestOptions) : M IRequestContext :=
  fun w =>
    let w' := with_event (EvRequest options) (with_requests (options :: requests w) w) in
    match respond (requests w) options with
    | Some context => (Ok context, w')
    | None => (Throw RequestFailed, w')
    end.

Definition bearer (authToken : option string) : string :=
  match authToken with
  | Some t => "Bearer " ++ t
  | None => "Bearer "
  end.

(** [options.headers['authorization'] = `Bearer ${authToken}`]. *)
Definition authorize (authToken : option string) (options : IRequestOptions)
  : IRequestOptions :=
  {| type := type options; url := url options; data := data options;
     headers := set_header "authorization" (bearer authToken) (headers options) |}.

Definition request (options : IRequestOptions) : M IRequestContext :=
  authToken <- getToken ;;
  if negb (truthy authToken)
  then throw (UserDataSyncStoreError Unauthorized)
  else
    let options := authorize authToken options in
    context <- tryCatch (requestService_request options)
                 (fun _ => throw (UserDataSyncStoreError ConnectionRefused)) ;;
    if (statusCode context =? 401)%Z then
      sendTokenFailed ;;; throw (UserDataSyncStoreError Unauthorized)
    else if (statusCode context =? 403)%Z then
      throw (UserDataSyncStoreError Forbidden)
    else if (statusCode context =? 412)%Z then
      throw (UserDataSyncStoreError RemotePreconditionFailed)
    else if (statusCode context =? 413)%Z then
      throw (UserDataSyncStoreError TooLarge)
    else ret context.

Definition noStore : exn := Error "No settings sync store url configured.".

(** [read(key, oldValue)].  The result is [None] where the source
    returns its [oldValue!] although [oldValue] is [null]. *)
Definition read (key : ResourceKey) (oldValue : option IUserData)
  : M (option IUserData) :=
  match userDataSyncStore with
  | None => throw noStore
  | Some store =>
      let url := store ++ "/resource/" ++ ResourceKey_toString key ++ "/latest" in
      let headers := [("Cache-Control", "no-cache")] in
      let headers :=
        match oldValue with
        | Some v => set_header "If-None-Match" (ud_ref v) headers
        | None => headers
        end in
      context <- request {| type := GET; url := url; data := None; headers := headers |} ;;
      if (statusCode context =? 304)%Z then ret oldValue
      else if negb (isSuccess context) then throw (UserDataSyncStoreError Unknown)
      else
        let ref := header "etag" (res_headers context) in
        if negb (truthy ref) then throw (UserDataSyncStoreError NoRef)
        else
          match ref with
          | Some ref => ret (Some {| ud_ref := ref; ud_content := res_text context |})
          | None => throw (UserDataSyncStoreError NoRef)
          end
  end.

(** [write(key, data, ref)]. *)
Definition write (key : ResourceKey) (data : string) (ref : option string)
  : M string :=
  match userDataSyncStore with
  | None => throw noStore
  | Some store =>
      let url := store ++ "/resource/" ++ ResourceKey_toString key in
      let headers := [("Content-Type", "text/plain")] in
      let headers :=
        match ref with
        | Some r => if truthy ref then set_header "If-Match" r headers else headers
        | None => headers
        end in
      context <- request {| type := POST; url := url; data := Some data; headers := headers |} ;;
      if negb (isSuccess context) then throw (UserDataSyncStoreError Unknown)
      else
        let newRef := header "etag" (res_headers context) in
        if negb (truthy newRef) then throw (UserDataSyncStoreError NoRef)
        else
          match newRef with
          | Some newRef => ret newRef
          | None => throw (UserDataSyncStoreError NoRef)
          end
  end.

(** [resolveContent(key, ref)], for a [ref] that is one segment of a
    path. *)
Definition resolveContent (key : ResourceKey) (ref : string) : M (option string) :=
  match userDataSyncStore with
  | None => throw noStore
  | Some store =>
      let url := store ++ "/resource/" ++ ResourceKey_toString key ++ "/" ++ ref in
      context <- request {| type := GET; url := url; data := None; headers := [] |} ;;
      if negb (isSuccess context) then throw (UserDataSyncStoreError Unknown)
      else ret (res_text context)
  end.

(** [delete(key)]. *)
Definition delete (key : ResourceKey) : M unit :=
  match userDataSyncStore with
  | None => throw noStore
  | Some store =>
      let url := store ++ "/resource/" ++ ResourceKey_toString key in
      context <- request {| type := DELETE; url := url; data := None; headers := [] |} ;;
      if negb (isSuccess context) then throw (UserDataSyncStoreError Unknown)
      else ret tt
  end.

(** [clear()]. *)
Definition clear : M unit :=
  match userDataSyncStore with
  | None => throw noStore
  | Some store =>
      let url := store ++ "/resource" in
      let headers := [("Content-Type", "text/plain")] in
      context <- request {| type := DELETE; url := url; data := None; headers := headers |} ;;
      if negb (isSuccess context) then throw (UserDataSyncStoreError Unknown)
      else ret tt
  end.

End Service.
End UserDataSyncStoreService.

(** The mapping of the specification, section 4.1, as it is worded: the
    error a request ends in, read off the answer of the store ([None]: the
    request failed on the network); no error for a 2xx answer that carries
    an entity tag. *)
Definition errorOfResponse (response : option IRequestContext)
  : option UserDataSyncErrorCode :=
  match response with
  | None => Some ConnectionRefused
  | Some context =>
      if (statusCode context =? 401)%Z then Some Unauthorized
      else if (statusCode context =? 403)%Z then Some Forbidden
      else if (statusCode context =? 412)%Z then Some RemotePreconditionFailed
      else if (statusCode context =? 413)%Z then Some TooLarge
      else if negb (isSuccess context) then Some Unknown
      else if negb (truthy (header "etag" (res_headers context))) then Some NoRef
      else None
  end.

(** The store answered with the status [status]. *)
Definition answered (status : Z) (response : option IRequestContext) : bool :=
  match response with
  | Some context => (statusCode context =? status)%Z
  | None => false
  end.

(** ** [SyncSource] and the name of a [UserDataSyncError] ([userDataSync.ts]) *)

Inductive SyncSource : Type :=
| Settings | Keybindings | Extensions | GlobalState.

Definition SyncSource_toString (source : SyncSource) : string :=
  match source with
  | Settings => "Settings"
  | Keybindings => "Keybindings"
  | Extensions => "Extensions"
  | GlobalState => "GlobalState"
  end.

Definition UserDataSyncErrorCode_toString (code : UserDataSyncErrorCode) : string :=
  match code with
  | Unauthorized => "Unauthorized"
  | Forbidden => "Forbidden"
  | ConnectionRefused => "ConnectionRefused"
  | RemotePreconditionFailed => "RemotePreconditionFailed"
  | TooLarge => "TooLarge"
  | NoRef => "NoRef"
  | TurnedOff => "TurnedOff"
  | SessionExpired => "SessionExpired"
  | LocalPreconditionFailed => "LocalPreconditionFailed"
  | LocalInvalidContent => "LocalInvalidContent"
  | LocalError => "LocalError"
  | Incompatible => "Incompatible"
  | Unknown => "Unknown"
  end.

Definition getResourceKeyFromSyncSource (source : SyncSource) : ResourceKey :=
  match source with
  | Settings => settings
  | Keybindings => keybindings
  | Extensions => extensions
  | GlobalState => globalState
  end.

Definition getSyncSourceFromResourceKey (resourceKey : ResourceKey) : SyncSource :=
  match resourceKey with
  | settings => Settings
  | keybindings => Keybindings
  | extensions => Extensions
  | globalState => GlobalState
  end.

(** A [UserDataSyncError] object with its message: [code] and [source]
    are kept as the strings they are at run time ([toUserDataSyncError]
    casts whatever the name holds), [None] for an [undefined] source. *)
Record SyncErrorObject : Type := {
  se_message : string;
  se_code : string;
  se_source : option string
}.

(** [this.name] as the constructor sets it; the template prints an
    [undefined] source as the word. *)
Definition se_name (e : SyncErrorObject) : string :=
  se_code e ++ " (UserDataSyncError) " ++
  match se_source e with
  | Some source => source
  | None => "undefined"
  end.

(** The regular expression of [toUserDataSyncError],
    [/^(.+) \(UserDataSyncError\) (.+)?$/].  [.] matches every character
    but a line terminator; strings are sequences of 8-bit characters
    here, so the terminators are the line feed and the carriage return. *)
Definition isLineTerminator (c : ascii) : bool :=
  Ascii.eqb c "010"%char || Ascii.eqb c "013"%char.

Fixpoint allDots (s : string) : bool :=
  match s with
  | EmptyString => true
  | String c rest => negb (isLineTerminator c) && allDots rest
  end.

Definition marker : string := " (UserDataSyncError) ".

(** The longest [a], possibly empty, such that [s] is [a], the marker
    and some [b], with every character of [a] and of [b] matched by [.]:
    the split a greedy [(.+)] settles on. *)
Fixpoint lastMarker (s : string) : option (string * string) :=
  match s with
  | EmptyString => None
  | String c rest =>
      match (if isLineTerminator c then None else lastMarker rest) with
      | Some (a, b) => Some (String c a, b)
      | None =>
          if String.prefix marker s then
            let b := String.substring (String.length marker)
                       (String.length s - String.length marker) s in
            if allDots b then Some (EmptyString, b) else None
          else None
      end
  end.

(** [exec(name)]: the two groups of a match; the second group is
    [undefined] when nothing follows the marker. *)
Definition execName (name : string) : option (string * option string) :=
  match lastMarker name with
  | Some (String c a, b) =>
      Some (String c a, match b with
                        | EmptyString => None
                        | _ => Some b
                        end)
  | _ => None
  end.

(** [UserDataSyncError.toUserDataSyncError(error)] for an [error] that
    is not a [UserDataSyncStoreError], given by its name and its
    message. *)
Definition toUserDataSyncError (name message : string) : SyncErrorObject :=
  match execName name with
  | Some (code, source) =>
      {| se_message := message; se_code := code; se_source := source |}
  | None =>
      {| se_message := message; se_code := "Unknown"; se_source := None |}
  end.

(** ** [AbstractSynchroniser], [AbstractFileSynchroniser],
       [AbstractJsonFileSynchroniser] *)

Module AbstractSynchroniser.
Import UserDataSyncStoreService.
Section Synchroniser.

Context {json_runtime : JsonRuntime} {collaborators : Collaborators}.

(** The abstract members and constructor arguments: [this.version],
    [this.resourceKey], [this.file], [this.conflictsPreviewResource]. *)
Variable version : Z.
Variable resourceKey : ResourceKey.
Variable file : URI.
Variable conflictsPreviewResource : URI.

(** [JSON.stringify] of an [ISyncData] object literal
    [{ version, content }]. *)
Definition syncDataToJson (syncData : ISyncData) : json :=
  JObj [("version", JNum (sd_version syncData));
        ("content", JStr (sd_content syncData))].

(** [isSyncData(thing)], together with the cast to [ISyncData] it
    licenses. *)
Definition isSyncData (thing : json) : option ISyncData :=
  match thing with
  | JObj ms =>
      match member "version" ms, member "content" ms with
      | Some (JNum v), Some (JStr c) =>
          if negb (v =? 0)%Z && truthy (Some c) && Nat.eqb (length ms) 2
          then Some {| sd_version := v; sd_content := c |}
          else None
      | _, _ => None
      end
  | _ => None
  end.

Definition setStatus_ (status : SyncStatus) (w : World) : World :=
  if SyncStatus_eqb (_status w) status then w
  else
    let oldStatus := _status w in
    let w := with_event (EvStatusChanged status) (with_status status w) in
    let w :=
      if SyncStatus_eqb status HasConflicts
      then with_event (EvTelemetry "sync/conflictsDetected") w else w in
    if SyncStatus_eqb oldStatus HasConflicts && SyncStatus_eqb status Idle
    then with_event (EvTelemetry "sync/conflictsResolved") w else w.

Definition setStatus (status : SyncStatus) : M unit := modify (setStatus_ status).

(** [userDataSyncEnablementService.isResourceEnabled(this.resourceKey)]. *)
Definition isEnabled : M bool := gets resourceEnabled.

(** [parseSyncData(content)]: [None] is the [null] left by a payload that
    does not parse. *)
Definition parseSyncData (content : string) : option ISyncData :=
  match JSON_parse content with
  | Some thing =>
      match isSyncData thing with
      | Some syncData => Some syncData
      | None => Some {| sd_version := version; sd_content := content |}
      end
  | None => None
  end.

(** [getLastSyncUserData()].  The checkpoint file is declared to hold an
    [IUserData], [{ ref: string, content: string }]; a file that parses to
    anything else makes the source compute with values outside its
    declared types and is read here as no checkpoint. *)
Definition getLastSyncUserData : M (option IRemoteUserData) :=
  tryCatch
    (content <- fileService_readFile lastSyncResource ;;
     match JSON_parse (value content) with
     | Some (JObj parsed) =>
         match member "ref" parsed, member "content" parsed with
         | Some (JStr parsedRef), Some (JStr parsedContent) =>
             match JSON_parse parsedContent with
             | Some thing =>
                 let syncData :=
                   match isSyncData thing with
                   | Some syncData => syncData
                   | None => {| sd_version := version; sd_content := parsedContent |}
                   end in
                 ret (Some {| ref := parsedRef; syncData := Some syncData |})
             | None => ret None
             end
         | _, _ => ret None
         end
     | _ => ret None
     end)
    (fun _ => ret None).

(** [updateLastSyncUserData(lastSyncRemoteUserData)], without additional
    properties. *)
Definition updateLastSyncUserData (lastSyncRemoteUserData : IRemoteUserData) : M unit :=
  let content :=
    JSON_stringify
      match syncData lastSyncRemoteUserData with
      | Some syncData => syncDataToJson syncData
      | None => JNull
      end in
  let lastSyncUserData :=
    JObj [("ref", JStr (ref lastSyncRemoteUserData)); ("content", JStr content)] in
  fileService_writeFile lastSyncResource (JSON_stringify lastSyncUserData) None.

(** [getUserData(refOrLastSyncData)] on the branch taken for an
    [IRemoteUserData | null] argument, the only one [getRemoteUserData]
    uses. *)
Definition getUserData (lastSyncData : option IRemoteUserData) : M (option IUserData) :=
  let lastSyncUserData :=
    match lastSyncData with
    | Some l =>
        Some {| ud_ref := ref l;
                ud_content :=
                  match syncData l with
                  | Some syncData => Some (JSON_stringify (syncDataToJson syncData))
                  | None => None
                  end |}
    | None => None
    end in
  read resourceKey lastSyncUserData.

(** [getRemoteUserData(lastSyncData)]; destructuring a [null] user data
    is a [TypeError]. *)
Definition getRemoteUserData (lastSyncData : option IRemoteUserData) : M IRemoteUserData :=
  userData <- getUserData lastSyncData ;;
  match userData with
  | None => throw TypeError
  | Some userData =>
      let syncData :=
        match ud_content userData with
        | Some content => parseSyncData content
        | None => None
        end in
      ret {| ref := ud_ref userData; syncData := syncData |}
  end.

Definition updateRemoteUserData (content : string) (ref : option string) : M IRemoteUserData :=
  let syncData := {| sd_version := version; sd_content := content |} in
  ref <- write resourceKey (JSON_stringify (syncDataToJson syncData)) ref ;;
  ret {| ref := ref; syncData := Some syncData |}.

(** [backupLocal(content)]: hands the envelope to
    [userDataSyncBackupStoreService.backup]. *)
Definition backupLocal (content : string) : M unit :=
  let syncData := {| sd_version := version; sd_content := content |} in
  emit (EvBackup resourceKey (JSON_stringify (syncDataToJson syncData))).

(** [hasPreviouslySynced()]. *)
Definition hasPreviouslySynced : M bool :=
  lastSyncData <- getLastSyncUserData ;;
  ret match lastSyncData with
      | Some _ => true
      | None => false
      end.

(** [getUserData(refOrLastSyncData)] on the branch taken for a string. *)
Definition getUserDataOfRef (ref : string) : M IUserData :=
  content <- resolveContent resourceKey ref ;;
  ret {| ud_ref := ref; ud_content := content |}.

(** [getRemoteContent(ref)]: [ref || await this.getLastSyncUserData()]
    takes the checkpoint when [ref] is [undefined] or empty. *)
Definition getRemoteContent (ref_ : option string) : M (option string) :=
  match ref_ with
  | Some (String _ _ as ref) =>
      userData <- getUserDataOfRef ref ;;
      ret (ud_content userData)
  | _ =>
      lastSyncUserData <- getLastSyncUserData ;;
      userData <- getUserData lastSyncUserData ;;
      match userData with
      | None => throw TypeError
      | Some userData => ret (ud_content userData)
      end
  end.

(** [resetLocal()]. *)
Definition resetLocal : M unit :=
  ignoreErrors (fileService_del lastSyncResource).

(** *** [AbstractFileSynchroniser] *)

Definition getLocalFileContent : M (option IFileContent) :=
  tryCatch (f <- fileService_readFile file ;; ret (Some f)) (fun _ => ret None).

Definition updateLocalFileContent (newContent : string)
    (oldContent : option IFileContent) : M unit :=
  tryCatch
    match oldContent with
    | Some _ => fileService_writeFile file newContent oldContent
    | None => fileService_createFile file newContent
    end
    (fun e =>
       match e with
       | FileSystemProviderError FileExists
       | FileOperationError FILE_MODIFIED_SINCE =>
           throw (UserDataSyncError LocalPreconditionFailed)
       | _ => throw e
       end).

Definition cancel : M unit := modify (with_preview None).

Definition stop : M unit :=
  cancel ;;;
  ignoreErrors (fileService_del conflictsPreviewResource) ;;;
  setStatus Idle.

(** [getRemoteContentFromPreview()] of [AbstractFileSynchroniser]. *)
Definition getRemoteContentFromPreview : M (option string) :=
  stored <- gets syncPreviewResultPromise ;;
  match stored with
  | Some result => ret (option_map sd_content (syncData (remoteUserData result)))
  | None => ret None
  end.

(** *** [AbstractJsonFileSynchroniser] *)

Definition hasErrors (content : string) : bool :=
  Nat.ltb 0 (parse_errors content).

(** *** [doSync] and [sync], over the abstract [performSync] *)

Section Sync.

Variable performSync : IRemoteUserData -> option IRemoteUserData -> M SyncStatus.

Definition incompatible (remoteUserData : IRemoteUserData) : bool :=
  match syncData remoteUserData with
  | Some syncData => (version <? sd_version syncData)%Z
  | None => false
  end.

(** [doSync(remoteUserData, lastSyncUserData)].  [retries] bounds the
    number of times the method calls itself; the source has no bound. *)
Fixpoint doSync (retries : nat) (remoteUserData : IRemoteUserData)
    (lastSyncUserData : option IRemoteUserData) : M SyncStatus :=
  if incompatible remoteUserData then
    emit (EvTelemetry "sync/incompatible") ;;;
    throw (UserDataSyncError Incompatible)
  else
    tryCatch (performSync remoteUserData lastSyncUserData)
      (fun e =>
         if isRemotePreconditionFailed e then
           remoteUserData <- getRemoteUserData None ;;
           match retries with
           | O => spin
           | S retries => doSync retries remoteUserData lastSyncUserData
           end
         else throw e).

(** [sync(ref)]. *)
Definition sync (retries : nat) (ref_ : option string) : M unit :=
  enabled <- isEnabled ;;
  if negb enabled then ret tt
  else
    status <- gets _status ;;
    if SyncStatus_eqb status HasConflicts then ret tt
    else if SyncStatus_eqb status Syncing then ret tt
    else
      setStatus Syncing ;;;
      lastSyncUserData <- getLastSyncUserData ;;
      remoteUserData <-
        match ref_, lastSyncUserData with
        | Some r, Some l =>
            if truthy ref_ && String.eqb (ref l) r then ret l
            else getRemoteUserData lastSyncUserData
        | _, _ => getRemoteUserData lastSyncUserData
        end ;;
      fun w =>
        match doSync retries remoteUserData lastSyncUserData w with
        | (Ok status, w') => (Ok tt, setStatus_ status w')
        | (Throw e, w') => (Throw e, setStatus_ Idle w')
        | (Spin, w') => (Spin, w')
        end.

(** [onFileChanges(e)] of [AbstractFileSynchroniser]; [containsFile] is
    [e.contains(this.file)] and [onDidChangeLocal] is what the listeners
    of that event do when it is fired.  The promise of [doSync] has no
    rejection handler: when it rejects the status is not set and the error
    reaches no one. *)
Section FileChanges.

Variable onDidChangeLocal : M unit.

Definition onFileChanges (retries : nat) (containsFile : bool) : M unit :=
  if negb containsFile then ret tt
  else
    enabled <- isEnabled ;;
    if negb enabled then ret tt
    else
      status <- gets _status ;;
      if SyncStatus_eqb status HasConflicts then
        stored <- gets syncPreviewResultPromise ;;
        match stored with
        | Some result =>
            cancel ;;;
            ignoreErrors
              (status <- doSync retries (remoteUserData result) (lastSyncUserData result) ;;
               setStatus status)
        | None => ret tt
        end
      else onDidChangeLocal.

End FileChanges.

End Sync.
End Synchroniser.
End AbstractSynchroniser.

(** ** [KeybindingsSynchroniser] *)

Module KeybindingsSynchroniser.
Import UserDataSyncStoreService.
Section Synchroniser.

Context {json_runtime : JsonRuntime} {collaborators : Collaborators}.

Definition version : Z := 1.
Definition resourceKey : ResourceKey := keybindings.
Definition file : URI := keybindingsResource.
Definition conflictsPreviewResource : URI := keybindingsSyncPreviewResource.

Definition setStatus := AbstractSynchroniser.setStatus.
Definition getLocalFileContent := AbstractSynchroniser.getLocalFileContent file.
Definition updateLocalFileContent := AbstractSynchroniser.updateLocalFileContent file.
Definition updateRemoteUserData := AbstractSynchroniser.updateRemoteUserData version resourceKey.
Definition updateLastSyncUserData := AbstractSynchroniser.updateLastSyncUserData.
Definition backupLocal := AbstractSynchroniser.backupLocal version resourceKey.
Definition hasErrors := AbstractSynchroniser.hasErrors.
Definition cancel := AbstractSynchroniser.cancel.

(** The member of [ISyncContent] that [switch (OS)] selects. *)
Definition platformMember : string :=
  match OS with
  | Macintosh => "mac"
  | Linux => "linux"
  | Windows => "windows"
  end.

(** [getKeybindingsContentFromSyncContent(syncContent)]; [perPlatform] is
    the setting [sync.keybindingsPerPlatform].  The members of
    [ISyncContent] are declared strings; a member holding another JSON
    value than a string or [null] is read as absent. *)
Definition getKeybindingsContentFromSyncContent (perPlatform : bool)
    (syncContent : string) : option string :=
  match JSON_parse syncContent with
  | Some (JObj parsed) =>
      match member (if perPlatform then platformMember else "all") parsed with
      | Some (JStr keybindingsContent) => Some keybindingsContent
      | _ => None
      end
  | _ => None
  end.

(** [toSyncContent(keybindingsContent, syncContent)].  [JSON.parse] of
    the literal text of the empty object is the empty object, which is
    also what [parsed] keeps when parsing throws.  A payload that parses
    to something else than an object is outside [ISyncContent]; the
    model starts from the empty object there as well. *)
Definition toSyncContent (perPlatform : bool) (keybindingsContent : string)
    (syncContent : option string) : string :=
  let parsed :=
    match syncContent with
    | Some text =>
        if truthy syncContent then
          match JSON_parse text with
          | Some (JObj parsed) => parsed
          | _ => []
          end
        else []
    | None => []
    end in
  let parsed :=
    if negb perPlatform
    then set_member "all" (JStr keybindingsContent) parsed
    else delete_member "all" parsed in
  let parsed := set_member platformMember (JStr keybindingsContent) parsed in
  JSON_stringify (JObj parsed).

Definition syncContentOf (perPlatform : bool) (userData : option IRemoteUserData)
  : option string :=
  match userData with
  | Some userData =>
      match syncData userData with
      | Some syncData =>
          getKeybindingsContentFromSyncContent perPlatform (sd_content syncData)
      | None => None
      end
  | None => None
  end.

(** [generatePreview(remoteUserData, lastSyncUserData, token)];
    [isCancellationRequested] is the state of [token] when it is
    consulted.  The formatting options are read for the merge alone,
    which is a collaborator here; reading them, the merge and the write
    of the preview file are taken to return. *)
Definition generatePreview (remoteUserData : IRemoteUserData)
    (lastSyncUserData : option IRemoteUserData) (isCancellationRequested : bool)
  : M IFileSyncPreviewResult :=
  perPlatform <- gets keybindingsPerPlatform ;;
  let remoteContent := syncContentOf perPlatform (Some remoteUserData) in
  let lastSyncContent := syncContentOf perPlatform lastSyncUserData in
  fileContent <- getLocalFileContent ;;
  changes <-
    match remoteContent with
    | Some remoteContent_ =>
        if truthy remoteContent then
          let localContent :=
            match fileContent with
            | Some f => value f
            | None => "[]"
            end in
          if hasErrors localContent then
            throw (UserDataSyncError LocalInvalidContent)
          else if negb (truthy lastSyncContent)
                  || notEqualNullable lastSyncContent localContent
                  || notEqualNullable lastSyncContent remoteContent_ then
            emit (EvMerge localContent remoteContent_ lastSyncContent) ;;;
            let result := merge localContent remoteContent_ lastSyncContent in
            if hasChanges result then
              ret (Some (mergeContent result),
                   mergeHasConflicts result
                   || strictNotEqual (mergeContent result) localContent,
                   mergeHasConflicts result
                   || strictNotEqual (mergeContent result) remoteContent_,
                   mergeHasConflicts result)
            else ret (None, false, false, false)
          else ret (None, false, false, false)
        else
          match fileContent with
          | Some f => ret (Some (value f), false, true, false)
          | None => ret (None, false, false, false)
          end
    | None =>
        match fileContent with
        | Some f => ret (Some (value f), false, true, false)
        | None => ret (None, false, false, false)
        end
    end ;;
  let '(content, hasLocalChanged, hasRemoteChanged, hasConflicts) := changes in
  match content with
  | Some text =>
      if truthy content && negb isCancellationRequested
      then fileService_writeFile keybindingsSyncPreviewResource text None
      else ret tt
  | None => ret tt
  end ;;;
  ret {| fileContent := fileContent; remoteUserData := remoteUserData;
         lastSyncUserData := lastSyncUserData; content := content;
         hasLocalChanged := hasLocalChanged;
         hasRemoteChanged := hasRemoteChanged;
         hasConflicts := hasConflicts |}.

(** [getPreview(remoteUserData, lastSyncUserData)]: a stored preview is
    returned as it is; otherwise one is generated under a fresh token and
    stored.  A preview that fails to generate is cleared by the one
    caller, [performSync]. *)
Definition getPreview (remoteUserData : IRemoteUserData)
    (lastSyncUserData : option IRemoteUserData) : M IFileSyncPreviewResult :=
  stored <- gets syncPreviewResultPromise ;;
  match stored with
  | Some preview => ret preview
  | None =>
      preview <- generatePreview remoteUserData lastSyncUserData false ;;
      modify (with_preview (Some preview)) ;;;
      ret preview
  end.

(** The first part of [apply]: what is done when [content !== null].
    The result is the value of [remoteUserData] afterwards. *)
Definition applyContent (forcePush : bool) (preview : IFileSyncPreviewResult)
    (content : string) : M IRemoteUserData :=
  if hasErrors content then throw (UserDataSyncError LocalInvalidContent)
  else
    perPlatform <- gets keybindingsPerPlatform ;;
    (if hasLocalChanged preview then
       backupLocal (toSyncContent perPlatform content None) ;;;
       updateLocalFileContent content (fileContent preview)
     else ret tt) ;;;
    remoteUserData <-
      (if hasRemoteChanged preview then
         let remoteContents :=
           toSyncContent perPlatform content
             (option_map sd_content (syncData (remoteUserData preview))) in
         updateRemoteUserData remoteContents
           (if forcePush then None else Some (ref (remoteUserData preview)))
       else ret (remoteUserData preview)) ;;
    ignoreErrors (fileService_del conflictsPreviewResource) ;;;
    ret remoteUserData.

(** [lastSyncUserData?.ref !== remoteUserData.ref]. *)
Definition refChanged (lastSyncUserData : option IRemoteUserData)
    (remoteUserData : IRemoteUserData) : bool :=
  notEqualNullable (option_map ref lastSyncUserData) (ref remoteUserData).

(** The second part of [apply]: the update of the checkpoint. *)
Definition applyLastSync (preview : IFileSyncPreviewResult)
    (remoteUserData : IRemoteUserData) : M unit :=
  match
    match content preview, fileContent preview with
    | Some content, _ => Some content
    | None, Some f => Some (value f)
    | None, None => None
    end
  with
  | Some text =>
      if refChanged (lastSyncUserData preview) remoteUserData then
        perPlatform <- gets keybindingsPerPlatform ;;
        let lastSyncContent := toSyncContent perPlatform text None in
        match syncData remoteUserData with
        | Some syncData =>
            updateLastSyncUserData
              {| ref := ref remoteUserData;
                 syncData := Some {| sd_version := sd_version syncData;
                                     sd_content := lastSyncContent |} |}
        | None => throw TypeError
        end
      else ret tt
  | None => ret tt
  end.

(** [apply(forcePush)]. *)
Definition apply (forcePush : bool) : M unit :=
  stored <- gets syncPreviewResultPromise ;;
  match stored with
  | None => ret tt
  | Some preview =>
      remoteUserData <-
        match content preview with
        | Some content => applyContent forcePush preview content
        | None => ret (remoteUserData preview)
        end ;;
      applyLastSync preview remoteUserData ;;;
      modify (with_preview None)
  end.

(** [performSync(remoteUserData, lastSyncUserData)].  [retries] bounds
    the number of times the method calls itself. *)
Fixpoint performSync (retries : nat) (remoteUserData : IRemoteUserData)
    (lastSyncUserData : option IRemoteUserData) : M SyncStatus :=
  tryCatch
    (result <- getPreview remoteUserData lastSyncUserData ;;
     if hasConflicts result then ret HasConflicts
     else apply false ;;; ret Idle)
    (fun e =>
       modify (with_preview None) ;;;
       if isLocalPreconditionFailed e then
         match retries with
         | O => spin
         | S retries => performSync retries remoteUserData lastSyncUserData
         end
       else throw e).

Definition doSync (retries : nat) :=
  AbstractSynchroniser.doSync version resourceKey (performSync retries) retries.

Definition sync (retries : nat) :=
  AbstractSynchroniser.sync version resourceKey (performSync retries) retries.

(** [accept(content)].  The status [HasConflicts] is set by
    [performSync] together with a stored preview; without one the spread
    of [null] leaves a preview with no member but [content], on which
    [apply] ends in a [TypeError] once the content has passed
    [hasErrors] and the preview file is deleted. *)
Definition accept (content_ : string) : M unit :=
  status <- gets _status ;;
  if SyncStatus_eqb status HasConflicts then
    stored <- gets syncPreviewResultPromise ;;
    match stored with
    | Some preview =>
        cancel ;;;
        modify (with_preview
                  (Some {| fileContent := fileContent preview;
                           remoteUserData := remoteUserData preview;
                           lastSyncUserData := lastSyncUserData preview;
                           content := Some content_;
                           hasLocalChanged := hasLocalChanged preview;
                           hasRemoteChanged := hasRemoteChanged preview;
                           hasConflicts := hasConflicts preview |})) ;;;
        apply true ;;;
        setStatus Idle
    | None =>
        if hasErrors content_ then throw (UserDataSyncError LocalInvalidContent)
        else
          ignoreErrors (fileService_del conflictsPreviewResource) ;;;
          throw TypeError
    end
  else ret tt.

Definition getLastSyncUserData := AbstractSynchroniser.getLastSyncUserData version.
Definition getRemoteUserData := AbstractSynchroniser.getRemoteUserData version resourceKey.
Definition parseSyncData := AbstractSynchroniser.parseSyncData version.

(** [getRemoteContentFromPreview()]. *)
Definition getRemoteContentFromPreview : M (option string) :=
  content <- AbstractSynchroniser.getRemoteContentFromPreview ;;
  match content with
  | Some content =>
      perPlatform <- gets keybindingsPerPlatform ;;
      ret (getKeybindingsContentFromSyncContent perPlatform content)
  | None => ret None
  end.

(** [getFragment(content, fragment)]. *)
Definition getFragment (perPlatform : bool) (content fragment : string)
  : option string :=
  match parseSyncData content with
  | Some syncData =>
      if String.eqb fragment "keybindings"
      then getKeybindingsContentFromSyncContent perPlatform (sd_content syncData)
      else None
  | None => None
  end.

(** [getRemoteContent(ref, fragment)]. *)
Definition getRemoteContent (ref_ fragment : option string) : M (option string) :=
  content <- AbstractSynchroniser.getRemoteContent version resourceKey ref_ ;;
  match content, fragment with
  | Some text, Some (String _ _ as name) =>
      perPlatform <- gets keybindingsPerPlatform ;;
      ret (getFragment perPlatform text name)
  | _, _ => ret content
  end.

(** [pull] and [push] call [this.stop()] without [await]: the call runs
    [stop] up to its first [await], which is [cancel()]; what is left of
    [stop], the deletion of the preview file and [setStatus(Idle)], is a
    task of its own that runs later, [stopLater]. *)
Definition stopLater : M unit :=
  ignoreErrors (fileService_del conflictsPreviewResource) ;;;
  setStatus Idle.

(** [pull()]. *)
Definition pull : M unit :=
  enabled <- AbstractSynchroniser.isEnabled ;;
  if negb enabled then ret tt
  else
    cancel ;;;
    tryFinally
      (setStatus Syncing ;;;
       lastSyncUserData <- getLastSyncUserData ;;
       remoteUserData <- getRemoteUserData lastSyncUserData ;;
       perPlatform <- gets keybindingsPerPlatform ;;
       match syncContentOf perPlatform (Some remoteUserData) with
       | Some content =>
           fileContent <- getLocalFileContent ;;
           modify (with_preview
                     (Some {| fileContent := fileContent;
                              remoteUserData := remoteUserData;
                              lastSyncUserData := lastSyncUserData;
                              content := Some content;
                              hasLocalChanged := true;
                              hasRemoteChanged := false;
                              hasConflicts := false |})) ;;;
           apply false
       | None => ret tt
       end)
      (AbstractSynchroniser.setStatus_ Idle).

(** [push()]. *)
Definition push : M unit :=
  enabled <- AbstractSynchroniser.isEnabled ;;
  if negb enabled then ret tt
  else
    cancel ;;;
    tryFinally
      (setStatus Syncing ;;;
       fileContent <- getLocalFileContent ;;
       match fileContent with
       | Some f =>
           lastSyncUserData <- getLastSyncUserData ;;
           remoteUserData <- getRemoteUserData lastSyncUserData ;;
           modify (with_preview
                     (Some {| fileContent := fileContent;
                              remoteUserData := remoteUserData;
                              lastSyncUserData := lastSyncUserData;
                              content := Some (value f);
                              hasLocalChanged := false;
                              hasRemoteChanged := true;
                              hasConflicts := false |})) ;;;
           apply true
       | None => ret tt
       end)
      (AbstractSynchroniser.setStatus_ Idle).

(** [onFileChanges(e)], inherited. *)
Definition onFileChanges (onDidChangeLocal : M unit) (retries : nat) :=
  AbstractSynchroniser.onFileChanges version resourceKey (performSync retries)
    onDidChangeLocal retries.

(** The object [toSyncContent] hands to [JSON.stringify]. *)
Definition syncContentObject (perPlatform : bool) (keybindingsContent : string)
    (syncContent : option string) : list (string * json) :=
  let parsed :=
    match syncContent with
    | Some text =>
        if truthy syncContent then
          match JSON_parse text with
          | Some (JObj parsed) => parsed
          | _ => []
          end
        else []
    | None => []
    end in
  let parsed :=
    if negb perPlatform
    then set_member "all" (JStr keybindingsContent) parsed
    else delete_member "all" parsed in
  set_member platformMember (JStr keybindingsContent) parsed.

End Synchroniser.
End KeybindingsSynchroniser.

(** ** A concrete runtime and concrete collaborators

    Used to run the methods on explicit inputs. *)

Module Runtime.

Definition dquote : ascii := "034"%char.
Definition backslash : ascii := "092"%char.

Fixpoint escape (s : string) : string :=
  match s with
  | EmptyString => EmptyString
  | String c rest =>
      if Ascii.eqb c dquote || Ascii.eqb c backslash
      then String backslash (String c (escape rest))
      else String c (escape rest)
  end.

Definition quote (s : string) : string :=
  String dquote (escape s ++ String dquote EmptyString).

(** [JSON.stringify] on the fragment without control characters. *)
Fixpoint stringify (j : json) : string :=
  match j with
  | JNull => "null"
  | JBool true => "true"
  | JBool false => "false"
  | JNum n => NilZero.string_of_int (Z.to_int n)
  | JStr s => quote s
  | JArr items =>
      "[" ++
      (fix items_ (l : list json) : string :=
         match l with
         | [] => EmptyString
         | [x] => stringify x
         | x :: rest => stringify x ++ "," ++ items_ rest
         end) items ++ "]"
  | JObj members =>
      "{" ++
      (fix members_ (l : list (string * json)) : string :=
         match l with
         | [] => EmptyString
         | [(k, v)] => quote k ++ ":" ++ stringify v
         | (k, v) :: rest => quote k ++ ":" ++ stringify v ++ "," ++ members_ rest
         end) members ++ "}"
  end.

Definition isSpace (c : ascii) : bool :=
  Ascii.eqb c " "%char || Ascii.eqb c "010"%char
  || Ascii.eqb c "013"%char || Ascii.eqb c "009"%char.

Definition isDigit (c : ascii) : bool :=
  (48 <=? nat_of_ascii c)%nat && (nat_of_ascii c <=? 57)%nat.

Fixpoint skipSpace (s : string) : string :=
  match s with
  | String c rest => if isSpace c then skipSpace rest else s
  | EmptyString => s
  end.

(** The characters of a string literal after its opening quote, and what
    follows the closing quote. *)
Fixpoint parseChars (s : string) : option (string * string) :=
  match s with
  | EmptyString => None
  | String c rest =>
      if Ascii.eqb c dquote then Some (EmptyString, rest)
      else if Ascii.eqb c backslash then
        match rest with
        | String c' rest' =>
            match parseChars rest' with
            | Some (t, after) => Some (String c' t, after)
            | None => None
            end
        | EmptyString => None
        end
      else
        match parseChars rest with
        | Some (t, after) => Some (String c t, after)
        | None => None
        end
  end.

Fixpoint takeDigits (s : string) : string * string :=
  match s with
  | String c rest =>
      if isDigit c then let (d, after) := takeDigits rest in (String c d, after)
      else (EmptyString, s)
  | EmptyString => (EmptyString, s)
  end.

Definition parseNumber (s : string) : option (json * string) :=
  let (sign, body) :=
    match s with
    | String "-"%char rest => ("-", rest)
    | _ => (EmptyString, s)
    end in
  let (digits, after) := takeDigits body in
  match digits with
  | EmptyString => None
  | _ =>
      match NilZero.int_of_string (sign ++ digits) with
      | Some i => Some (JNum (Z.of_int i), after)
      | None => None
      end
  end.

Definition dropPrefix (p s : string) : option string :=
  if String.prefix p s
  then Some (String.substring (String.length p) (String.length s - String.length p) s)
  else None.

Fixpoint parseValue (fuel : nat) (s : string) : option (json * string) :=
  match fuel with
  | O => None
  | S fuel =>
      match skipSpace s with
      | EmptyString => None
      | String c rest as text =>
          if Ascii.eqb c dquote then
            match parseChars rest with
            | Some (t, after) => Some (JStr t, after)
            | None => None
            end
          else if Ascii.eqb c "["%char then
            match skipSpace rest with
            | String "]"%char after => Some (JArr [], after)
            | _ =>
                match parseItems fuel rest with
                | Some (items, after) => Some (JArr items, after)
                | None => None
                end
            end
          else if Ascii.eqb c "{"%char then
            match skipSpace rest with
            | String "}"%char after => Some (JObj [], after)
            | _ =>
                match parseMembers fuel rest with
                | Some (members, after) => Some (JObj members, after)
                | None => None
                end
            end
          else
            match dropPrefix "null" text, dropPrefix "true" text,
                  dropPrefix "false" text with
            | Some after, _, _ => Some (JNull, after)
            | _, Some after, _ => Some (JBool true, after)
            | _, _, Some after => Some (JBool false, after)
            | _, _, _ => parseNumber text
            end
      end
  end
with parseItems (fuel : nat) (s : string) : option (list json * string) :=
  match fuel with
  | O => None
  | S fuel =>
      match parseValue fuel s with
      | Some (x, after) =>
          match skipSpace after with
          | String "]"%char after => Some ([x], after)
          | String ","%char after =>
              match parseItems fuel after with
              | Some (xs, after) => Some (x :: xs, after)
              | None => None
              end
          | _ => None
          end
      | None => None
      end
  end
with parseMembers (fuel : nat) (s : string)
  : option (list (string * json) * string) :=
  match fuel with
  | O => None
  | S fuel =>
      match skipSpace s with
      | String c rest =>
          if Ascii.eqb c dquote then
            match parseChars rest with
            | Some (k, after) =>
                match skipSpace after with
                | String ":"%char after =>
                    match parseValue fuel after with
                    | Some (v, after) =>
                        match skipSpace after with
                        | String "}"%char after => Some ([(k, v)], after)
                        | String ","%char after =>
                            match parseMembers fuel after with
                            | Some (ms, after) => Some ((k, v) :: ms, after)
                            | None => None
                            end
                        | _ => None
                        end
                    | None => None
                    end
                | _ => None
                end
            | None => None
            end
          else None
      | EmptyString => None
      end
  end.

(** [JSON.parse] on the same fragment. *)
Definition parse (s : string) : option json :=
  match parseValue (2 * String.length s + 2) s with
  | Some (j, after) =>
      match skipSpace after with
      | EmptyString => Some j
      | _ => None
      end
  | None => None
  end.

#[export] Instance runtime : JsonRuntime :=
  {| JSON_parse := parse; JSON_stringify := stringify |}.

End Runtime.

Module Demo.
Import Runtime.

(** A store behind [respond] that holds one resource under an entity tag
    and serves one client: a conditional read of the current tag is
    answered 304, a conditional write against another tag 412, every
    accepted write moves the tag on. *)
Record Stored : Type := {
  stored_tag : nat;
  stored_content : option string
}.

Definition etag (n : nat) : string := NilZero.string_of_uint (Nat.to_uint n).

Definition reply (status : Z) (tag : option nat) (text : option string)
  : IRequestContext :=
  {| statusCode := status;
     res_headers := match tag with
                    | Some n => [("etag", etag n)]
                    | None => []
                    end;
     res_text := text |}.

Definition serve (st : Stored) (o : IRequestOptions) : IRequestContext * Stored :=
  let current := etag (stored_tag st) in
  let latest :=
    reply (match stored_content st with Some _ => 200 | None => 204 end)
          (Some (stored_tag st)) (stored_content st) in
  let accept :=
    (reply 200 (Some (S (stored_tag st))) None,
     {| stored_tag := S (stored_tag st); stored_content := data o |}) in
  match type o with
  | GET =>
      match header "If-None-Match" (headers o) with
      | Some r => if String.eqb r current then (reply 304 None None, st) else (latest, st)
      | None => (latest, st)
      end
  | POST =>
      match header "If-Match" (headers o) with
      | Some r => if String.eqb r current then accept else (reply 412 None None, st)
      | None => accept
      end
  | DELETE =>
      (reply 204 None None, {| stored_tag := S (stored_tag st); stored_content := None |})
  end.

(** The store after the requests of [history] (newest first). *)
Fixpoint replay (initial : Stored) (history : list IRequestOptions) : Stored :=
  match history with
  | [] => initial
  | o :: older => snd (serve (replay initial older) o)
  end.

Definition answer (initial : Stored) (history : list IRequestOptions)
    (o : IRequestOptions) : option IRequestContext :=
  Some (fst (serve (replay initial history) o)).

(** A server that answers every request with the same status. *)
Definition always (status : Z) (history : list IRequestOptions)
    (o : IRequestOptions) : option IRequestContext :=
  Some (reply status None None).

(** A stand-in for the JSON parser's verdict on a keybindings file: the
    empty text is allowed, any other text has to open an array. *)
Definition errorsOf (content : string) : nat :=
  match content with
  | EmptyString => 0
  | String "["%char _ => 0
  | _ => 1
  end.

(** A merge engine on whole texts: equal sides need no change, a side
    equal to the base gives way to the other, anything else is a
    conflict. *)
Definition threeWay (localContent remoteContent : string)
    (baseContent : option string) : IMergeResult :=
  if String.eqb localContent remoteContent then
    {| mergeContent := localContent; hasChanges := false; mergeHasConflicts := false |}
  else
    match baseContent with
    | Some base =>
        if String.eqb base localContent then
          {| mergeContent := remoteContent; hasChanges := true; mergeHasConflicts := false |}
        else if String.eqb base remoteContent then
          {| mergeContent := localContent; hasChanges := true; mergeHasConflicts := false |}
        else
          {| mergeContent := localContent; hasChanges := true; mergeHasConflicts := true |}
    | None =>
        {| mergeContent := localContent; hasChanges := true; mergeHasConflicts := true |}
    end.

Definition withServer
    (server : list IRequestOptions -> IRequestOptions -> option IRequestContext)
  : Collaborators :=
  {| userDataSyncStore := Some "https://store/v1";
     respond := server;
     parse_errors := errorsOf;
     merge := threeWay;
     OS := Linux |}.

(** The store starts without the resource. *)
Definition emptyStore : Stored := {| stored_tag := 1; stored_content := None |}.

(** A machine that has not synchronised yet: [keybindings] is the text of
    the keybindings file, if there is one. *)
Definition freshWorld (keybindings : option string) : World :=
  {| _status := Idle;
     syncPreviewResultPromise := None;
     files := fun u =>
                match u, keybindings with
                | keybindingsResource, Some text => Some {| value := text; mtime := 0 |}
                | _, _ => None
                end;
     clock := 1;
     requests := [];
     authToken := Some "token";
     resourceEnabled := true;
     keybindingsPerPlatform := false;
     trace := [] |}.

(** The sync content of the keybindings [text] alone, and the remote
    data and the store that hold it under the entity tag of [tag]. *)
Definition syncContent (text : string) : string :=
  stringify (JObj [("all", JStr text); ("linux", JStr text)]).

Definition syncDataOf (text : string) : ISyncData :=
  {| sd_version := 1; sd_content := syncContent text |}.

Definition envelope (text : string) : string :=
  stringify (JObj [("version", JNum 1); ("content", JStr (syncContent text))]).

Definition remoteOf (tag : nat) (text : string) : IRemoteUserData :=
  {| ref := etag tag; syncData := Some (syncDataOf text) |}.

Definition storeOf (tag : nat) (text : string) : Stored :=
  {| stored_tag := tag; stored_content := Some (envelope text) |}.

(** A machine whose last synchronisation agreed on [text] under the
    entity tag of [tag]. *)
Definition checkpointed (tag : nat) (text : string) (w : World) : World :=
  put_file lastSyncResource
    (stringify (JObj [("ref", JStr (etag tag)); ("content", JStr (envelope text))]))
    w.

Definition honest (initial : Stored) : Collaborators := withServer (answer initial).

(** The first synchronisation of a machine whose keybindings file is
    there and empty, against a store without the resource, and the
    synchronisation that follows it with nothing changed in between. *)
Definition emptyFileFirstSync : result unit * World :=
  @KeybindingsSynchroniser.sync runtime (honest emptyStore) 1 None
    (freshWorld (Some EmptyString)).

Definition emptyFileSecondSync : result unit * World :=
  @KeybindingsSynchroniser.sync runtime (honest emptyStore) 1 None
    (snd emptyFileFirstSync).

(** The same two synchronisations with the keybindings [[1]] in the
    file. *)
Definition firstSync : result unit * World :=
  @KeybindingsSynchroniser.sync runtime (honest emptyStore) 1 None
    (freshWorld (Some "[1]")).

Definition secondSync : result unit * World :=
  @KeybindingsSynchroniser.sync runtime (honest emptyStore) 1 None (snd firstSync).

(** Another machine has replaced the keybindings [[1]], agreed on at the
    last synchronisation, by [[2]]; this machine still has [[1]]. *)
Definition remoteForwardedWorld : World :=
  checkpointed 1 "[1]" (freshWorld (Some "[1]")).

Definition remoteForwardedSync : result unit * World :=
  @KeybindingsSynchroniser.sync runtime (honest (storeOf 2 "[2]")) 1 None
    remoteForwardedWorld.

(** The keybindings file was deleted here while another machine emptied
    its keybindings: both sides are the empty array now. *)
Definition bothEmptiedWorld : World :=
  checkpointed 1 "[1]" (freshWorld None).

Definition bothEmptiedSync : result unit * World :=
  @KeybindingsSynchroniser.sync runtime (honest (storeOf 2 "[]")) 1 None
    bothEmptiedWorld.

(** The preview [pull] stores when the remote still is what the last
    synchronisation left, [[2]] under the tag 1, and the keybindings file
    holds [[1]]. *)
Definition pulledPreview : IFileSyncPreviewResult :=
  {| fileContent := Some {| value := "[1]"; mtime := 0 |};
     remoteUserData := remoteOf 1 "[2]";
     lastSyncUserData := Some (remoteOf 1 "[2]");
     content := Some "[2]";
     hasLocalChanged := true;
     hasRemoteChanged := false;
     hasConflicts := false |}.

Definition pulledWorld : World :=
  with_preview (Some pulledPreview) (checkpointed 1 "[2]" (freshWorld (Some "[1]"))).

Definition pulledApply : result unit * World :=
  @KeybindingsSynchroniser.apply runtime (honest (storeOf 1 "[2]")) false pulledWorld.

(** Both machines have keybindings and have never synchronised: a
    conflict. *)
Definition conflictSync : result unit * World :=
  @KeybindingsSynchroniser.sync runtime (honest (storeOf 1 "[2]")) 1 None
    (freshWorld (Some "[1]")).

Definition conflictWorld : World := snd conflictSync.

Definition conflictPreview : IFileSyncPreviewResult :=
  {| fileContent := Some {| value := "[1]"; mtime := 0 |};
     remoteUserData := remoteOf 1 "[2]";
     lastSyncUserData := None;
     content := Some "[1]";
     hasLocalChanged := true;
     hasRemoteChanged := true;
     hasConflicts := true |}.

(** A remote resource that holds keybindings for no platform. *)
Definition hollowRemote : IRemoteUserData :=
  {| ref := etag 1; syncData := Some {| sd_version := 1; sd_content := "{}" |} |}.

(** A remote snapshot that went stale: the store has moved on to the
    tag 1. *)
Definition staleRemote : IRemoteUserData := {| ref := etag 0; syncData := None |}.

(** A machine that is signed out. *)
Definition signedOut : World :=
  {| _status := Idle;
     syncPreviewResultPromise := None;
     files := fun _ => None;
     clock := 1;
     requests := [];
     authToken := None;
     resourceEnabled := true;
     keybindingsPerPlatform := false;
     trace := [] |}.

(** A store that cannot be reached. *)
Definition unreachable : Collaborators := withServer (fun _ _ => None).

(** A sync content that holds keybindings of a Macintosh. *)
Definition macContent : string :=
  stringify (JObj [("mac", JStr "[9]"); ("all", JStr "[0]")]).

(** The machine of the conflict, after the keybindings file was edited
    into something that does not parse. *)
Definition brokenConflictWorld : World :=
  put_file keybindingsResource "oops" conflictWorld.

(** The machine of [remoteForwardedWorld] with the checkpoint and the
    store agreeing on [[2]]. *)
Definition behindWorld : World := checkpointed 1 "[2]" (freshWorld (Some "[1]")).

End Demo.

(** ** Footprints

    What a method may do to the world, as a relation between the world
    before and the world after that every run respects. *)

Definition respects {A} (R : World -> World -> Prop) (m : M A) : Prop :=
  forall w r w', m w = (r, w') -> R w w'.

(** The run adds events to the trace, all of them in [Q]. *)
Definition emits (Q : Event -> Prop) (w w' : World) : Prop :=
  exists new, trace w' = (new ++ trace w)%list /\ Forall Q new.

(** The run leaves [field] as it is. *)
Definition keeps {X} (field : World -> X) (w w' : World) : Prop :=
  field w' = field w.

(** Every run of [m] ends: it returns, or raises an error in [P]. *)
Definition raises {A} (P : exn -> Prop) (m : M A) : Prop :=
  forall w r w', m w = (r, w') ->
    match r with
    | Ok _ => True
    | Throw e => P e
    | Spin => False
    end.

(** The runtime reads back the value it printed. *)
Definition readsBack {json_runtime : JsonRuntime} (j : json) : Prop :=
  JSON_parse (JSON_stringify j) = Some j.

(** A sync content within [ISyncContent], which is what [toSyncContent]
    is declared to take: none, the empty text, a text that does not
    parse, or the text of an object. *)
Definition isSyncContent {json_runtime : JsonRuntime} (syncContent : option string)
  : Prop :=
  match syncContent with
  | Some (String _ _ as text) =>
      JSON_parse text = None \/ exists members, JSON_parse text = Some (JObj members)
  | _ => True
  end.

(** A sync content whose member for this platform and setting is what
    [ISyncContent] declares, a string, or is [null] or missing: the
    values that [getKeybindingsContentFromSyncContent] hands on as
    [string | null]. *)
Definition hasTypedKeybindings {json_runtime : JsonRuntime}
    {collaborators : Collaborators} (perPlatform : bool) (syncContent : string)
  : Prop :=
  match JSON_parse syncContent with
  | Some (JObj parsed) =>
      match
        member (if perPlatform then KeybindingsSynchroniser.platformMember else "all")
          parsed
      with
      | Some (JStr _) | Some JNull | None => True
      | Some _ => False
      end
  | _ => True
  end.

(** * Properties *)

Import UserDataSyncStoreService.

(** ** Monad laws used below *)

Lemma tryCatch_throw {A} (m : M A) h w e w' :
  m w = (Throw e, w') -> tryCatch m h w = h e w'.
Proof. intros E. unfold tryCatch. now rewrite E. Qed.

(** ** The guards of [sync] and [doSync] *)

Section AbstractProperties.

Context {json_runtime : JsonRuntime} {collaborators : Collaborators}.
Variable version : Z.
Variable resourceKey : ResourceKey.
Variable performSync : IRemoteUserData -> option IRemoteUserData -> M SyncStatus.

Local Abbreviation doSync := (AbstractSynchroniser.doSync version resourceKey performSync).
Local Abbreviation sync := (AbstractSynchroniser.sync version resourceKey performSync).
Local Abbreviation getRemoteUserData := (AbstractSynchroniser.getRemoteUserData version resourceKey).

(** C6.  When the resource is disabled, or the status is [Syncing] or
    [HasConflicts], [sync] returns at once and leaves the whole world as
    it was: no request is sent (neither a remote read nor a remote
    write), no file is written (neither the local file nor the
    checkpoint), the status is the same and no event is fired. *)
Theorem sync_is_a_no_op (retries : nat) (ref_ : option string) (w : World) :
  resourceEnabled w = false \/ _status w = Syncing \/ _status w = HasConflicts ->
  sync retries ref_ w = (Ok tt, w).
Proof.
  intros H. unfold AbstractSynchroniser.sync, AbstractSynchroniser.isEnabled, bind, gets.
  destruct (resourceEnabled w) eqn:E; simpl; [ | reflexivity].
  destruct H as [H | [H | H]]; [discriminate | rewrite H | rewrite H]; reflexivity.
Qed.

(** C7.  When the remote sync data exists and its version is greater
    than the version of the synchroniser, [doSync] throws [Incompatible]
    whatever [performSync] is, that is before calling it; all it does to
    the world is to log the telemetry event, so there is no merge, no
    local write, no remote write and no checkpoint update. *)
Theorem doSync_incompatible (retries : nat) (remoteUserData : IRemoteUserData)
    (lastSyncUserData : option IRemoteUserData) (syncData_ : ISyncData) (w : World) :
  syncData remoteUserData = Some syncData_ ->
  (version < sd_version syncData_)%Z ->
  doSync retries remoteUserData lastSyncUserData w
  = (Throw (UserDataSyncError Incompatible),
     with_event (EvTelemetry "sync/incompatible") w).
Proof.
  intros Hs Hv.
  assert (Hi : AbstractSynchroniser.incompatible version remoteUserData = true).
  { unfold AbstractSynchroniser.incompatible. rewrite Hs. now apply Z.ltb_lt. }
  destruct retries; simpl; rewrite Hi; reflexivity.
Qed.

(** [doSync] one step further, when the data is compatible. *)
Lemma doSync_unfold retries remoteUserData lastSyncUserData :
  AbstractSynchroniser.incompatible version remoteUserData = false ->
  doSync retries remoteUserData lastSyncUserData
  = tryCatch (performSync remoteUserData lastSyncUserData)
      (fun e =>
         if isRemotePreconditionFailed e then
           bind (getRemoteUserData None)
             (fun remoteUserData =>
                match retries with
                | O => spin
                | S retries => doSync retries remoteUserData lastSyncUserData
                end)
         else throw e).
Proof. intros Hi. destruct retries; simpl; rewrite Hi; reflexivity. Qed.

(** A [RemotePreconditionFailed] that leaves [doSync] was thrown by a
    re-fetch that followed a [RemotePreconditionFailed] of
    [performSync]. *)
Lemma doSync_precondition_failed_origin retries :
  forall remoteUserData lastSyncUserData w e w',
    doSync retries remoteUserData lastSyncUserData w = (Throw e, w') ->
    isRemotePreconditionFailed e = true ->
    exists remote0 e0 w0 w1,
      performSync remote0 lastSyncUserData w0 = (Throw e0, w1)
      /\ isRemotePreconditionFailed e0 = true
      /\ getRemoteUserData None w1 = (Throw e, w').
Proof.
  induction retries as [ | n IH]; intros remote last w e w' Hrun He.
  - destruct (AbstractSynchroniser.incompatible version remote) eqn:Hi.
    + simpl in Hrun. rewrite Hi in Hrun. unfold bind, emit, modify, throw in Hrun.
      inversion Hrun; subst. discriminate.
    + rewrite (doSync_unfold _ _ _ Hi) in Hrun. unfold tryCatch in Hrun.
      destruct (performSync remote last w) as [[s | e0 | ] w1] eqn:Hp; try discriminate.
      destruct (isRemotePreconditionFailed e0) eqn:He0.
      * unfold bind in Hrun.
        destruct (getRemoteUserData None w1) as [[r | e1 | ] w2] eqn:Hg;
          try discriminate.
        inversion Hrun; subst. now exists remote, e0, w, w1.
      * unfold throw in Hrun. inversion Hrun; subst. congruence.
  - destruct (AbstractSynchroniser.incompatible version remote) eqn:Hi.
    + simpl in Hrun. rewrite Hi in Hrun. unfold bind, emit, modify, throw in Hrun.
      inversion Hrun; subst. discriminate.
    + rewrite (doSync_unfold _ _ _ Hi) in Hrun. unfold tryCatch in Hrun.
      destruct (performSync remote last w) as [[s | e0 | ] w1] eqn:Hp; try discriminate.
      destruct (isRemotePreconditionFailed e0) eqn:He0.
      * unfold bind in Hrun.
        destruct (getRemoteUserData None w1) as [[r | e1 | ] w2] eqn:Hg;
          try discriminate.
        -- eapply IH; eassumption.
        -- inversion Hrun; subst. now exists remote, e0, w, w1.
      * unfold throw in Hrun. inversion Hrun; subst. congruence.
Qed.

End AbstractProperties.

(** ** The remote store client *)

Section StoreProperties.

Context {collaborators : Collaborators}.

(** [request] in closed form, once a token is at hand. *)
Lemma request_run (options : IRequestOptions) (w : World) :
  truthy (authToken w) = true ->
  request options w =
    let sent := authorize (authToken w) options in
    let w' := with_event (EvRequest sent) (with_requests (sent :: requests w) w) in
    match respond (requests w) sent with
    | None => (Throw (UserDataSyncStoreError ConnectionRefused), w')
    | Some context =>
        if (statusCode context =? 401)%Z then
          (Throw (UserDataSyncStoreError Unauthorized), with_event EvTokenFailed w')
        else if (statusCode context =? 403)%Z then
          (Throw (UserDataSyncStoreError Forbidden), w')
        else if (statusCode context =? 412)%Z then
          (Throw (UserDataSyncStoreError RemotePreconditionFailed), w')
        else if (statusCode context =? 413)%Z then
          (Throw (UserDataSyncStoreError TooLarge), w')
        else (Ok context, w')
    end.
Proof.
  intros Ht. unfold request, bind, getToken, gets. rewrite Ht. simpl.
  unfold tryCatch, requestService_request.
  destruct (respond (requests w) (authorize (authToken w) options)) as [c | ];
    [ | reflexivity].
  destruct (statusCode c =? 401)%Z; [reflexivity | ].
  destruct (statusCode c =? 403)%Z; [reflexivity | ].
  destruct (statusCode c =? 412)%Z; [reflexivity | ].
  destruct (statusCode c =? 413)%Z; reflexivity.
Qed.

(** Without a token nothing is sent. *)
Lemma request_without_token (options : IRequestOptions) (w : World) :
  truthy (authToken w) = false ->
  request options w = (Throw (UserDataSyncStoreError Unauthorized), w).
Proof.
  intros Ht. unfold request, bind, getToken, gets. now rewrite Ht.
Qed.

(** The events of one [request]: at most the request itself and the
    token-failure notification. *)
Lemma request_trace (options : IRequestOptions) (w : World) :
  forall r w', request options w = (r, w') ->
    trace w' = trace w
    \/ trace w' = EvRequest (authorize (authToken w) options) :: trace w
    \/ trace w' = EvTokenFailed :: EvRequest (authorize (authToken w) options) :: trace w.
Proof.
  intros r w' H. destruct (truthy (authToken w)) eqn:Ht.
  - rewrite (request_run _ _ Ht) in H. cbv zeta in H.
    destruct (respond (requests w) (authorize (authToken w) options)) as [c | ].
    + destruct (statusCode c =? 401)%Z;
        [ inversion H; subst; right; right; reflexivity | ].
      destruct (statusCode c =? 403)%Z;
        [ inversion H; subst; right; left; reflexivity | ].
      destruct (statusCode c =? 412)%Z;
        [ inversion H; subst; right; left; reflexivity | ].
      destruct (statusCode c =? 413)%Z;
        inversion H; subst; right; left; reflexivity.
    + inversion H; subst. right; left; reflexivity.
  - rewrite (request_without_token _ _ Ht) in H. inversion H; subst. now left.
Qed.

(** C2 (amended).  A [read] and a [write] that have a token and a
    configured store send exactly one request, and what they end in is
    read off the answer of the store as the specification words it: 401
    raises [Unauthorized] and, only then, the token-failure notification
    is sent; 403 raises [Forbidden]; 412 [RemotePreconditionFailed]; 413
    [TooLarge]; a request that fails on the network [ConnectionRefused];
    any other status outside 2xx [Unknown]; a 2xx answer without entity
    tag [NoRef].  The one departure: a [read] answered 304 raises nothing
    and returns the previous value. *)
Theorem status_code_mapping (key : ResourceKey) (oldValue : option IUserData)
    (data_ : string) (ref_ : option string) (store : string) (w : World) :
  userDataSyncStore = Some store ->
  truthy (authToken w) = true ->
  (exists o,
      type o = GET
      /\ requests (snd (read key oldValue w)) = o :: requests w
      /\ trace (snd (read key oldValue w))
         = ((if answered 401 (respond (requests w) o) then [EvTokenFailed] else [])
              ++ EvRequest o :: trace w)%list
      /\ (if answered 304 (respond (requests w) o)
          then fst (read key oldValue w) = Ok oldValue
          else
            match errorOfResponse (respond (requests w) o) with
            | Some code =>
                fst (read key oldValue w) = Throw (UserDataSyncStoreError code)
            | None =>
                exists userData, fst (read key oldValue w) = Ok (Some userData)
            end))
  /\ (exists o,
      type o = POST
      /\ requests (snd (write key data_ ref_ w)) = o :: requests w
      /\ trace (snd (write key data_ ref_ w))
         = ((if answered 401 (respond (requests w) o) then [EvTokenFailed] else [])
              ++ EvRequest o :: trace w)%list
      /\ match errorOfResponse (respond (requests w) o) with
         | Some code =>
             fst (write key data_ ref_ w) = Throw (UserDataSyncStoreError code)
         | None =>
             exists newRef, fst (write key data_ ref_ w) = Ok newRef
         end).
Proof.
  intros Hs Ht. split.
  - unfold read. rewrite Hs.
    match goal with
    | |- context [request ?o] => set (o0 := o)
    end.
    exists (authorize (authToken w) o0).
    unfold bind. rewrite (request_run _ _ Ht). cbv zeta.
    unfold errorOfResponse, answered.
    destruct (respond (requests w) (authorize (authToken w) o0)) as [c | ];
      [ | simpl; auto].
    destruct (statusCode c =? 401)%Z eqn:E401.
    { apply Z.eqb_eq in E401. rewrite E401. simpl. auto. }
    destruct (statusCode c =? 403)%Z eqn:E403.
    { apply Z.eqb_eq in E403. rewrite E403. simpl. auto. }
    destruct (statusCode c =? 412)%Z eqn:E412.
    { apply Z.eqb_eq in E412. rewrite E412. simpl. auto. }
    destruct (statusCode c =? 413)%Z eqn:E413.
    { apply Z.eqb_eq in E413. rewrite E413. simpl. auto. }
    destruct (statusCode c =? 304)%Z eqn:E304; [simpl; auto | ].
    destruct (isSuccess c); [ | simpl; auto].
    destruct (header "etag" (res_headers c)) as [[ | a t] | ]; simpl; eauto 8.
  - unfold write. rewrite Hs.
    match goal with
    | |- context [request ?o] => set (o0 := o)
    end.
    exists (authorize (authToken w) o0).
    unfold bind. rewrite (request_run _ _ Ht). cbv zeta.
    unfold errorOfResponse, answered.
    destruct (respond (requests w) (authorize (authToken w) o0)) as [c | ];
      [ | simpl; auto].
    destruct (statusCode c =? 401)%Z eqn:E401; [simpl; auto | ].
    destruct (statusCode c =? 403)%Z eqn:E403; [simpl; auto | ].
    destruct (statusCode c =? 412)%Z eqn:E412; [simpl; auto | ].
    destruct (statusCode c =? 413)%Z eqn:E413; [simpl; auto | ].
    destruct (isSuccess c); [ | simpl; auto].
    destruct (header "etag" (res_headers c)) as [[ | a t] | ]; simpl; eauto 8.
Qed.

End StoreProperties.

(** ** The retry of [doSync] *)

Section RetryProperties.

Context {json_runtime : JsonRuntime} {collaborators : Collaborators}.
Variable version : Z.
Variable resourceKey : ResourceKey.
Variable performSync : IRemoteUserData -> option IRemoteUserData -> M SyncStatus.

Local Abbreviation doSync := (AbstractSynchroniser.doSync version resourceKey performSync).
Local Abbreviation getRemoteUserData := (AbstractSynchroniser.getRemoteUserData version resourceKey).

(** A re-fetch with no last-sync data sends at most one request, a [GET]
    that carries no [If-None-Match]: nothing cached can be answered. *)
Lemma getRemoteUserData_bypasses_cache (w : World) :
  forall o,
    In (EvRequest o) (trace (snd (getRemoteUserData None w))) ->
    In (EvRequest o) (trace w)
    \/ (type o = GET /\ header "If-None-Match" (headers o) = None).
Proof.
  intros o. unfold AbstractSynchroniser.getRemoteUserData, AbstractSynchroniser.getUserData, read.
  destruct userDataSyncStore as [store | ]; [ | simpl; auto].
  match goal with
  | |- context [request ?r] => set (o0 := r)
  end.
  assert (Hsent : type (authorize (authToken w) o0) = GET
                  /\ header "If-None-Match" (headers (authorize (authToken w) o0)) = None)
    by (split; reflexivity).
  unfold bind at 1 2.
  destruct (request o0 w) as [r w'] eqn:Hr.
  assert (Hin : In (EvRequest o) (trace w') ->
                In (EvRequest o) (trace w)
                \/ (type o = GET /\ header "If-None-Match" (headers o) = None)).
  { destruct (request_trace _ _ _ _ Hr) as [H | [H | H]]; rewrite H; simpl.
    - auto.
    - intros [E | E]; [inversion E; subst; auto | auto].
    - intros [E | [E | E]]; [discriminate | inversion E; subst; auto | auto]. }
  destruct r as [c | e | ]; simpl; try exact Hin.
  destruct (statusCode c =? 304)%Z; [simpl; exact Hin | ].
  destruct (isSuccess c); simpl; [ | exact Hin].
  destruct (header "etag" (res_headers c)) as [[ | a t] | ]; simpl; exact Hin.
Qed.

(** C1 (amended).  When [performSync] raises [RemotePreconditionFailed],
    [doSync] fetches the remote data again with no last-sync data, so
    that the request carries no [If-None-Match] and nothing cached is
    returned, and calls itself with the fresh snapshot.  No
    [RemotePreconditionFailed] raised by [performSync] leaves [doSync];
    one that does leave it was raised by such a re-fetch. *)
Theorem doSync_retries_on_precondition_failed (retries : nat)
    (remoteUserData : IRemoteUserData) (lastSyncUserData : option IRemoteUserData)
    (w w1 : World) (e : exn) :
  AbstractSynchroniser.incompatible version remoteUserData = false ->
  performSync remoteUserData lastSyncUserData w = (Throw e, w1) ->
  isRemotePreconditionFailed e = true ->
  doSync (S retries) remoteUserData lastSyncUserData w
  = bind (getRemoteUserData None)
      (fun fresh => doSync retries fresh lastSyncUserData) w1
  /\ (forall o,
         In (EvRequest o) (trace (snd (getRemoteUserData None w1))) ->
         In (EvRequest o) (trace w1)
         \/ (type o = GET /\ header "If-None-Match" (headers o) = None))
  /\ (forall e' w',
         doSync (S retries) remoteUserData lastSyncUserData w = (Throw e', w') ->
         isRemotePreconditionFailed e' = true ->
         exists remote0 e0 w0 w2,
           performSync remote0 lastSyncUserData w0 = (Throw e0, w2)
           /\ isRemotePreconditionFailed e0 = true
           /\ getRemoteUserData None w2 = (Throw e', w')).
Proof.
  intros Hi Hp He. split; [ | split].
  - rewrite (doSync_unfold _ _ _ _ _ _ Hi).
    rewrite (tryCatch_throw _ _ _ _ _ Hp). now rewrite He.
  - apply getRemoteUserData_bypasses_cache.
  - intros e' w' Hrun He'.
    eapply doSync_precondition_failed_origin; eassumption.
Qed.

(** A re-fetch raises [RemotePreconditionFailed] only when the store
    answers 412 to a request that carries no [If-Match]. *)
Lemma getRemoteUserData_precondition_failed (w w' : World) (e : exn) :
  getRemoteUserData None w = (Throw e, w') ->
  isRemotePreconditionFailed e = true ->
  exists o context,
    header "If-Match" (headers o) = None
    /\ respond (requests w) o = Some context
    /\ statusCode context = 412%Z.
Proof.
  unfold AbstractSynchroniser.getRemoteUserData, AbstractSynchroniser.getUserData, read.
  destruct userDataSyncStore as [store | ];
    [ | intros H He; inversion H; subst; discriminate].
  match goal with
  | |- context [request ?r] => set (o0 := r)
  end.
  intros H He. exists (authorize (authToken w) o0).
  unfold bind at 1 2 in H.
  destruct (truthy (authToken w)) eqn:Ht.
  - rewrite (request_run _ _ Ht) in H. cbv zeta in H.
    destruct (respond (requests w) (authorize (authToken w) o0)) as [c | ];
      [ | inversion H; subst; discriminate].
    exists c.
    destruct (statusCode c =? 401)%Z; [inversion H; subst; discriminate | ].
    destruct (statusCode c =? 403)%Z; [inversion H; subst; discriminate | ].
    destruct (statusCode c =? 412)%Z eqn:E412.
    { apply Z.eqb_eq in E412. auto. }
    destruct (statusCode c =? 413)%Z; [inversion H; subst; discriminate | ].
    destruct (statusCode c =? 304)%Z; [inversion H; subst; discriminate | ].
    destruct (isSuccess c); [ | inversion H; subst; discriminate].
    destruct (header "etag" (res_headers c)) as [[ | a t] | ];
      inversion H; subst; discriminate.
  - rewrite (request_without_token _ _ Ht) in H. inversion H; subst. discriminate.
Qed.

(** X28.  Against a store that answers 412 only where a precondition was
    sent, no [RemotePreconditionFailed] leaves [doSync]: whatever
    [performSync] does, an error [doSync] raises has another code. *)
Lemma doSync_hides_precondition_failed (retries : nat)
    (remoteUserData : IRemoteUserData) (lastSyncUserData : option IRemoteUserData)
    (w w' : World) (e : exn) :
  (forall history o context,
      header "If-Match" (headers o) = None ->
      respond history o = Some context ->
      statusCode context <> 412%Z) ->
  doSync retries remoteUserData lastSyncUserData w = (Throw e, w') ->
  isRemotePreconditionFailed e = false.
Proof.
  intros Hstore Hrun.
  destruct (isRemotePreconditionFailed e) eqn:He; [ | reflexivity].
  destruct (doSync_precondition_failed_origin _ _ _ _ _ _ _ _ _ Hrun He)
    as [r0 [e0 [w0 [w2 [_ [_ Hfetch]]]]]].
  destruct (getRemoteUserData_precondition_failed _ _ _ Hfetch He)
    as [o [c [Ho [Hc H412]]]].
  now destruct (Hstore _ _ _ Ho Hc).
Qed.

End RetryProperties.

(** ** Footprints of the primitives *)

#[export] Instance emits_reflexive Q : Reflexive (emits Q).
Proof. intros w. exists []. split; [reflexivity | constructor]. Qed.

#[export] Instance emits_transitive Q : Transitive (emits Q).
Proof.
  intros a b c [n1 [E1 F1]] [n2 [E2 F2]]. exists (n2 ++ n1)%list. split.
  - rewrite E2, E1. now rewrite app_assoc.
  - apply Forall_app. now split.
Qed.

#[export] Instance keeps_reflexive {X} (f : World -> X) : Reflexive (keeps f).
Proof. intros w. reflexivity. Qed.

#[export] Instance keeps_transitive {X} (f : World -> X) : Transitive (keeps f).
Proof. intros a b c H1 H2. unfold keeps in *. congruence. Qed.

Lemma emits_one (Q : Event -> Prop) e w : Q e -> emits Q w (with_event e w).
Proof. intros H. exists [e]. split; [reflexivity | now constructor]. Qed.

Lemma emits_none (Q : Event -> Prop) w w' : trace w' = trace w -> emits Q w w'.
Proof. intros H. exists []. split; [exact H | constructor]. Qed.

Section Respects.

Context {A : Type} (R : World -> World -> Prop).

Lemma respects_ret `{!Reflexive R} (a : A) : respects R (ret a).
Proof. intros w r w' H. inversion H; subst. reflexivity. Qed.

Lemma respects_throw `{!Reflexive R} (e : exn) : respects R (@throw A e).
Proof. intros w r w' H. inversion H; subst. reflexivity. Qed.

Lemma respects_spin `{!Reflexive R} : respects R (@spin A).
Proof. intros w r w' H. inversion H; subst. reflexivity. Qed.

Lemma respects_gets `{!Reflexive R} (f : World -> A) : respects R (gets f).
Proof. intros w r w' H. inversion H; subst. reflexivity. Qed.

Lemma respects_bind `{!Transitive R} {B} (m : M B) (k : B -> M A) :
  respects R m -> (forall b, respects R (k b)) -> respects R (bind m k).
Proof.
  intros Hm Hk w r w' H. unfold bind in H.
  destruct (m w) as [[b | e | ] w1] eqn:E.
  - transitivity w1; [eapply Hm | eapply Hk]; eassumption.
  - inversion H; subst. eapply Hm; eassumption.
  - inversion H; subst. eapply Hm; eassumption.
Qed.

Lemma respects_tryCatch `{!Transitive R} (m : M A) (h : exn -> M A) :
  respects R m -> (forall e, respects R (h e)) -> respects R (tryCatch m h).
Proof.
  intros Hm Hh w r w' H. unfold tryCatch in H.
  destruct (m w) as [[b | e | ] w1] eqn:E.
  - inversion H; subst. eapply Hm; eassumption.
  - transitivity w1; [eapply Hm | eapply Hh]; eassumption.
  - inversion H; subst. eapply Hm; eassumption.
Qed.

End Respects.

Lemma respects_modify (R : World -> World -> Prop) (f : World -> World) :
  (forall w, R w (f w)) -> respects R (modify f).
Proof. intros Hf w r w' H. inversion H; subst. apply Hf. Qed.

Lemma respects_ignoreErrors (R : World -> World -> Prop) `{!Reflexive R}
    `{!Transitive R} (m : M unit) :
  respects R m -> respects R (ignoreErrors m).
Proof.
  intros Hm. apply respects_tryCatch; [assumption | exact Hm | ].
  intros e. now apply respects_ret.
Qed.

(** Structural steps of a footprint proof. *)
Ltac footprint_step :=
  match goal with
  | |- respects _ (bind _ _) => apply respects_bind; [typeclasses eauto | | intro]
  | |- respects _ (tryCatch _ _) => apply respects_tryCatch; [typeclasses eauto | | intro]
  | |- respects _ (ignoreErrors _) =>
      apply respects_ignoreErrors; [typeclasses eauto | typeclasses eauto | ]
  | |- respects _ (ret _) => apply respects_ret; typeclasses eauto
  | |- respects _ (throw _) => apply respects_throw; typeclasses eauto
  | |- respects _ spin => apply respects_spin; typeclasses eauto
  | |- respects _ (gets _) => apply respects_gets; typeclasses eauto
  | |- respects _ (if ?b then _ else _) => destruct b
  | |- respects _ (match ?x with _ => _ end) => destruct x
  | |- respects _ (let _ := _ in _) => cbv zeta
  end.

(** A primitive run to its end: every case of its definition. *)
Ltac run_primitive H :=
  repeat match type of H with
         | context [match ?x with _ => _ end] => destruct x eqn:?
         | context [if ?b then _ else _] => destruct b eqn:?
         end;
  inversion H; subst; clear H.

Section PrimitiveFootprints.

Context {collaborators : Collaborators}.
Variable Q : Event -> Prop.

Lemma emit_emits e : Q e -> respects (emits Q) (emit e).
Proof. intros HQ w r w' H. inversion H; subst. now apply emits_one. Qed.

Lemma with_preview_emits p : respects (emits Q) (modify (with_preview p)).
Proof. apply respects_modify. intros w. now apply emits_none. Qed.

Lemma readFile_emits u : respects (emits Q) (fileService_readFile u).
Proof.
  intros w r w' H. unfold fileService_readFile in H.
  run_primitive H; now apply emits_none.
Qed.

Lemma writeFile_emits u text o :
  Q (EvWriteFile u text) -> respects (emits Q) (fileService_writeFile u text o).
Proof.
  intros HQ w r w' H. unfold fileService_writeFile in H.
  run_primitive H; first [now apply emits_none | now apply (emits_one Q _ (put_file u text w))].
Qed.

Lemma createFile_emits u text :
  Q (EvCreateFile u text) -> respects (emits Q) (fileService_createFile u text).
Proof.
  intros HQ w r w' H. unfold fileService_createFile in H.
  run_primitive H; first [now apply emits_none | now apply (emits_one Q _ (put_file u text w))].
Qed.

Lemma del_emits u : Q (EvDelete u) -> respects (emits Q) (fileService_del u).
Proof.
  intros HQ w r w' H. unfold fileService_del in H.
  run_primitive H; first [now apply emits_none | now apply (emits_one Q _ (remove_file u w))].
Qed.

Lemma request_emits o :
  Q EvTokenFailed -> (forall t, Q (EvRequest (authorize t o))) ->
  respects (emits Q) (request o).
Proof.
  intros HT HR w r w' H.
  destruct (request_trace _ _ _ _ H) as [E | [E | E]].
  - now apply emits_none.
  - exists [EvRequest (authorize (authToken w) o)]. split; [exact E | ].
    constructor; [apply HR | constructor].
  - exists [EvTokenFailed; EvRequest (authorize (authToken w) o)]. split; [exact E | ].
    constructor; [exact HT | constructor; [apply HR | constructor]].
Qed.

Lemma setStatus_emits s :
  (forall s', Q (EvStatusChanged s')) -> (forall n, Q (EvTelemetry n)) ->
  respects (emits Q) (AbstractSynchroniser.setStatus s).
Proof.
  intros HS HT. apply respects_modify. intros w.
  unfold AbstractSynchroniser.setStatus_.
  destruct (SyncStatus_eqb (_status w) s); [now apply emits_none | ].
  destruct (SyncStatus_eqb s HasConflicts), (SyncStatus_eqb (_status w) HasConflicts && SyncStatus_eqb s Idle).
  - exists [EvTelemetry "sync/conflictsResolved"; EvTelemetry "sync/conflictsDetected"; EvStatusChanged s].
    split; [reflexivity | repeat constructor; auto].
  - exists [EvTelemetry "sync/conflictsDetected"; EvStatusChanged s].
    split; [reflexivity | repeat constructor; auto].
  - exists [EvTelemetry "sync/conflictsResolved"; EvStatusChanged s].
    split; [reflexivity | repeat constructor; auto].
  - exists [EvStatusChanged s].
    split; [reflexivity | repeat constructor; auto].
Qed.

End PrimitiveFootprints.

Section FieldFootprints.

Context {collaborators : Collaborators}.

(** A field of the world that events, file operations and the stored
    preview do not touch. *)
Variable X : Type.
Variable field : World -> X.
Hypothesis field_event : forall e w, field (with_event e w) = field w.
Hypothesis field_files : forall f c w, field (with_files f c w) = field w.
Hypothesis field_preview : forall p w, field (with_preview p w) = field w.

Lemma emit_keeps e : respects (keeps field) (emit e).
Proof. intros w r w' H. inversion H; subst. apply field_event. Qed.

Lemma with_preview_keeps p : respects (keeps field) (modify (with_preview p)).
Proof. intros w r w' H. inversion H; subst. apply field_preview. Qed.

Lemma readFile_keeps u : respects (keeps field) (fileService_readFile u).
Proof.
  intros w r w' H. unfold fileService_readFile in H. run_primitive H; reflexivity.
Qed.

Lemma writeFile_keeps u text o : respects (keeps field) (fileService_writeFile u text o).
Proof.
  intros w r w' H. unfold fileService_writeFile in H.
  run_primitive H; unfold keeps, put_file;
    rewrite ?field_event, ?field_files; reflexivity.
Qed.

Lemma createFile_keeps u text : respects (keeps field) (fileService_createFile u text).
Proof.
  intros w r w' H. unfold fileService_createFile in H.
  run_primitive H; unfold keeps, put_file;
    rewrite ?field_event, ?field_files; reflexivity.
Qed.

Lemma del_keeps u : respects (keeps field) (fileService_del u).
Proof.
  intros w r w' H. unfold fileService_del in H.
  run_primitive H; unfold keeps, remove_file;
    rewrite ?field_event, ?field_files; reflexivity.
Qed.

(** If sending requests does not touch the field either, neither does
    [request]. *)
Lemma request_keeps o :
  (forall n w, field (with_requests n w) = field w) ->
  respects (keeps field) (request o).
Proof.
  intros field_requests w r w' H. destruct (truthy (authToken w)) eqn:Ht.
  - rewrite (request_run _ _ Ht) in H. cbv zeta in H.
    run_primitive H; unfold keeps;
      rewrite ?field_event, ?field_requests; reflexivity.
  - rewrite (request_without_token _ _ Ht) in H. inversion H; subst. reflexivity.
Qed.

End FieldFootprints.

(** ** The keybindings synchroniser *)

Ltac footprint := repeat footprint_step.

Section KeybindingsProperties.

Context {json_runtime : JsonRuntime} {collaborators : Collaborators}.

Import KeybindingsSynchroniser.

(** The one request of [write]: a [POST] of the data, with [If-Match]
    exactly when a ref is given. *)
Lemma write_emits (Q : Event -> Prop) key data_ ref_ :
  Q EvTokenFailed ->
  (forall o, type o = POST -> data o = Some data_ ->
             header "If-Match" (headers o) = (if truthy ref_ then ref_ else None) ->
             Q (EvRequest o)) ->
  respects (emits Q) (write key data_ ref_).
Proof.
  intros HT HR. unfold write.
  destruct userDataSyncStore as [store | ]; [ | footprint].
  apply respects_bind; [typeclasses eauto | | intro; footprint].
  apply request_emits; [exact HT | ].
  intros t. apply HR; try reflexivity.
  destruct ref_ as [[ | a r] | ]; reflexivity.
Qed.

Lemma write_keeps {X} (field : World -> X) key data_ ref_ :
  (forall e w, field (with_event e w) = field w) ->
  (forall n w, field (with_requests n w) = field w) ->
  respects (keeps field) (write key data_ ref_).
Proof.
  intros He Hr.
  unfold write. destruct userDataSyncStore as [store | ]; [ | footprint].
  apply respects_bind; [typeclasses eauto | | intro; footprint].
  apply request_keeps; assumption.
Qed.

(** The envelope [updateRemoteUserData] sends for the candidate content
    [content_] of [preview]. *)
Lemma applyContent_emits (Q : Event -> Prop) (forcePush : bool)
    (preview : IFileSyncPreviewResult) (content_ : string) (w : World) :
  Q (EvBackup keybindings
       (JSON_stringify
          (AbstractSynchroniser.syncDataToJson
             {| sd_version := version;
                sd_content :=
                  toSyncContent (keybindingsPerPlatform w) content_ None |}))) ->
  (forall c, Q (EvWriteFile keybindingsResource c)) ->
  (forall c, Q (EvCreateFile keybindingsResource c)) ->
  Q (EvDelete keybindingsSyncPreviewResource) ->
  Q EvTokenFailed ->
  (forall o,
      type o = POST ->
      data o = Some (JSON_stringify
                       (AbstractSynchroniser.syncDataToJson
                          {| sd_version := version;
                             sd_content :=
                               toSyncContent (keybindingsPerPlatform w) content_
                                 (option_map sd_content
                                    (syncData (remoteUserData preview))) |})) ->
      header "If-Match" (headers o)
      = (if forcePush then @None string
         else if truthy (Some (ref (remoteUserData preview)))
              then Some (ref (remoteUserData preview)) else None) ->
      Q (EvRequest o)) ->
  forall r w', applyContent forcePush preview content_ w = (r, w') -> emits Q w w'.
Proof.
  intros HB HW HC HD HT HR r w'. unfold applyContent.
  destruct (hasErrors content_); [intros H; inversion H; subst; reflexivity | ].
  unfold bind at 1, gets at 1. cbv beta iota.
  pose proof HR as HR'.
  match goal with
  | |- ?m w = _ -> _ => assert (Hm : respects (emits Q) m)
  end.
  { footprint; unfold backupLocal, updateLocalFileContent, updateRemoteUserData,
      AbstractSynchroniser.backupLocal, AbstractSynchroniser.updateLocalFileContent,
      AbstractSynchroniser.updateRemoteUserData; footprint;
      first [ now apply emit_emits
            | now apply writeFile_emits
            | now apply createFile_emits
            | now apply del_emits
            | idtac ].
    apply write_emits; [exact HT | ].
    intros o Ho Hd Hh. apply HR'; [exact Ho | exact Hd | ].
    rewrite Hh. destruct forcePush; reflexivity. }
  intros H. eapply Hm. exact H.
Qed.

Lemma bind_ok_inv {A B} (m : M A) (k : A -> M B) w b w' :
  bind m k w = (Ok b, w') ->
  exists a w1, m w = (Ok a, w1) /\ k a w1 = (Ok b, w').
Proof.
  unfold bind. destruct (m w) as [[a | e | ] w1]; try discriminate.
  intros H. now exists a, w1.
Qed.

(** A [write] that returns sent one request, was answered, and returns
    the entity tag of the answer. *)
Lemma write_ok key data_ ref_ w newRef w' :
  write key data_ ref_ w = (Ok newRef, w') ->
  exists o context,
    requests w' = o :: requests w
    /\ type o = POST
    /\ respond (requests w) o = Some context
    /\ header "etag" (res_headers context) = Some newRef.
Proof.
  unfold write. destruct userDataSyncStore as [store | ]; [ | discriminate].
  intros H. apply bind_ok_inv in H. destruct H as [c [w1 [Hr Hk]]].
  destruct (truthy (authToken w)) eqn:Ht;
    [ | rewrite (request_without_token _ _ Ht) in Hr; discriminate].
  rewrite (request_run _ _ Ht) in Hr. cbv zeta in Hr.
  match type of Hr with
  | context [respond _ ?o] => exists o, c
  end.
  destruct (respond (requests w) _) as [c0 | ]; [ | discriminate].
  destruct (statusCode c0 =? 401)%Z; [discriminate | ].
  destruct (statusCode c0 =? 403)%Z; [discriminate | ].
  destruct (statusCode c0 =? 412)%Z; [discriminate | ].
  destruct (statusCode c0 =? 413)%Z; [discriminate | ].
  inversion Hr; subst.
  destruct (isSuccess c); [ | discriminate].
  destruct (header "etag" (res_headers c)) as [[ | a t] | ]; try discriminate.
  inversion Hk; subst. auto.
Qed.

Lemma local_update_keeps {X} (field : World -> X) perPlatform preview content_ :
  (forall e w, field (with_event e w) = field w) ->
  (forall f c w, field (with_files f c w) = field w) ->
  respects (keeps field)
    (if hasLocalChanged preview then
       bind (backupLocal (toSyncContent perPlatform content_ None))
         (fun _ => updateLocalFileContent content_ (fileContent preview))
     else ret tt).
Proof.
  intros He Hf.
  unfold backupLocal, updateLocalFileContent,
    AbstractSynchroniser.backupLocal, AbstractSynchroniser.updateLocalFileContent.
  footprint;
    first [ apply emit_keeps | apply writeFile_keeps | apply createFile_keeps ];
    assumption.
Qed.

(** What a run of the first part of [apply] that returns has done to the
    remote: nothing when [hasRemoteChanged] is off; otherwise one [POST]
    was sent and answered, and the remote data is now the envelope sent,
    under the entity tag of the answer. *)
Lemma applyContent_ok forcePush preview content_ w r w' :
  applyContent forcePush preview content_ w = (Ok r, w') ->
  (hasRemoteChanged preview = false ->
     r = remoteUserData preview /\ requests w' = requests w)
  /\ (hasRemoteChanged preview = true ->
      exists o context,
        requests w' = o :: requests w
        /\ type o = POST
        /\ respond (requests w) o = Some context
        /\ header "etag" (res_headers context) = Some (ref r)
        /\ syncData r
           = Some {| sd_version := version;
                     sd_content :=
                       toSyncContent (keybindingsPerPlatform w) content_
                         (option_map sd_content
                            (syncData (remoteUserData preview))) |}).
Proof.
  unfold applyContent. destruct (hasErrors content_); [discriminate | ].
  unfold bind at 1, gets at 1. cbv beta iota.
  intros H. apply bind_ok_inv in H. destruct H as [[] [w1 [Hlocal H]]].
  apply bind_ok_inv in H. destruct H as [r1 [w2 [Hremote H]]].
  apply bind_ok_inv in H. destruct H as [[] [w3 [Hdel H]]].
  inversion H; subst; clear H.
  assert (E1 : requests w1 = requests w).
  { eapply (local_update_keeps requests); [ | | exact Hlocal]; reflexivity. }
  assert (E3 : requests w' = requests w2).
  { eapply (respects_ignoreErrors (keeps requests)); [ | exact Hdel].
    apply del_keeps; reflexivity. }
  destruct (hasRemoteChanged preview); split; intros Hc; try discriminate.
  - unfold updateRemoteUserData, AbstractSynchroniser.updateRemoteUserData in Hremote.
    apply bind_ok_inv in Hremote. destruct Hremote as [newRef [w2' [Hw Hret]]].
    inversion Hret; subst; clear Hret.
    destruct (write_ok _ _ _ _ _ _ Hw) as [o [c [Hreq [Ho [Hresp Htag]]]]].
    exists o, c. rewrite E3, Hreq, E1.
    repeat split; try assumption. now rewrite <- E1.
  - inversion Hremote; subst. split; [reflexivity | congruence].
Qed.

Lemma applyContent_keeps {X} (field : World -> X) forcePush preview content_ :
  (forall e w, field (with_event e w) = field w) ->
  (forall f c w, field (with_files f c w) = field w) ->
  (forall n w, field (with_requests n w) = field w) ->
  respects (keeps field) (applyContent forcePush preview content_).
Proof.
  intros He Hf Hr. unfold applyContent.
  destruct (hasErrors content_); [footprint | ].
  apply respects_bind; [typeclasses eauto | footprint | intros perPlatform].
  apply respects_bind;
    [typeclasses eauto | now apply local_update_keeps | intros _].
  unfold updateRemoteUserData, AbstractSynchroniser.updateRemoteUserData.
  footprint; first [now apply write_keeps | now apply del_keeps].
Qed.

(** The first part of [apply] does not write the checkpoint. *)
Lemma applyContent_spares_checkpoint forcePush preview content_ w r w' :
  applyContent forcePush preview content_ w = (r, w') ->
  emits (fun e => forall text, e <> EvWriteFile lastSyncResource text) w w'.
Proof.
  apply applyContent_emits; intros; discriminate.
Qed.

(** The second part of [apply] in closed form. *)
Lemma applyLastSync_run preview current w :
  applyLastSync preview current w =
    match
      match content preview, fileContent preview with
      | Some c, _ => Some c
      | None, Some f => Some (value f)
      | None, None => None
      end
    with
    | Some text =>
        if refChanged (lastSyncUserData preview) current then
          match syncData current with
          | Some syncData_ =>
              let checkpoint :=
                JSON_stringify
                  (JObj [("ref", JStr (ref current));
                         ("content",
                          JStr (JSON_stringify
                                  (AbstractSynchroniser.syncDataToJson
                                     {| sd_version := sd_version syncData_;
                                        sd_content :=
                                          toSyncContent (keybindingsPerPlatform w)
                                            text None |})))]) in
              (Ok tt,
               with_event (EvWriteFile lastSyncResource checkpoint)
                 (put_file lastSyncResource checkpoint w))
          | None => (Throw TypeError, w)
          end
        else (Ok tt, w)
    | None => (Ok tt, w)
    end.
Proof.
  unfold applyLastSync.
  destruct (content preview), (fileContent preview); try reflexivity;
    destruct (refChanged (lastSyncUserData preview) current); try reflexivity;
    unfold bind, gets; destruct (syncData current); reflexivity.
Qed.

(** C5 (amended).  In a run of [apply] on a stored preview the
    checkpoint is written only if the run completes, and in a run that
    completes it is written exactly when the ref of the remote data
    differs from the ref of the checkpoint the preview was computed from
    (or there was none) and, besides, there is candidate content or a
    local file.  The remote data meant is the one [apply] holds at that
    point: the answer to its own remote write when it made one (the
    entity tag the store returned for that [POST]), the remote data of
    the preview otherwise.  The checkpoint written carries that ref and
    the envelope of the candidate content, or of the local file when
    there is no candidate content. *)
Theorem apply_updates_the_checkpoint (forcePush : bool)
    (preview : IFileSyncPreviewResult) (w : World) (r : result unit) (w' : World) :
  syncPreviewResultPromise w = Some preview ->
  apply forcePush w = (r, w') ->
  exists new,
    trace w' = (new ++ trace w)%list
    /\ ((exists text, In (EvWriteFile lastSyncResource text) new) -> r = Ok tt)
    /\ (r = Ok tt ->
        exists current,
          ((content preview = None \/ hasRemoteChanged preview = false) ->
             current = remoteUserData preview /\ requests w' = requests w)
          /\ (content preview <> None -> hasRemoteChanged preview = true ->
              exists o context,
                requests w' = o :: requests w
                /\ type o = POST
                /\ respond (requests w) o = Some context
                /\ header "etag" (res_headers context) = Some (ref current))
          /\ ((exists text, In (EvWriteFile lastSyncResource text) new)
              <-> (refChanged (lastSyncUserData preview) current = true
                   /\ (content preview <> None \/ fileContent preview <> None)))
          /\ ((exists text, In (EvWriteFile lastSyncResource text) new) ->
              exists text syncData_,
                match content preview, fileContent preview with
                | Some c, _ => text = c
                | None, Some f => text = value f
                | None, None => False
                end
                /\ syncData current = Some syncData_
                /\ option_map value (files w' lastSyncResource)
                   = Some (JSON_stringify
                             (JObj [("ref", JStr (ref current));
                                    ("content",
                                     JStr (JSON_stringify
                                             (AbstractSynchroniser.syncDataToJson
                                                {| sd_version := sd_version syncData_;
                                                   sd_content :=
                                                     toSyncContent
                                                       (keybindingsPerPlatform w)
                                                       text None |})))])))).
Proof.
  intros Hp. unfold apply, bind at 1, gets at 1. rewrite Hp. cbv beta iota.
  unfold bind at 1.
  set (phase1 := match content preview with
                 | Some c => applyContent forcePush preview c
                 | None => ret (remoteUserData preview)
                 end).
  destruct (phase1 w) as [r1 w1] eqn:H1.
  assert (Hspare : emits (fun e => forall text, e <> EvWriteFile lastSyncResource text) w w1).
  { subst phase1. destruct (content preview) as [c | ].
    - eapply applyContent_spares_checkpoint; eassumption.
    - inversion H1; subst. reflexivity. }
  destruct Hspare as [new1 [Etrace Hnew1]].
  assert (Hnone : ~ exists text, In (EvWriteFile lastSyncResource text) new1).
  { intros [text Hin]. rewrite Forall_forall in Hnew1.
    now apply (Hnew1 _ Hin text). }
  destruct r1 as [current | e | ].
  2:{ intros H; inversion H; subst. exists new1. split; [exact Etrace | ].
      split; [intros Hw; now destruct Hnone | discriminate]. }
  2:{ intros H; inversion H; subst. exists new1. split; [exact Etrace | ].
      split; [intros Hw; now destruct Hnone | discriminate]. }
  assert (Hremote :
    ((content preview = None \/ hasRemoteChanged preview = false) ->
       current = remoteUserData preview /\ requests w1 = requests w)
    /\ (content preview <> None -> hasRemoteChanged preview = true ->
        exists o context,
          requests w1 = o :: requests w
          /\ type o = POST
          /\ respond (requests w) o = Some context
          /\ header "etag" (res_headers context) = Some (ref current))
    /\ keybindingsPerPlatform w1 = keybindingsPerPlatform w).
  { subst phase1. destruct (content preview) as [c | ].
    - destruct (applyContent_ok _ _ _ _ _ _ H1) as [Hoff Hon]. split; [ | split].
      + intros [Hc | Hc]; [discriminate | now apply Hoff].
      + intros _ Hc. destruct (Hon Hc) as [o [ctx [? [? [? [? ?]]]]]].
        exists o, ctx. auto.
      + eapply (applyContent_keeps keybindingsPerPlatform);
          [ | | | exact H1]; reflexivity.
    - inversion H1; subst. split; [ | split]; [auto | congruence | reflexivity]. }
  destruct Hremote as [Hoff [Hon Hpp]].
  unfold bind. rewrite applyLastSync_run, Hpp.
  destruct (content preview) as [c | ] eqn:Hc;
    [ | destruct (fileContent preview) as [f | ] eqn:Hf];
    (destruct (refChanged (lastSyncUserData preview) current) eqn:Hrc;
     [destruct (syncData current) as [sd | ] eqn:Hsd | ]);
    cbv beta iota zeta; unfold modify; intros H; inversion H; subst; clear H;
    first
      [ (* the checkpoint is written *)
        match goal with
        | |- context [with_event (EvWriteFile lastSyncResource ?V) _] =>
            exists (EvWriteFile lastSyncResource V :: new1)
        end;
        split; [simpl; now rewrite Etrace | ];
        split; [intros _; reflexivity | intros _; exists current];
        split; [exact Hoff | ]; split; [exact Hon | ];
        split;
        [ split;
          [ intros _; split;
            [exact Hrc | first [left; discriminate | right; discriminate]]
          | intros _; eexists; now left ]
        | intros _; eexists; exists sd;
          split; [reflexivity | split; [exact Hsd | reflexivity]] ]
      | (* it is not *)
        exists new1; split; [exact Etrace | ];
        split; [intros Hw; now destruct Hnone | ];
        first
          [ discriminate
          | intros _; exists current;
            split; [exact Hoff | ]; split; [exact Hon | ];
            split; [ | intros Hw; now destruct Hnone];
            split; [intros Hw; now destruct Hnone | ];
            intros [Hrc' Hsome]; first [discriminate | congruence | idtac];
            destruct Hsome as [Hsome | Hsome]; now destruct Hsome ] ].
Qed.

Lemma applyLastSync_emits (Q : Event -> Prop) preview current :
  (forall text, Q (EvWriteFile lastSyncResource text)) ->
  respects (emits Q) (applyLastSync preview current).
Proof.
  intros HQ. unfold applyLastSync, updateLastSyncUserData,
    AbstractSynchroniser.updateLastSyncUserData.
  footprint; now apply writeFile_emits.
Qed.

Lemma applyLastSync_keeps {X} (field : World -> X) preview current :
  (forall e w, field (with_event e w) = field w) ->
  (forall f c w, field (with_files f c w) = field w) ->
  respects (keeps field) (applyLastSync preview current).
Proof.
  intros He Hf. unfold applyLastSync, updateLastSyncUserData,
    AbstractSynchroniser.updateLastSyncUserData.
  footprint; now apply writeFile_keeps.
Qed.

Lemma apply_keeps {X} (field : World -> X) forcePush :
  (forall e w, field (with_event e w) = field w) ->
  (forall f c w, field (with_files f c w) = field w) ->
  (forall n w, field (with_requests n w) = field w) ->
  (forall p w, field (with_preview p w) = field w) ->
  respects (keeps field) (apply forcePush).
Proof.
  intros He Hf Hr Hp. unfold apply.
  footprint;
    first [ now apply applyContent_keeps
          | now apply applyLastSync_keeps
          | now apply with_preview_keeps ].
Qed.

(** The events of [apply] on the stored preview: the backup and the
    write of the local file, the one [POST] of the envelope of the
    candidate content, without [If-Match] under [forcePush], the deletion
    of the preview file and the write of the checkpoint. *)
Lemma apply_emits (Q : Event -> Prop) (forcePush : bool)
    (preview : IFileSyncPreviewResult) (w : World) :
  syncPreviewResultPromise w = Some preview ->
  (forall k c, Q (EvBackup k c)) ->
  (forall u c, Q (EvWriteFile u c)) ->
  (forall u c, Q (EvCreateFile u c)) ->
  (forall u, Q (EvDelete u)) ->
  Q EvTokenFailed ->
  (forall content_ o,
      content preview = Some content_ ->
      type o = POST ->
      data o = Some (JSON_stringify
                       (AbstractSynchroniser.syncDataToJson
                          {| sd_version := version;
                             sd_content :=
                               toSyncContent (keybindingsPerPlatform w) content_
                                 (option_map sd_content
                                    (syncData (remoteUserData preview))) |})) ->
      header "If-Match" (headers o)
      = (if forcePush then @None string
         else if truthy (Some (ref (remoteUserData preview)))
              then Some (ref (remoteUserData preview)) else None) ->
      Q (EvRequest o)) ->
  forall r w', apply forcePush w = (r, w') -> emits Q w w'.
Proof.
  intros Hp HB HW HC HD HT HR r w'.
  unfold apply, bind at 1, gets at 1. rewrite Hp. cbv beta iota.
  unfold bind at 1.
  destruct (match content preview with
            | Some c => applyContent forcePush preview c
            | None => ret (remoteUserData preview)
            end w) as [r1 w1] eqn:H1.
  assert (E1 : emits Q w w1).
  { destruct (content preview) as [c | ] eqn:Hc.
    - eapply applyContent_emits; try eassumption; auto.
      intros o. now apply HR.
    - inversion H1; subst. reflexivity. }
  destruct r1 as [current | e | ]; intros H;
    [ | inversion H; subst; exact E1 | inversion H; subst; exact E1].
  transitivity w1; [exact E1 | ].
  revert H.
  match goal with
  | |- ?m w1 = _ -> _ => assert (Hm : respects (emits Q) m)
  end.
  { footprint; [now apply applyLastSync_emits | apply with_preview_emits]. }
  intros H. eapply Hm. exact H.
Qed.

Lemma setStatus_status s w : _status (AbstractSynchroniser.setStatus_ s w) = s.
Proof.
  unfold AbstractSynchroniser.setStatus_.
  destruct (SyncStatus_eqb (_status w) s) eqn:E.
  - destruct (_status w), s; try discriminate; reflexivity.
  - destruct (SyncStatus_eqb s HasConflicts),
      (SyncStatus_eqb (_status w) HasConflicts && SyncStatus_eqb s Idle); reflexivity.
Qed.

(** C8 (amended).  An [accept] under [HasConflicts], with a preview in
    flight, replaces the candidate content of that preview by the content
    supplied and runs [apply] with [forcePush] on it; the only requests it
    issues are [POST]s of the envelope of the supplied content that carry
    no [If-Match].  When it completes the status is [Idle] and, if
    [hasRemoteChanged], exactly one such request was sent.  When [apply]
    raises, [accept] raises and the status is still [HasConflicts]. *)
Theorem accept_applies_the_resolution (content_ : string)
    (preview : IFileSyncPreviewResult) (w : World) :
  _status w = HasConflicts ->
  syncPreviewResultPromise w = Some preview ->
  let accepted :=
    {| fileContent := fileContent preview;
       remoteUserData := remoteUserData preview;
       lastSyncUserData := lastSyncUserData preview;
       content := Some content_;
       hasLocalChanged := hasLocalChanged preview;
       hasRemoteChanged := hasRemoteChanged preview;
       hasConflicts := hasConflicts preview |} in
  accept content_ w
  = bind (apply true) (fun _ => setStatus Idle) (with_preview (Some accepted) w)
  /\ (exists new,
         trace (snd (accept content_ w)) = (new ++ trace w)%list
         /\ forall o,
             In (EvRequest o) new ->
             type o = POST
             /\ header "If-Match" (headers o) = None
             /\ data o
                = Some (JSON_stringify
                          (AbstractSynchroniser.syncDataToJson
                             {| sd_version := version;
                                sd_content :=
                                  toSyncContent (keybindingsPerPlatform w) content_
                                    (option_map sd_content
                                       (syncData (remoteUserData preview))) |})))
  /\ (fst (accept content_ w) = Ok tt ->
      _status (snd (accept content_ w)) = Idle
      /\ (hasRemoteChanged preview = true ->
          exists o, requests (snd (accept content_ w)) = o :: requests w))
  /\ (fst (accept content_ w) <> Ok tt ->
      _status (snd (accept content_ w)) = HasConflicts).
Proof.
  intros Hs Hp accepted.
  assert (Hrun : accept content_ w
                 = bind (apply true) (fun _ => setStatus Idle)
                     (with_preview (Some accepted) w)).
  { unfold accept, bind at 1, gets at 1. rewrite Hs.
    change (SyncStatus_eqb HasConflicts HasConflicts) with true. cbv beta iota.
    unfold bind at 1, gets at 1. rewrite Hp. reflexivity. }
  split; [exact Hrun | ].
  rewrite Hrun. unfold bind.
  destruct (apply true (with_preview (Some accepted) w)) as [r1 w1] eqn:Ha.
  pose (Q := fun e =>
               match e with
               | EvRequest o =>
                   type o = POST
                   /\ header "If-Match" (headers o) = None
                   /\ data o
                      = Some (JSON_stringify
                                (AbstractSynchroniser.syncDataToJson
                                   {| sd_version := version;
                                      sd_content :=
                                        toSyncContent (keybindingsPerPlatform w) content_
                                          (option_map sd_content
                                             (syncData (remoteUserData preview))) |}))
               | _ => True
               end).
  assert (E1 : emits Q (with_preview (Some accepted) w) w1).
  { eapply (apply_emits Q true accepted); try exact Ha; try reflexivity;
      try (intros; exact I).
    intros c o Hc Ho Hd Hh. simpl in Hc. inversion Hc; subst.
    simpl. auto. }
  assert (K1 : _status w1 = HasConflicts).
  { rewrite <- Hs.
    change (keeps _status (with_preview (Some accepted) w) w1).
    eapply (apply_keeps _status); [ | | | | exact Ha]; reflexivity. }
  split; [ | split].
  - assert (E2 : emits Q (with_preview (Some accepted) w) (snd
       match r1 with
       | Ok _ => setStatus Idle w1
       | Throw e => (Throw e, w1)
       | Spin => (Spin, w1)
       end)).
    { destruct r1; try exact E1. transitivity w1; [exact E1 | ].
      eapply (setStatus_emits Q Idle); [ | | reflexivity]; intros; exact I. }
    destruct E2 as [new [Et Hall]]. exists new. split; [exact Et | ].
    intros o Hin. rewrite Forall_forall in Hall. exact (Hall _ Hin).
  - destruct r1 as [[] | e | ]; simpl; try discriminate. intros _. split.
    + apply setStatus_status.
    + intros Hc. unfold apply, bind at 1, gets at 1 in Ha. simpl in Ha.
      apply bind_ok_inv in Ha. destruct Ha as [r2 [w2 [Hc2 Ha]]].
      change (content accepted) with (Some content_) in Hc2.
      destruct (applyContent_ok _ _ _ _ _ _ Hc2) as [_ Hon].
      destruct (Hon Hc) as [o [ctx [Hreq _]]]. exists o.
      apply bind_ok_inv in Ha. destruct Ha as [[] [w3 [Hl Ha]]].
      inversion Ha; subst; clear Ha.
      assert (E3 : requests w3 = requests w2).
      { eapply (applyLastSync_keeps requests); [ | | exact Hl]; reflexivity. }
      unfold AbstractSynchroniser.setStatus_.
      destruct (SyncStatus_eqb _ _); [ | destruct (_ && _)]; simpl;
        rewrite E3; exact Hreq.
  - destruct r1 as [[] | e | ]; simpl; [intros H; now destruct H | | ]; intros _; exact K1.
Qed.

Lemma getLocalFileContent_run w :
  getLocalFileContent w = (Ok (files w keybindingsResource), w).
Proof.
  unfold getLocalFileContent, AbstractSynchroniser.getLocalFileContent,
    tryCatch, bind, fileService_readFile, file.
  destruct (files w keybindingsResource); reflexivity.
Qed.

Lemma strictNotEqual_spec a b : strictNotEqual a b = true <-> a <> b.
Proof.
  unfold strictNotEqual. destruct (String.eqb_spec a b); simpl; split; congruence.
Qed.

Lemma changed_spec (conflicts : bool) a b :
  conflicts || strictNotEqual a b = true <-> conflicts = true \/ a <> b.
Proof.
  rewrite orb_true_iff, strictNotEqual_spec. reflexivity.
Qed.

(** The test that guards the merge, against the wording of the
    specification. *)
Lemma forwarded_spec (lastSyncContent : option string) (localContent remoteContent : string) :
  remoteContent <> EmptyString ->
  negb (truthy lastSyncContent)
  || notEqualNullable lastSyncContent localContent
  || notEqualNullable lastSyncContent remoteContent = true
  <-> (lastSyncContent = None
       \/ lastSyncContent <> Some localContent
       \/ lastSyncContent <> Some remoteContent).
Proof.
  intros Hr. destruct lastSyncContent as [s | ]; simpl.
  - rewrite !orb_true_iff, !strictNotEqual_spec. split.
    + intros [[H | H] | H].
      * destruct s; [ | discriminate]. right; right. congruence.
      * right; left. congruence.
      * right; right. congruence.
    + intros [H | [H | H]]; [discriminate | | ].
      * left; right. congruence.
      * right. congruence.
  - split; auto.
Qed.

(** [generatePreview] in closed form, when remote content exists. *)
Lemma generatePreview_with_remote_content
    (remoteUserData_ : IRemoteUserData) (lastSyncUserData_ : option IRemoteUserData)
    (isCancellationRequested : bool) (remoteContent : string) (w : World) :
  syncContentOf (keybindingsPerPlatform w) (Some remoteUserData_) = Some remoteContent ->
  remoteContent <> EmptyString ->
  generatePreview remoteUserData_ lastSyncUserData_ isCancellationRequested w =
    let lastSyncContent := syncContentOf (keybindingsPerPlatform w) lastSyncUserData_ in
    let localContent :=
      match files w keybindingsResource with
      | Some f => value f
      | None => "[]"
      end in
    let result := merge localContent remoteContent lastSyncContent in
    let preview content_ hasLocalChanged_ hasRemoteChanged_ hasConflicts_ :=
      {| fileContent := files w keybindingsResource;
         remoteUserData := remoteUserData_;
         lastSyncUserData := lastSyncUserData_;
         content := content_;
         hasLocalChanged := hasLocalChanged_;
         hasRemoteChanged := hasRemoteChanged_;
         hasConflicts := hasConflicts_ |} in
    if hasErrors localContent then (Throw (UserDataSyncError LocalInvalidContent), w)
    else if negb (truthy lastSyncContent)
            || notEqualNullable lastSyncContent localContent
            || notEqualNullable lastSyncContent remoteContent then
      let w1 := with_event (EvMerge localContent remoteContent lastSyncContent) w in
      if hasChanges result then
        let merged :=
          preview (Some (mergeContent result))
            (mergeHasConflicts result
             || strictNotEqual (mergeContent result) localContent)
            (mergeHasConflicts result
             || strictNotEqual (mergeContent result) remoteContent)
            (mergeHasConflicts result) in
        if truthy (Some (mergeContent result)) && negb isCancellationRequested then
          (Ok merged,
           with_event (EvWriteFile keybindingsSyncPreviewResource (mergeContent result))
             (put_file keybindingsSyncPreviewResource (mergeContent result) w1))
        else (Ok merged, w1)
      else (Ok (preview None false false false), w1)
    else (Ok (preview None false false false), w).
Proof.
  intros Hremote Hne.
  unfold generatePreview, bind at 1, gets at 1. cbv beta iota.
  rewrite Hremote.
  unfold bind at 1. rewrite getLocalFileContent_run. cbv beta iota zeta.
  assert (Ht : truthy (Some remoteContent) = true)
    by (destruct remoteContent; [now destruct Hne | reflexivity]).
  rewrite Ht.
  destruct (hasErrors _); [reflexivity | ].
  destruct (negb _ || _ || _); [ | reflexivity].
  unfold bind, emit, modify.
  destruct (hasChanges _); [ | reflexivity].
  unfold ret. cbv beta iota zeta.
  destruct (truthy _ && negb _); reflexivity.
Qed.

(** C4.  In a run of [generatePreview] in which remote content exists
    (the content extracted from the remote is neither absent nor empty)
    and that yields a preview (it does whenever the local content passes
    the validity check): the merge engine is called, on the local, the
    remote and the last-sync content, if and only if the last-sync
    content is absent, or differs from the local content, or differs from
    the remote content.  When the merge reports no changes the candidate
    content is [null] and the three flags are off; otherwise the candidate
    content is the merged content, [hasConflicts] is the flag of the
    merge, and [hasLocalChanged] ([hasRemoteChanged]) is on exactly when
    there are conflicts or the merged content differs from the local (the
    remote) content. *)
Theorem generatePreview_merges_when_forwarded
    (remoteUserData_ : IRemoteUserData) (lastSyncUserData_ : option IRemoteUserData)
    (isCancellationRequested : bool) (remoteContent : string) (w : World) :
  let perPlatform := keybindingsPerPlatform w in
  let lastSyncContent := syncContentOf perPlatform lastSyncUserData_ in
  let localContent :=
    match files w keybindingsResource with
    | Some f => value f
    | None => "[]"
    end in
  let result := merge localContent remoteContent lastSyncContent in
  syncContentOf perPlatform (Some remoteUserData_) = Some remoteContent ->
  remoteContent <> EmptyString ->
  (hasErrors localContent = false ->
   exists preview w',
     generatePreview remoteUserData_ lastSyncUserData_ isCancellationRequested w
     = (Ok preview, w'))
  /\ (forall preview w',
      generatePreview remoteUserData_ lastSyncUserData_ isCancellationRequested w
      = (Ok preview, w') ->
      exists new,
        trace w' = (new ++ trace w)%list
        /\ ((exists l r b, In (EvMerge l r b) new)
            <-> (lastSyncContent = None
                 \/ lastSyncContent <> Some localContent
                 \/ lastSyncContent <> Some remoteContent))
        /\ (forall l r b,
               In (EvMerge l r b) new ->
               l = localContent /\ r = remoteContent /\ b = lastSyncContent)
        /\ ((exists l r b, In (EvMerge l r b) new) ->
            if hasChanges result then
              content preview = Some (mergeContent result)
              /\ hasConflicts preview = mergeHasConflicts result
              /\ (hasLocalChanged preview = true
                  <-> hasConflicts preview = true
                      \/ mergeContent result <> localContent)
              /\ (hasRemoteChanged preview = true
                  <-> hasConflicts preview = true
                      \/ mergeContent result <> remoteContent)
            else
              content preview = None
              /\ hasLocalChanged preview = false
              /\ hasRemoteChanged preview = false
              /\ hasConflicts preview = false)).
Proof.
  intros perPlatform lastSyncContent localContent result Hremote Hne.
  rewrite (generatePreview_with_remote_content _ _ _ _ _ Hremote Hne).
  cbv zeta. fold perPlatform. fold lastSyncContent. fold localContent. fold result.
  destruct (hasErrors localContent) eqn:He.
  { split; [intros H; discriminate | ]. intros preview w' H. discriminate. }
  pose proof (forwarded_spec lastSyncContent localContent remoteContent Hne) as Hf.
  destruct (negb (truthy lastSyncContent)
            || notEqualNullable lastSyncContent localContent
            || notEqualNullable lastSyncContent remoteContent) eqn:Hcond.
  - destruct (hasChanges result) eqn:Hch.
    + destruct (truthy (Some (mergeContent result)) && negb isCancellationRequested).
      * split; [intros _; eauto | ].
        intros preview w' H. inversion H; subst; clear H.
        eexists [_; _]. split; [reflexivity | ]. split; [ | split].
        -- split; [intros _; now apply Hf | ].
           intros _. exists localContent, remoteContent, lastSyncContent.
           right; now left.
        -- intros l r b [Hl | [Hl | []]]; [discriminate | ].
           inversion Hl; subst. auto.
        -- intros _. simpl. split; [reflexivity | ]. split; [reflexivity | ].
           split; apply changed_spec.
      * split; [intros _; eauto | ].
        intros preview w' H. inversion H; subst; clear H.
        eexists [_]. split; [reflexivity | ]. split; [ | split].
        -- split; [intros _; now apply Hf | ].
           intros _. exists localContent, remoteContent, lastSyncContent. now left.
        -- intros l r b [Hl | []]. inversion Hl; subst. auto.
        -- intros _. simpl. split; [reflexivity | ]. split; [reflexivity | ].
           split; apply changed_spec.
    + split; [intros _; eauto | ].
      intros preview w' H. inversion H; subst; clear H.
      eexists [_]. split; [reflexivity | ]. split; [ | split].
      * split; [intros _; now apply Hf | ].
        intros _. exists localContent, remoteContent, lastSyncContent. now left.
      * intros l r b [Hl | []]. inversion Hl; subst. auto.
      * intros _. simpl. auto.
  - split; [intros _; eauto | ].
    intros preview w' H. inversion H; subst; clear H.
    exists []. split; [reflexivity | ]. split; [ | split].
    + split; [intros [l [r [b []]]] | ].
      intros H. apply Hf in H. discriminate.
    + intros l r b [].
    + intros [l [r [b []]]].
Qed.

(** [generatePreview] in closed form, when the remote content is absent
    or empty. *)
Lemma generatePreview_without_remote
    (remoteUserData_ : IRemoteUserData) (lastSyncUserData_ : option IRemoteUserData)
    (isCancellationRequested : bool) (w : World) :
  truthy (syncContentOf (keybindingsPerPlatform w) (Some remoteUserData_)) = false ->
  generatePreview remoteUserData_ lastSyncUserData_ isCancellationRequested w =
    let preview content_ hasRemoteChanged_ :=
      {| fileContent := files w keybindingsResource;
         remoteUserData := remoteUserData_;
         lastSyncUserData := lastSyncUserData_;
         content := content_;
         hasLocalChanged := false;
         hasRemoteChanged := hasRemoteChanged_;
         hasConflicts := false |} in
    match files w keybindingsResource with
    | Some f =>
        if truthy (Some (value f)) && negb isCancellationRequested then
          (Ok (preview (Some (value f)) true),
           with_event (EvWriteFile keybindingsSyncPreviewResource (value f))
             (put_file keybindingsSyncPreviewResource (value f) w))
        else (Ok (preview (Some (value f)) true), w)
    | None => (Ok (preview None false), w)
    end.
Proof.
  intros Hremote.
  unfold generatePreview, bind at 1, gets at 1. cbv beta iota.
  unfold bind at 1. rewrite getLocalFileContent_run. cbv beta iota zeta.
  destruct (syncContentOf (keybindingsPerPlatform w) (Some remoteUserData_)) as [c | ];
    [rewrite Hremote | ];
    (destruct (files w keybindingsResource) as [f | ];
     [ unfold bind, ret; cbv beta iota;
       destruct (truthy (Some (value f)) && negb isCancellationRequested); reflexivity
     | reflexivity ]).
Qed.

(** An event in the trace stays there. *)
Lemma bind_grows {A B} (m : M A) (k : A -> M B) (e : Event) (w : World) :
  In e (trace (snd (m w))) ->
  (forall a, respects (emits (fun _ => True)) (k a)) ->
  In e (trace (snd (bind m k w))).
Proof.
  intros Hin Hk. unfold bind. destruct (m w) as [[a | e' | ] w1] eqn:Hm;
    simpl in Hin; try exact Hin.
  destruct (k a w1) as [r w'] eqn:Hka. simpl.
  destruct (Hk a _ _ _ Hka) as [new [Et _]]. rewrite Et.
  apply in_or_app. now right.
Qed.

Lemma bind_after {A B} (m : M A) (k : A -> M B) (P : World -> Prop)
    (w : World) (a : A) (w1 : World) :
  m w = (Ok a, w1) -> P (snd (k a w1)) -> P (snd (bind m k w)).
Proof. intros Hm Hin. unfold bind. now rewrite Hm. Qed.

(** A [request] with a token at hand is sent. *)
Lemma request_sent (o : IRequestOptions) (w : World) :
  truthy (authToken w) = true ->
  In (EvRequest (authorize (authToken w) o)) (trace (snd (request o w))).
Proof.
  intros Ht. rewrite (request_run _ _ Ht). cbv zeta.
  destruct (respond _ _) as [c | ]; [ | simpl; auto].
  destruct (_ =? 401)%Z; [simpl; auto | ].
  destruct (_ =? 403)%Z; [simpl; auto | ].
  destruct (_ =? 412)%Z; [simpl; auto | ].
  destruct (_ =? 413)%Z; simpl; auto.
Qed.

(** The push of a preview that has nothing but the remote to change:
    [apply] sends the envelope of the candidate content, merged into the
    sync content the remote holds, under the ref of the remote. *)
Lemma apply_pushes (preview : IFileSyncPreviewResult) (content_ store : string)
    (w : World) :
  syncPreviewResultPromise w = Some preview ->
  content preview = Some content_ ->
  hasLocalChanged preview = false ->
  hasRemoteChanged preview = true ->
  hasErrors content_ = false ->
  truthy (authToken w) = true ->
  userDataSyncStore = Some store ->
  exists o,
    In (EvRequest o) (trace (snd (apply false w)))
    /\ type o = POST
    /\ data o
       = Some (JSON_stringify
                 (AbstractSynchroniser.syncDataToJson
                    {| sd_version := version;
                       sd_content :=
                         toSyncContent (keybindingsPerPlatform w) content_
                           (option_map sd_content
                              (syncData (remoteUserData preview))) |})).
Proof.
  intros Hp Hc Hl Hr He Ht Hs.
  unfold apply. eapply bind_after; [reflexivity | ]. rewrite Hp, Hc.
  match goal with
  | |- exists o, In (EvRequest o) (trace (snd (bind (applyContent _ _ _) ?k w))) /\ _ =>
      assert (Hk : forall a, respects (emits (fun _ => True)) (k a))
  end.
  { intros a. footprint; [now apply applyLastSync_emits | apply with_preview_emits]. }
  unfold applyContent. rewrite He, Hl, Hr.
  unfold updateRemoteUserData, AbstractSynchroniser.updateRemoteUserData, write.
  rewrite Hs.
  eexists. split; [ | split].
  - apply bind_grows; [ | exact Hk].
    eapply bind_after; [reflexivity | ].
    eapply bind_after; [reflexivity | ].
    apply bind_grows;
      [ | intros a; footprint; apply del_emits; exact I].
    apply bind_grows; [ | intros a; footprint].
    apply bind_grows; [ | intros a; footprint].
    apply (request_sent _ _ Ht).
  - reflexivity.
  - reflexivity.
Qed.

(** X30.  What [apply] hands to the backup store.  Every backup taken by
    the first part of [apply] is the envelope of the candidate content,
    the content about to be written; one is taken whenever the content
    passes the validity check and [hasLocalChanged] is on.  The content
    the local file holds is not looked at. *)
Lemma applyContent_backs_up_the_candidate (forcePush : bool)
    (preview : IFileSyncPreviewResult) (content_ : string) (w : World) :
  let backup :=
    JSON_stringify
      (AbstractSynchroniser.syncDataToJson
         {| sd_version := version;
            sd_content := toSyncContent (keybindingsPerPlatform w) content_ None |}) in
  (exists new,
      trace (snd (applyContent forcePush preview content_ w)) = (new ++ trace w)%list
      /\ forall k text, In (EvBackup k text) new -> k = keybindings /\ text = backup)
  /\ (hasErrors content_ = false ->
      hasLocalChanged preview = true ->
      In (EvBackup keybindings backup)
        (trace (snd (applyContent forcePush preview content_ w)))).
Proof.
  intros backup. split.
  - destruct (applyContent forcePush preview content_ w) as [r w'] eqn:H.
    pose (Q := fun e =>
                 match e with
                 | EvBackup k text => k = keybindings /\ text = backup
                 | _ => True
                 end).
    destruct (applyContent_emits Q forcePush preview content_ w) with (r := r) (w' := w')
      as [new [Et Hall]]; try exact H; try (simpl; tauto); try (intros; exact I).
    exists new. split; [exact Et | ].
    intros k text Hin. rewrite Forall_forall in Hall. exact (Hall _ Hin).
  - intros He Hl. unfold applyContent. rewrite He, Hl.
    eapply bind_after; [reflexivity | ].
    apply bind_grows.
    + apply bind_grows.
      * simpl. now left.
      * intros _. unfold updateLocalFileContent,
          AbstractSynchroniser.updateLocalFileContent.
        footprint; first [apply writeFile_emits | apply createFile_emits]; exact I.
    + intros _. unfold updateRemoteUserData, AbstractSynchroniser.updateRemoteUserData.
      footprint;
        first [ apply write_emits; [exact I | intros; exact I]
              | apply del_emits; exact I ].
Qed.

(** C10.  When the remote resource exists but the keybindings content
    extracted from it for the platform is absent or the empty string (the
    member of the sync content being a string, [null] or missing),
    [generatePreview] does what it does for a remote without data: the
    same run but for the remote data recorded in the preview.  It returns
    a preview whatever the local content is (no validity check) and calls
    no merge; when the local file exists its content is the candidate
    content, with [hasRemoteChanged] on, [hasLocalChanged] and
    [hasConflicts] off.  [apply], run on that preview, makes the validity
    check of its own: content with errors is refused with
    [LocalInvalidContent] and nothing else happens; content without is
    sent to the remote, given a token and a store, set into the sync
    content of the remote where that is of the declared type. *)
Theorem generatePreview_without_remote_content
    (remoteUserData_ : IRemoteUserData) (lastSyncUserData_ : option IRemoteUserData)
    (isCancellationRequested : bool) (syncData_ : ISyncData) (w : World) :
  syncData remoteUserData_ = Some syncData_ ->
  hasTypedKeybindings (keybindingsPerPlatform w) (sd_content syncData_) ->
  truthy (syncContentOf (keybindingsPerPlatform w) (Some remoteUserData_)) = false ->
  let nothing := {| ref := ref remoteUserData_; syncData := None |} in
  exists preview w',
    generatePreview remoteUserData_ lastSyncUserData_ isCancellationRequested w
    = (Ok preview, w')
    /\ generatePreview nothing lastSyncUserData_ isCancellationRequested w
       = (Ok {| fileContent := fileContent preview;
                remoteUserData := nothing;
                lastSyncUserData := lastSyncUserData preview;
                content := content preview;
                hasLocalChanged := hasLocalChanged preview;
                hasRemoteChanged := hasRemoteChanged preview;
                hasConflicts := hasConflicts preview |}, w')
    /\ (forall l r b, In (EvMerge l r b) (trace w') -> In (EvMerge l r b) (trace w))
    /\ remoteUserData preview = remoteUserData_
    /\ hasLocalChanged preview = false
    /\ hasConflicts preview = false
    /\ (forall f,
           files w keybindingsResource = Some f ->
           content preview = Some (value f)
           /\ hasRemoteChanged preview = true
           /\ forall w1,
               syncPreviewResultPromise w1 = Some preview ->
               (hasErrors (value f) = true ->
                apply false w1 = (Throw (UserDataSyncError LocalInvalidContent), w1))
               /\ (hasErrors (value f) = false ->
                   isSyncContent (Some (sd_content syncData_)) ->
                   truthy (authToken w1) = true ->
                   forall store,
                     userDataSyncStore = Some store ->
                     exists o,
                       In (EvRequest o) (trace (snd (apply false w1)))
                       /\ type o = POST
                       /\ data o
                          = Some (JSON_stringify
                                    (AbstractSynchroniser.syncDataToJson
                                       {| sd_version := version;
                                          sd_content :=
                                            toSyncContent (keybindingsPerPlatform w1)
                                              (value f)
                                              (Some (sd_content syncData_)) |})))).
Proof.
  intros Hsd _ Hremote nothing.
  rewrite (generatePreview_without_remote _ _ _ _ Hremote).
  rewrite (generatePreview_without_remote nothing) by reflexivity.
  cbv zeta.
  destruct (files w keybindingsResource) as [f | ] eqn:Hf.
  - destruct (truthy (Some (value f)) && negb isCancellationRequested);
      eexists; eexists; (split; [reflexivity | ]); (split; [reflexivity | ]);
      (split; [simpl; intros l r b H; try destruct H as [H | H];
               [try discriminate; exact H .. ] | ]);
      (split; [reflexivity | ]); (split; [reflexivity | ]); (split; [reflexivity | ]);
      intros f' Hf'; inversion Hf'; subst f';
      (split; [reflexivity | ]); (split; [reflexivity | ]);
      intros w1 Hp;
      (split;
       [ intros He; unfold apply, bind at 1, gets at 1; rewrite Hp;
         cbn [content]; unfold applyContent; now rewrite He
       | intros He _ Ht store Hs;
         destruct (apply_pushes _ (value f) store w1 Hp eq_refl eq_refl eq_refl He Ht Hs)
           as [o [Hin [Ho Hd]]];
         exists o; (split; [exact Hin | ]); (split; [exact Ho | ]);
         rewrite Hd; simpl; now rewrite Hsd ]).
  - eexists; eexists; (split; [reflexivity | ]); (split; [reflexivity | ]).
    split; [auto | ]. split; [reflexivity | ]. split; [reflexivity | ].
    split; [reflexivity | ]. intros f' Hf'. discriminate.
Qed.

End KeybindingsProperties.

(** * Further properties *)

Section StoreOperations.

Context {collaborators : Collaborators}.

Lemma header_set_header k v h : header k (set_header k v h) = Some v.
Proof.
  induction h as [ | [k' v'] rest IH]; simpl.
  - now rewrite String.eqb_refl.
  - destruct (String.eqb k k') eqn:E; simpl; rewrite ?String.eqb_refl, ?E; auto.
Qed.

(** A status that [request] answers with an error is not a success. *)
Lemma isSuccess_not_refused (context : IRequestContext) :
  isSuccess context = true ->
  (statusCode context =? 401)%Z = false
  /\ (statusCode context =? 403)%Z = false
  /\ (statusCode context =? 412)%Z = false
  /\ (statusCode context =? 413)%Z = false.
Proof.
  unfold isSuccess. intros H. apply andb_prop in H. destruct H as [_ H].
  apply Z.ltb_lt in H.
  repeat split; apply Z.eqb_neq; intros E; rewrite E in H; discriminate.
Qed.

(** What a maintenance operation does with the answer: [k] is applied to
    a 2xx answer, every other one is an error. *)
Lemma guarded_request (A : Type) (o : IRequestOptions) (k : IRequestContext -> A)
    (w : World) :
  truthy (authToken w) = true ->
  let sent := authorize (authToken w) o in
  let run :=
    bind (request o)
      (fun context =>
         if negb (isSuccess context) then throw (UserDataSyncStoreError Unknown)
         else ret (k context)) w in
  requests (snd run) = sent :: requests w
  /\ forall a,
      fst run = Ok a
      <-> exists context,
          respond (requests w) sent = Some context
          /\ isSuccess context = true /\ k context = a.
Proof.
  intros Ht sent run. subst run. unfold bind. rewrite (request_run _ _ Ht). cbv zeta.
  fold sent.
  destruct (respond (requests w) sent) as [c | ].
  - destruct (isSuccess c) eqn:Es.
    + destruct (isSuccess_not_refused _ Es) as [E1 [E2 [E3 E4]]].
      rewrite E1, E2, E3, E4. simpl. rewrite Es. simpl. split; [reflexivity | ].
      intros a. split.
      * intros H. inversion H. exists c. auto.
      * intros [c' [Hc [_ Hk]]]. inversion Hc; subst. reflexivity.
    + assert (Hno : forall a : A,
                 ~ exists context, Some c = Some context
                                   /\ isSuccess context = true /\ k context = a).
      { intros a [c' [Hc [Hs _]]]. inversion Hc; subst. congruence. }
      destruct (statusCode c =? 401)%Z;
        [simpl; split; [reflexivity | intros a; split; [discriminate | intros H; destruct (Hno a H)]] | ].
      destruct (statusCode c =? 403)%Z;
        [simpl; split; [reflexivity | intros a; split; [discriminate | intros H; destruct (Hno a H)]] | ].
      destruct (statusCode c =? 412)%Z;
        [simpl; split; [reflexivity | intros a; split; [discriminate | intros H; destruct (Hno a H)]] | ].
      destruct (statusCode c =? 413)%Z;
        [simpl; split; [reflexivity | intros a; split; [discriminate | intros H; destruct (Hno a H)]] | ].
      simpl. rewrite Es. simpl.
      split; [reflexivity | intros a; split; [discriminate | intros H; destruct (Hno a H)]].
  - simpl. split; [reflexivity | ].
    intros a; split; [discriminate | ]. intros [c [Hc _]]. discriminate.
Qed.

(** X1.  The three maintenance operations of the store client,
    [resolveContent], [delete] and [clear], with a token and a store at
    hand: each sends exactly one request (a [GET] of the ref, a [DELETE]
    of the resource, a [DELETE] of all resources) and returns exactly
    when the store answers with a 2xx status, whether or not the answer
    carries an entity tag; [resolveContent] then returns the body. *)
Theorem maintenance_succeeds_on_2xx (key : ResourceKey) (ref_ store : string)
    (w : World) :
  userDataSyncStore = Some store ->
  truthy (authToken w) = true ->
  (exists o,
      type o = GET
      /\ url o = store ++ "/resource/" ++ ResourceKey_toString key ++ "/" ++ ref_
      /\ requests (snd (resolveContent key ref_ w)) = o :: requests w
      /\ forall content_,
          fst (resolveContent key ref_ w) = Ok content_
          <-> exists context,
              respond (requests w) o = Some context
              /\ isSuccess context = true /\ res_text context = content_)
  /\ (exists o,
      type o = DELETE
      /\ url o = store ++ "/resource/" ++ ResourceKey_toString key
      /\ requests (snd (delete key w)) = o :: requests w
      /\ (fst (delete key w) = Ok tt
          <-> exists context,
              respond (requests w) o = Some context /\ isSuccess context = true))
  /\ (exists o,
      type o = DELETE
      /\ url o = store ++ "/resource"
      /\ requests (snd (clear w)) = o :: requests w
      /\ (fst (clear w) = Ok tt
          <-> exists context,
              respond (requests w) o = Some context /\ isSuccess context = true)).
Proof.
  intros Hs Ht. split; [ | split].
  - unfold resolveContent. rewrite Hs. cbv zeta.
    match goal with
    | |- context [request ?o] => set (o0 := o)
    end.
    exists (authorize (authToken w) o0).
    destruct (guarded_request _ o0 res_text w Ht) as [Hr Hk].
    split; [reflexivity | split; [reflexivity | split; [exact Hr | exact Hk]]].
  - unfold delete. rewrite Hs. cbv zeta.
    match goal with
    | |- context [request ?o] => set (o0 := o)
    end.
    exists (authorize (authToken w) o0).
    destruct (guarded_request _ o0 (fun _ => tt) w Ht) as [Hr Hk].
    split; [reflexivity | split; [reflexivity | split; [exact Hr | ]]].
    rewrite (Hk tt). split; intros [c [Hc [Hi _]]] || intros [c [Hc Hi]]; eauto.
  - unfold clear. rewrite Hs. cbv zeta.
    match goal with
    | |- context [request ?o] => set (o0 := o)
    end.
    exists (authorize (authToken w) o0).
    destruct (guarded_request _ o0 (fun _ => tt) w Ht) as [Hr Hk].
    split; [reflexivity | split; [reflexivity | split; [exact Hr | ]]].
    rewrite (Hk tt). split; intros [c [Hc [Hi _]]] || intros [c [Hc Hi]]; eauto.
Qed.

(** X2.  Without a token none of the five operations of the store client
    sends anything: each raises [Unauthorized] and leaves the world as it
    was. *)
Theorem store_operations_need_a_token (key : ResourceKey)
    (oldValue : option IUserData) (data_ : string) (ref_ : option string)
    (ref' store : string) (w : World) :
  userDataSyncStore = Some store ->
  truthy (authToken w) = false ->
  let unauthorized A : result A * World :=
    (Throw (UserDataSyncStoreError Unauthorized), w) in
  read key oldValue w = unauthorized _
  /\ write key data_ ref_ w = unauthorized _
  /\ resolveContent key ref' w = unauthorized _
  /\ delete key w = unauthorized _
  /\ clear w = unauthorized _.
Proof.
  intros Hs Ht. cbv zeta.
  unfold read, write, resolveContent, delete, clear. rewrite Hs. cbv zeta.
  unfold bind. rewrite !(request_without_token _ _ Ht). auto.
Qed.


(** A [request] whose answer is only looked at sends nothing, or one
    request that carries the token. *)
Lemma request_then_authorized (A : Type) (o : IRequestOptions)
    (k : IRequestContext -> M A) (w : World) :
  (forall context w1, snd (k context w1) = w1) ->
  requests (snd (bind (request o) k w)) = requests w
  \/ exists sent token,
      requests (snd (bind (request o) k w)) = sent :: requests w
      /\ authToken w = Some token
      /\ token <> EmptyString
      /\ header "authorization" (headers sent) = Some ("Bearer " ++ token).
Proof.
  intros Hk. destruct (truthy (authToken w)) eqn:Ht.
  - right. exists (authorize (authToken w) o).
    assert (Hr : requests (snd (bind (request o) k w))
                 = authorize (authToken w) o :: requests w).
    { unfold bind. rewrite (request_run _ _ Ht). cbv zeta.
      destruct (respond (requests w) (authorize (authToken w) o)) as [c | ];
        [ | reflexivity].
      destruct (statusCode c =? 401)%Z; [reflexivity | ].
      destruct (statusCode c =? 403)%Z; [reflexivity | ].
      destruct (statusCode c =? 412)%Z; [reflexivity | ].
      destruct (statusCode c =? 413)%Z; [reflexivity | ].
      now rewrite Hk. }
    destruct (authToken w) as [[ | a t] | ] eqn:Ea; try discriminate.
    exists (String a t).
    split; [exact Hr | split; [reflexivity | split; [discriminate | ]]].
    apply header_set_header.
  - left. unfold bind. now rewrite (request_without_token _ _ Ht).
Qed.

(** X3.  Each of the five operations of the store client sends at most
    one request, and a request it sends carries the token at hand, which
    is not empty, as [Bearer] authorization. *)
Theorem store_requests_carry_the_token (key : ResourceKey)
    (oldValue : option IUserData) (data_ : string) (ref_ : option string)
    (ref' : string) (w : World) :
  let authorized (w' : World) :=
    requests w' = requests w
    \/ exists sent token,
        requests w' = sent :: requests w
        /\ authToken w = Some token
        /\ token <> EmptyString
        /\ header "authorization" (headers sent) = Some ("Bearer " ++ token) in
  authorized (snd (read key oldValue w))
  /\ authorized (snd (write key data_ ref_ w))
  /\ authorized (snd (resolveContent key ref' w))
  /\ authorized (snd (delete key w))
  /\ authorized (snd (clear w)).
Proof.
  cbv zeta. unfold read, write, resolveContent, delete, clear.
  destruct userDataSyncStore as [store | ]; [ | simpl; auto 10].
  cbv zeta.
  repeat split; apply request_then_authorized; intros c w1.
  - destruct (statusCode c =? 304)%Z; [reflexivity | ].
    destruct (isSuccess c); [ | reflexivity].
    destruct (header "etag" (res_headers c)) as [[ | a t] | ]; reflexivity.
  - destruct (isSuccess c); [ | reflexivity].
    destruct (header "etag" (res_headers c)) as [[ | a t] | ]; reflexivity.
  - destruct (isSuccess c); reflexivity.
  - destruct (isSuccess c); reflexivity.
  - destruct (isSuccess c); reflexivity.
Qed.

End StoreOperations.

(** ** Objects *)

Lemma member_set_member k v ms : member k (set_member k v ms) = Some v.
Proof.
  induction ms as [ | [k' v'] rest IH]; simpl.
  - now rewrite String.eqb_refl.
  - destruct (String.eqb k k') eqn:E; simpl; rewrite ?String.eqb_refl, ?E; auto.
Qed.

Lemma member_set_member_other k k' v ms :
  k <> k' -> member k (set_member k' v ms) = member k ms.
Proof.
  intros Hk. apply String.eqb_neq in Hk.
  induction ms as [ | [k0 v0] rest IH]; simpl.
  - now rewrite Hk.
  - destruct (String.eqb k' k0) eqn:E; simpl.
    + apply String.eqb_eq in E. subst. now rewrite Hk.
    + now rewrite IH.
Qed.

Lemma member_delete_member k ms : member k (delete_member k ms) = None.
Proof.
  induction ms as [ | [k' v'] rest IH]; simpl; [reflexivity | ].
  destruct (String.eqb k k') eqn:E; simpl; rewrite ?E; auto.
Qed.

Lemma member_delete_member_other k k' ms :
  k <> k' -> member k (delete_member k' ms) = member k ms.
Proof.
  intros Hk. apply String.eqb_neq in Hk.
  induction ms as [ | [k0 v0] rest IH]; simpl; [reflexivity | ].
  destruct (String.eqb k' k0) eqn:E; simpl.
  - apply String.eqb_eq in E. subst. now rewrite Hk.
  - now rewrite IH.
Qed.

Section ContentProperties.

Context {json_runtime : JsonRuntime} {collaborators : Collaborators}.

Import KeybindingsSynchroniser.

Lemma platformMember_not_all : platformMember <> "all".
Proof. unfold platformMember. destruct OS; discriminate. Qed.

Lemma toSyncContent_object perPlatform keybindingsContent syncContent_ :
  toSyncContent perPlatform keybindingsContent syncContent_
  = JSON_stringify (JObj (syncContentObject perPlatform keybindingsContent syncContent_)).
Proof. reflexivity. Qed.

(** The keybindings written are the keybindings read, under one and the
    same setting. *)
Lemma written_keybindings (perPlatform : bool) (keybindingsContent : string)
    (syncContent_ : option string) :
  readsBack (JObj (syncContentObject perPlatform keybindingsContent syncContent_)) ->
  getKeybindingsContentFromSyncContent perPlatform
    (toSyncContent perPlatform keybindingsContent syncContent_)
  = Some keybindingsContent.
Proof.
  intros Hback. unfold getKeybindingsContentFromSyncContent.
  rewrite toSyncContent_object, Hback. unfold syncContentObject. cbv zeta.
  destruct perPlatform.
  - now rewrite member_set_member.
  - rewrite member_set_member_other
      by (intros E; symmetry in E; now apply platformMember_not_all).
    cbn [negb]. cbv iota. now rewrite member_set_member.
Qed.

(** A sync data with a version and a content is what [isSyncData]
    accepts. *)
Lemma isSyncData_syncDataToJson (syncData_ : ISyncData) :
  sd_version syncData_ <> 0%Z ->
  sd_content syncData_ <> EmptyString ->
  AbstractSynchroniser.isSyncData (AbstractSynchroniser.syncDataToJson syncData_)
  = Some syncData_.
Proof.
  destruct syncData_ as [v c]. simpl. intros Hv Hc.
  apply Z.eqb_neq in Hv. rewrite Hv. destruct c; [now destruct Hc | reflexivity].
Qed.

Lemma parseSyncData_well_formed (version : Z) (syncData_ : ISyncData) :
  sd_version syncData_ <> 0%Z ->
  sd_content syncData_ <> EmptyString ->
  readsBack (AbstractSynchroniser.syncDataToJson syncData_) ->
  AbstractSynchroniser.parseSyncData version
    (JSON_stringify (AbstractSynchroniser.syncDataToJson syncData_))
  = Some syncData_.
Proof.
  intros Hv Hc Hback. unfold AbstractSynchroniser.parseSyncData.
  unfold readsBack in Hback. rewrite Hback. now rewrite isSyncData_syncDataToJson.
Qed.

(** X4.  The keybindings put into a sync content by [toSyncContent] are
    the keybindings [getKeybindingsContentFromSyncContent] takes out of
    it, whatever the sync content (of the declared type) was before, with
    one exception: a sync content written with
    [sync.keybindingsPerPlatform] on has lost its [all] member, and read
    with the setting off it holds no keybindings. *)
Theorem toSyncContent_round_trip (writeSetting readSetting : bool)
    (keybindingsContent : string) (syncContent_ : option string) :
  isSyncContent syncContent_ ->
  readsBack (JObj (syncContentObject writeSetting keybindingsContent syncContent_)) ->
  getKeybindingsContentFromSyncContent readSetting
    (toSyncContent writeSetting keybindingsContent syncContent_)
  = if readSetting || negb writeSetting then Some keybindingsContent else None.
Proof.
  intros _ Hback. unfold getKeybindingsContentFromSyncContent.
  rewrite toSyncContent_object, Hback. unfold syncContentObject.
  cbv zeta.
  match goal with
  | |- context [set_member platformMember _ ?ms] => set (parsed := ms)
  end.
  destruct readSetting; simpl.
  - now rewrite member_set_member.
  - rewrite member_set_member_other by (intros E; symmetry in E; now apply platformMember_not_all).
    subst parsed. destruct writeSetting; simpl.
    + now rewrite member_delete_member.
    + now rewrite member_set_member.
Qed.

(** X5.  [toSyncContent] changes the member of this platform and the
    [all] member only: whatever the sync content it is given holds under
    another name, the keybindings of another platform say, is in the sync
    content it returns. *)
Theorem toSyncContent_keeps_other_platforms (perPlatform : bool)
    (keybindingsContent syncContent_ : string) (remote : list (string * json)) :
  syncContent_ <> EmptyString ->
  JSON_parse syncContent_ = Some (JObj remote) ->
  readsBack (JObj (syncContentObject perPlatform keybindingsContent (Some syncContent_))) ->
  exists written,
    JSON_parse (toSyncContent perPlatform keybindingsContent (Some syncContent_))
    = Some (JObj written)
    /\ forall name,
        name <> "all" -> name <> platformMember ->
        member name written = member name remote.
Proof.
  intros Hne Hparse Hback.
  exists (syncContentObject perPlatform keybindingsContent (Some syncContent_)).
  split; [exact Hback | ].
  intros name Hall Hplatform. unfold syncContentObject.
  destruct syncContent_ as [ | a t]; [now destruct Hne | ].
  simpl truthy. cbv iota zeta. rewrite Hparse.
  rewrite member_set_member_other by assumption.
  destruct perPlatform; simpl.
  - now apply member_delete_member_other.
  - now apply member_set_member_other.
Qed.

(** X6.  [parseSyncData] gives back the sync data whose text it is given,
    provided the version is not [0] and the content is not empty.  A sync
    data outside that range is taken for content of the time before sync
    data: its whole text becomes the content, under the version of the
    synchroniser. *)
Theorem parseSyncData_round_trip (version : Z) (syncData_ : ISyncData) :
  readsBack (AbstractSynchroniser.syncDataToJson syncData_) ->
  AbstractSynchroniser.parseSyncData version
    (JSON_stringify (AbstractSynchroniser.syncDataToJson syncData_))
  = Some (if (sd_version syncData_ =? 0)%Z || (sd_content syncData_ =? EmptyString)%string
          then {| sd_version := version;
                  sd_content :=
                    JSON_stringify (AbstractSynchroniser.syncDataToJson syncData_) |}
          else syncData_).
Proof.
  intros Hback. unfold AbstractSynchroniser.parseSyncData. rewrite Hback.
  destruct syncData_ as [v c]. simpl.
  destruct (v =? 0)%Z; simpl; [reflexivity | ].
  destruct c; reflexivity.
Qed.

(** X7.  The fragment [keybindings] of the text of a sync data that wraps
    a sync content made by [toSyncContent] (from a sync content of the
    declared type) is the keybindings that were put in; there is no other
    fragment. *)
Theorem getFragment_round_trip (perPlatform : bool) (keybindingsContent : string)
    (syncContent_ : option string) (version_ : Z) :
  let wrapped := toSyncContent perPlatform keybindingsContent syncContent_ in
  let syncData_ := {| sd_version := version_; sd_content := wrapped |} in
  isSyncContent syncContent_ ->
  version_ <> 0%Z ->
  wrapped <> EmptyString ->
  readsBack (JObj (syncContentObject perPlatform keybindingsContent syncContent_)) ->
  readsBack (AbstractSynchroniser.syncDataToJson syncData_) ->
  getFragment perPlatform
    (JSON_stringify (AbstractSynchroniser.syncDataToJson syncData_)) "keybindings"
  = Some keybindingsContent
  /\ forall fragment,
      fragment <> "keybindings" ->
      getFragment perPlatform
        (JSON_stringify (AbstractSynchroniser.syncDataToJson syncData_)) fragment
      = None.
Proof.
  intros wrapped syncData_ _ Hv Hne Hobj Hdata.
  assert (Hparse : parseSyncData
                     (JSON_stringify (AbstractSynchroniser.syncDataToJson syncData_))
                   = Some syncData_)
    by (now apply parseSyncData_well_formed).
  unfold getFragment. rewrite Hparse. split.
  - simpl. subst wrapped. now apply written_keybindings.
  - intros fragment Hf. apply String.eqb_neq in Hf. now rewrite Hf.
Qed.

End ContentProperties.

Section CheckpointProperties.

Context {json_runtime : JsonRuntime} {collaborators : Collaborators}.
Variable version : Z.
Variable resourceKey : ResourceKey.

Local Abbreviation getLastSyncUserData := (AbstractSynchroniser.getLastSyncUserData version).
Local Abbreviation getRemoteUserData := (AbstractSynchroniser.getRemoteUserData version resourceKey).
Local Abbreviation parseSyncData := (AbstractSynchroniser.parseSyncData version).
Local Abbreviation syncDataToJson := AbstractSynchroniser.syncDataToJson.

(** [getLastSyncUserData] never raises and changes nothing. *)
Lemma getLastSyncUserData_quiet (w : World) :
  exists lastSyncUserData, getLastSyncUserData w = (Ok lastSyncUserData, w).
Proof.
  unfold AbstractSynchroniser.getLastSyncUserData, tryCatch, bind, fileService_readFile.
  destruct (files w lastSyncResource) as [f | ]; [ | eexists; reflexivity].
  destruct (JSON_parse (value f)) as [[ | | | | | parsed] | ]; try (eexists; reflexivity).
  destruct (member "ref" parsed) as [[ | | | r | | ] | ]; try (eexists; reflexivity).
  destruct (member "content" parsed) as [[ | | | c | | ] | ]; try (eexists; reflexivity).
  destruct (JSON_parse c); eexists; reflexivity.
Qed.

(** X8.  The checkpoint [updateLastSyncUserData] writes is the checkpoint
    [getLastSyncUserData] reads: the same ref and the same sync data,
    provided the sync data has a version other than [0] and a content
    that is not empty. *)
Theorem checkpoint_round_trip (lastSyncRemoteUserData : IRemoteUserData)
    (syncData_ : ISyncData) (w : World) :
  syncData lastSyncRemoteUserData = Some syncData_ ->
  sd_version syncData_ <> 0%Z ->
  sd_content syncData_ <> EmptyString ->
  readsBack (syncDataToJson syncData_) ->
  readsBack (JObj [("ref", JStr (ref lastSyncRemoteUserData));
                   ("content", JStr (JSON_stringify (syncDataToJson syncData_)))]) ->
  exists w',
    AbstractSynchroniser.updateLastSyncUserData lastSyncRemoteUserData w = (Ok tt, w')
    /\ getLastSyncUserData w' = (Ok (Some lastSyncRemoteUserData), w').
Proof.
  intros Hs Hv Hc Hdata Hfile.
  unfold AbstractSynchroniser.updateLastSyncUserData. rewrite Hs. cbv zeta.
  unfold fileService_writeFile. eexists. split; [reflexivity | ].
  unfold AbstractSynchroniser.getLastSyncUserData, tryCatch, bind, fileService_readFile.
  simpl files. cbv beta iota. cbn [value]. unfold readsBack in Hfile, Hdata.
  rewrite Hfile. cbn [member String.eqb Ascii.eqb Bool.eqb].
  rewrite Hdata, (isSyncData_syncDataToJson _ Hv Hc). unfold ret.
  destruct lastSyncRemoteUserData as [r s]. simpl in *. now subst.
Qed.

(** X9.  A store that answers 304 to the conditional read leaves
    [getRemoteUserData] with the last-sync data it was given: one [GET]
    is sent, under [If-None-Match] with the ref of that data, and the
    remote data returned is that data, sync data included. *)
Theorem getRemoteUserData_not_modified (lastSyncData : IRemoteUserData)
    (store : string) (w : World) :
  userDataSyncStore = Some store ->
  truthy (authToken w) = true ->
  (forall o,
      type o = GET ->
      header "If-None-Match" (headers o) = Some (ref lastSyncData) ->
      exists context,
        respond (requests w) o = Some context /\ statusCode context = 304%Z) ->
  (forall syncData_,
      syncData lastSyncData = Some syncData_ ->
      sd_version syncData_ <> 0%Z
      /\ sd_content syncData_ <> EmptyString
      /\ readsBack (syncDataToJson syncData_)) ->
  exists o,
    getRemoteUserData (Some lastSyncData) w
    = (Ok lastSyncData, with_event (EvRequest o) (with_requests (o :: requests w) w))
    /\ type o = GET
    /\ header "If-None-Match" (headers o) = Some (ref lastSyncData).
Proof.
  intros Hs Ht Hstore Hdata.
  unfold AbstractSynchroniser.getRemoteUserData, AbstractSynchroniser.getUserData, read.
  rewrite Hs. cbv zeta.
  match goal with
  | |- context [request ?o] => set (o0 := o)
  end.
  exists (authorize (authToken w) o0).
  assert (Hh : header "If-None-Match" (headers (authorize (authToken w) o0))
               = Some (ref lastSyncData)) by reflexivity.
  destruct (Hstore (authorize (authToken w) o0) eq_refl Hh) as [c [Hc H304]].
  split; [ | split; [reflexivity | exact Hh]].
  unfold bind at 1 2. rewrite (request_run _ _ Ht). cbv zeta. rewrite Hc, H304.
  cbv beta iota. change (304 =? 401)%Z with false. change (304 =? 403)%Z with false.
  change (304 =? 412)%Z with false. change (304 =? 413)%Z with false.
  cbv beta iota. rewrite H304. change (304 =? 304)%Z with true. cbv beta iota.
  unfold ret. cbn [ud_ref ud_content]. f_equal.
  destruct lastSyncData as [r [s | ]]; cbn [ref syncData] in *; [ | reflexivity].
  destruct (Hdata s eq_refl) as [Hv [Hne Hback]].
  now rewrite parseSyncData_well_formed.
Qed.

End CheckpointProperties.

(** [setStatus] changes the status and the trace only. *)
Lemma setStatus_frame s w :
  syncPreviewResultPromise (AbstractSynchroniser.setStatus_ s w) = syncPreviewResultPromise w
  /\ files (AbstractSynchroniser.setStatus_ s w) = files w
  /\ requests (AbstractSynchroniser.setStatus_ s w) = requests w.
Proof.
  unfold AbstractSynchroniser.setStatus_.
  destruct (SyncStatus_eqb (_status w) s); [auto | ].
  destruct (SyncStatus_eqb s HasConflicts),
    (SyncStatus_eqb (_status w) HasConflicts && SyncStatus_eqb s Idle); auto.
Qed.

Lemma URI_eqb_eq a b : URI_eqb a b = true <-> a = b.
Proof. destruct a, b; simpl; split; congruence. Qed.

Section LifecycleProperties.

Context {json_runtime : JsonRuntime} {collaborators : Collaborators}.
Variable version : Z.
Variable resourceKey : ResourceKey.

(** X10.  [stop] always returns.  Afterwards the status is [Idle], no
    preview is stored and the preview file is gone; no other file is
    touched and nothing is sent. *)
Theorem stop_resets (conflictsPreviewResource : URI) (w : World) :
  exists w',
    AbstractSynchroniser.stop conflictsPreviewResource w = (Ok tt, w')
    /\ _status w' = Idle
    /\ syncPreviewResultPromise w' = None
    /\ files w' conflictsPreviewResource = None
    /\ (forall u, u <> conflictsPreviewResource -> files w' u = files w u)
    /\ requests w' = requests w.
Proof.
  unfold AbstractSynchroniser.stop, AbstractSynchroniser.cancel,
    AbstractSynchroniser.setStatus, ignoreErrors, tryCatch, bind, modify,
    fileService_del.
  cbn [files with_preview].
  destruct (files w conflictsPreviewResource) as [f | ] eqn:Ef.
  - eexists. split; [reflexivity | ].
    split; [apply setStatus_status | ].
    destruct (setStatus_frame Idle
                (with_event (EvDelete conflictsPreviewResource)
                   (remove_file conflictsPreviewResource (with_preview None w))))
      as [Hp [Hf Hr]].
    rewrite Hp, Hf, Hr. simpl.
    split; [reflexivity | ].
    split; [now rewrite (proj2 (URI_eqb_eq _ _) eq_refl) | ].
    split; [ | reflexivity].
    intros u Hu. destruct (URI_eqb u conflictsPreviewResource) eqn:E; [ | reflexivity].
    apply URI_eqb_eq in E. contradiction.
  - eexists. split; [reflexivity | ].
    split; [apply setStatus_status | ].
    destruct (setStatus_frame Idle (with_preview None w)) as [Hp [Hf Hr]].
    rewrite Hp, Hf, Hr. simpl. auto.
Qed.

(** X11.  [resetLocal] always returns and forgets the checkpoint:
    afterwards [hasPreviouslySynced] answers no.  No other file is
    touched and nothing is sent. *)
Theorem resetLocal_forgets_the_checkpoint (w : World) :
  exists w',
    AbstractSynchroniser.resetLocal w = (Ok tt, w')
    /\ AbstractSynchroniser.hasPreviouslySynced version w' = (Ok false, w')
    /\ (forall u, u <> lastSyncResource -> files w' u = files w u)
    /\ requests w' = requests w.
Proof.
  assert (Hgone : forall w', files w' lastSyncResource = None ->
                    AbstractSynchroniser.hasPreviouslySynced version w' = (Ok false, w')).
  { intros w' Hf.
    unfold AbstractSynchroniser.hasPreviouslySynced,
      AbstractSynchroniser.getLastSyncUserData, tryCatch, bind, fileService_readFile.
    now rewrite Hf. }
  unfold AbstractSynchroniser.resetLocal, ignoreErrors, tryCatch, fileService_del.
  destruct (files w lastSyncResource) as [f | ] eqn:Ef.
  - eexists. split; [reflexivity | ].
    split; [apply Hgone; reflexivity | ].
    split; [ | reflexivity].
    intros u Hu. simpl. destruct (URI_eqb u lastSyncResource) eqn:E; [ | reflexivity].
    apply URI_eqb_eq in E. contradiction.
  - eexists. split; [reflexivity | ].
    split; [now apply Hgone | auto].
Qed.

End LifecycleProperties.

Section FetchProperties.

Context {json_runtime : JsonRuntime} {collaborators : Collaborators}.
Variable version : Z.
Variable resourceKey : ResourceKey.

Local Abbreviation getLastSyncUserData := (AbstractSynchroniser.getLastSyncUserData version).
Local Abbreviation getRemoteUserData := (AbstractSynchroniser.getRemoteUserData version resourceKey).

(** A field that events and requests do not touch is not touched by the
    operations of the store client. *)
Lemma read_keeps {X} (field : World -> X) key oldValue :
  (forall e w, field (with_event e w) = field w) ->
  (forall n w, field (with_requests n w) = field w) ->
  respects (keeps field) (read key oldValue).
Proof.
  intros He Hn. unfold read. footprint.
  all: try reflexivity.
  all: apply request_keeps; (exact He || exact Hn || (intros; reflexivity)).
Qed.

Lemma getRemoteUserData_keeps {X} (field : World -> X) lastSyncData :
  (forall e w, field (with_event e w) = field w) ->
  (forall n w, field (with_requests n w) = field w) ->
  respects (keeps field) (getRemoteUserData lastSyncData).
Proof.
  intros He Hn.
  unfold AbstractSynchroniser.getRemoteUserData, AbstractSynchroniser.getUserData.
  footprint. now apply read_keeps.
Qed.

Section Fetch.

Variable performSync : IRemoteUserData -> option IRemoteUserData -> M SyncStatus.

Local Abbreviation sync := (AbstractSynchroniser.sync version resourceKey performSync).

(** [sync] past its guards. *)
Lemma sync_run (retries : nat) (ref_ : option string) (w : World) :
  resourceEnabled w = true ->
  _status w <> HasConflicts ->
  _status w <> Syncing ->
  sync retries ref_ w
  = bind getLastSyncUserData
      (fun lastSyncUserData =>
         bind
           match ref_, lastSyncUserData with
           | Some r, Some l =>
               if truthy ref_ && String.eqb (ref l) r then ret l
               else getRemoteUserData lastSyncUserData
           | _, _ => getRemoteUserData lastSyncUserData
           end
           (fun remoteUserData w =>
              match AbstractSynchroniser.doSync version resourceKey performSync
                      retries remoteUserData lastSyncUserData w with
              | (Ok status, w') => (Ok tt, AbstractSynchroniser.setStatus_ status w')
              | (Throw e, w') => (Throw e, AbstractSynchroniser.setStatus_ Idle w')
              | (Spin, w') => (Spin, w')
              end))
      (AbstractSynchroniser.setStatus_ Syncing w).
Proof.
  intros Hen Hc Hs.
  unfold AbstractSynchroniser.sync, AbstractSynchroniser.isEnabled,
    AbstractSynchroniser.setStatus, bind, gets, modify.
  cbv beta iota. rewrite Hen. cbn [negb]. cbv beta iota.
  destruct (_status w) eqn:Est; try contradiction; reflexivity.
Qed.

(** X12.  [sync] reads the remote data before it enters the [try] whose
    [finally] sets the status: when that read raises, [sync] raises the
    same error and the status stays [Syncing], so that every [sync]
    after it returns at once. *)
Theorem sync_leaves_Syncing_when_the_fetch_fails (retries : nat)
    (ref_ : option string) (lastSyncUserData : option IRemoteUserData)
    (e : exn) (w w' : World) :
  resourceEnabled w = true ->
  _status w <> HasConflicts ->
  _status w <> Syncing ->
  let started := AbstractSynchroniser.setStatus_ Syncing w in
  getLastSyncUserData started = (Ok lastSyncUserData, started) ->
  (truthy ref_ = false \/ option_map ref lastSyncUserData <> ref_) ->
  getRemoteUserData lastSyncUserData started = (Throw e, w') ->
  sync retries ref_ w = (Throw e, w')
  /\ _status w' = Syncing
  /\ forall retries' ref', sync retries' ref' w' = (Ok tt, w').
Proof.
  intros Hen Hc Hs started Hlast Href Hfetch.
  assert (Hstatus : _status w' = Syncing).
  { assert (Hk : respects (keeps _status) (getRemoteUserData lastSyncUserData))
      by (apply getRemoteUserData_keeps; reflexivity).
    rewrite (Hk _ _ _ Hfetch). apply setStatus_status. }
  split; [ | split; [exact Hstatus | ]].
  - rewrite (sync_run _ _ _ Hen Hc Hs). fold started.
    unfold bind at 1. rewrite Hlast.
    assert (Hget : match ref_, lastSyncUserData with
                   | Some r, Some l =>
                       if truthy ref_ && String.eqb (ref l) r then ret l
                       else getRemoteUserData lastSyncUserData
                   | _, _ => getRemoteUserData lastSyncUserData
                   end = getRemoteUserData lastSyncUserData).
    { destruct ref_ as [r | ]; [ | reflexivity].
      destruct lastSyncUserData as [l | ]; [ | reflexivity].
      destruct Href as [Hr | Hr]; [now rewrite Hr | ].
      destruct (String.eqb_spec (ref l) r) as [E | E];
        [subst; now destruct Hr | now rewrite andb_false_r]. }
    rewrite Hget. unfold bind. now rewrite Hfetch.
  - intros retries' ref'.
    unfold AbstractSynchroniser.sync, AbstractSynchroniser.isEnabled, bind, gets.
    destruct (resourceEnabled w'); [ | reflexivity].
    cbv beta iota. cbn [negb]. cbv beta iota. rewrite Hstatus. reflexivity.
Qed.

End Fetch.
End FetchProperties.

(** ** How methods end *)

Lemma raises_weaken {A} (P Q : exn -> Prop) (m : M A) :
  (forall e, P e -> Q e) -> raises P m -> raises Q m.
Proof.
  intros HPQ Hm w r w' H. specialize (Hm w r w' H). destruct r; auto.
Qed.

Lemma raises_ret {A} (P : exn -> Prop) (a : A) : raises P (ret a).
Proof. intros w r w' H. inversion H; subst. exact I. Qed.

Lemma raises_throw {A} (P : exn -> Prop) (e : exn) : P e -> raises P (@throw A e).
Proof. intros He w r w' H. inversion H; subst. exact He. Qed.

Lemma raises_gets {A} (P : exn -> Prop) (f : World -> A) : raises P (gets f).
Proof. intros w r w' H. inversion H; subst. exact I. Qed.

Lemma raises_modify (P : exn -> Prop) (f : World -> World) : raises P (modify f).
Proof. intros w r w' H. inversion H; subst. exact I. Qed.

Lemma raises_bind {A B} (P : exn -> Prop) (m : M A) (k : A -> M B) :
  raises P m -> (forall a, raises P (k a)) -> raises P (bind m k).
Proof.
  intros Hm Hk w r w' H. unfold bind in H.
  destruct (m w) as [[a | e | ] w1] eqn:E.
  - exact (Hk a w1 r w' H).
  - inversion H; subst. exact (Hm _ _ _ E).
  - destruct (Hm _ _ _ E).
Qed.

Lemma raises_tryCatch {A} (P Q : exn -> Prop) (m : M A) (h : exn -> M A) :
  raises Q m -> (forall e, Q e -> raises P (h e)) -> raises P (tryCatch m h).
Proof.
  intros Hm Hh w r w' H. unfold tryCatch in H.
  destruct (m w) as [[a | e | ] w1] eqn:E.
  - inversion H; subst. exact I.
  - exact (Hh e (Hm _ _ _ E) w1 r w' H).
  - destruct (Hm _ _ _ E).
Qed.

Lemma raises_ignoreErrors (P Q : exn -> Prop) (m : M unit) :
  raises Q m -> raises P (ignoreErrors m).
Proof.
  intros Hm. unfold ignoreErrors. eapply raises_tryCatch; [exact Hm | ].
  intros e _. apply raises_ret.
Qed.

Ltac raises_step :=
  match goal with
  | |- raises _ (bind _ _) => apply raises_bind; [ | intro]
  | |- raises _ (ret _) => apply raises_ret
  | |- raises _ (gets _) => apply raises_gets
  | |- raises _ (modify _) => apply raises_modify
  | |- raises _ (emit _) => apply raises_modify
  | |- raises _ (if ?b then _ else _) => destruct b
  | |- raises _ (match ?x with _ => _ end) => destruct x
  | |- raises _ (let _ := _ in _) => cbv zeta
  end.

Section Endings.

Context {collaborators : Collaborators}.

Lemma readFile_raises u :
  raises (fun e => e = FileOperationError FILE_NOT_FOUND) (fileService_readFile u).
Proof.
  intros w r w' H. unfold fileService_readFile in H.
  destruct (files w u); inversion H; subst; auto.
Qed.

Lemma writeFile_raises (P : exn -> Prop) u text :
  raises P (fileService_writeFile u text None).
Proof. intros w r w' H. inversion H; subst. exact I. Qed.

Lemma del_raises u :
  raises (fun e => e = FileOperationError FILE_NOT_FOUND) (fileService_del u).
Proof.
  intros w r w' H. unfold fileService_del in H.
  destruct (files w u); inversion H; subst; auto.
Qed.

Local Abbreviation ofTheStore := (fun e => isLocalPreconditionFailed e = false).

Lemma request_raises o : raises ofTheStore (request o).
Proof.
  intros w r w' H. destruct (truthy (authToken w)) eqn:Ht.
  - rewrite (request_run _ _ Ht) in H. cbv zeta in H.
    destruct (respond (requests w) (authorize (authToken w) o)) as [c | ];
      [ | inversion H; subst; reflexivity].
    destruct (statusCode c =? 401)%Z; [inversion H; subst; reflexivity | ].
    destruct (statusCode c =? 403)%Z; [inversion H; subst; reflexivity | ].
    destruct (statusCode c =? 412)%Z; [inversion H; subst; reflexivity | ].
    destruct (statusCode c =? 413)%Z; inversion H; subst; [reflexivity | exact I].
  - rewrite (request_without_token _ _ Ht) in H. inversion H; subst. reflexivity.
Qed.

Lemma write_raises key data_ ref_ : raises ofTheStore (write key data_ ref_).
Proof.
  unfold write. repeat raises_step.
  all: try (apply raises_throw; reflexivity).
  all: apply request_raises.
Qed.

Lemma read_raises key oldValue : raises ofTheStore (read key oldValue).
Proof.
  unfold read. repeat raises_step.
  all: try (apply raises_throw; reflexivity).
  all: apply request_raises.
Qed.

End Endings.

Section PerformSyncProperties.

Context {json_runtime : JsonRuntime} {collaborators : Collaborators}.

Import KeybindingsSynchroniser.

Local Abbreviation elsewhere := (fun e => isLocalPreconditionFailed e = false).
Local Abbreviation anything := (fun _ : exn => True).

Lemma generatePreview_raises remoteUserData_ lastSyncUserData_ token :
  raises elsewhere (generatePreview remoteUserData_ lastSyncUserData_ token).
Proof.
  unfold generatePreview, getLocalFileContent, AbstractSynchroniser.getLocalFileContent.
  repeat raises_step.
  all: try (apply raises_throw; reflexivity).
  all: try apply writeFile_raises.
  all: eapply raises_tryCatch;
    [apply raises_bind; [apply readFile_raises | intro; apply raises_ret]
    | intros; apply raises_ret].
Qed.

Lemma updateLocalFileContent_raises newContent oldContent :
  raises anything (updateLocalFileContent newContent oldContent).
Proof.
  intros w r w' H.
  unfold updateLocalFileContent, AbstractSynchroniser.updateLocalFileContent, tryCatch,
    fileService_writeFile, fileService_createFile in H.
  destruct r; [exact I | exact I | ].
  destruct oldContent as [o | ].
  - destruct (files w file) as [c | ]; [ | discriminate].
    destruct (Nat.eqb (mtime c) (mtime o)); discriminate.
  - destruct (files w file); discriminate.
Qed.

Lemma updateRemoteUserData_raises content_ ref_ :
  raises elsewhere (updateRemoteUserData content_ ref_).
Proof.
  unfold updateRemoteUserData, AbstractSynchroniser.updateRemoteUserData.
  repeat raises_step. apply write_raises.
Qed.

Lemma applyLastSync_raises preview remoteUserData_ :
  raises elsewhere (applyLastSync preview remoteUserData_).
Proof.
  unfold applyLastSync, updateLastSyncUserData, AbstractSynchroniser.updateLastSyncUserData.
  repeat raises_step.
  all: try (apply raises_throw; reflexivity).
  all: apply writeFile_raises.
Qed.

(** The part of [applyContent] that follows the update of the local
    file. *)
Lemma remote_update_raises (forcePush : bool) (preview : IFileSyncPreviewResult)
    (content_ : string) (perPlatform : bool) :
  raises elsewhere
    (bind
       (if hasRemoteChanged preview then
          updateRemoteUserData
            (toSyncContent perPlatform content_
               (option_map sd_content (syncData (remoteUserData preview))))
            (if forcePush then None else Some (ref (remoteUserData preview)))
        else ret (remoteUserData preview))
       (fun remoteUserData_ =>
          bind (ignoreErrors (fileService_del conflictsPreviewResource))
            (fun _ => ret remoteUserData_))).
Proof.
  repeat raises_step.
  all: try apply updateRemoteUserData_raises.
  all: eapply raises_ignoreErrors; apply del_raises.
Qed.

Lemma applyContent_raises forcePush preview content_ :
  raises anything (applyContent forcePush preview content_).
Proof.
  unfold applyContent.
  destruct (hasErrors content_); [now apply raises_throw | ].
  apply raises_bind; [apply raises_gets | intros perPlatform].
  apply raises_bind.
  - destruct (hasLocalChanged preview); [ | apply raises_ret].
    apply raises_bind; [apply raises_modify | intro].
    apply updateLocalFileContent_raises.
  - intros _. eapply raises_weaken; [ | apply remote_update_raises]. auto.
Qed.

Lemma apply_raises forcePush : raises anything (apply forcePush).
Proof.
  unfold apply. repeat raises_step.
  all: try apply applyContent_raises.
  all: eapply raises_weaken; [ | apply applyLastSync_raises]; auto.
Qed.

Lemma getPreview_raises remoteUserData_ lastSyncUserData_ :
  raises elsewhere (getPreview remoteUserData_ lastSyncUserData_).
Proof.
  unfold getPreview. repeat raises_step. apply generatePreview_raises.
Qed.

(** [performSync] past its preview. *)
Local Abbreviation attempt remoteUserData_ lastSyncUserData_ :=
  (bind (getPreview remoteUserData_ lastSyncUserData_)
     (fun result =>
        if hasConflicts result then ret HasConflicts
        else bind (apply false) (fun _ => ret Idle))).

Lemma attempt_raises remoteUserData_ lastSyncUserData_ :
  raises anything (attempt remoteUserData_ lastSyncUserData_).
Proof.
  repeat raises_step.
  - eapply raises_weaken; [ | apply getPreview_raises]. auto.
  - apply apply_raises.
Qed.

Lemma performSync_unfold retries remoteUserData_ lastSyncUserData_ :
  performSync retries remoteUserData_ lastSyncUserData_
  = tryCatch (attempt remoteUserData_ lastSyncUserData_)
      (fun e =>
         bind (modify (with_preview None))
           (fun _ =>
              if isLocalPreconditionFailed e then
                match retries with
                | O => spin
                | S retries => performSync retries remoteUserData_ lastSyncUserData_
                end
              else throw e)).
Proof. destruct retries; reflexivity. Qed.

(** X13.  No [LocalPreconditionFailed] leaves [performSync]: the method
    answers it by clearing the preview and calling itself. *)
Theorem performSync_keeps_LocalPreconditionFailed_to_itself (retries : nat)
    (remoteUserData_ : IRemoteUserData) (lastSyncUserData_ : option IRemoteUserData)
    (w : World) :
  match fst (performSync retries remoteUserData_ lastSyncUserData_ w) with
  | Throw e => isLocalPreconditionFailed e = false
  | _ => True
  end.
Proof.
  revert w. induction retries as [ | n IH]; intros w;
    rewrite performSync_unfold; unfold tryCatch;
    destruct (attempt remoteUserData_ lastSyncUserData_ w) as [[s | e0 | ] w1];
    try exact I.
  - unfold bind, modify.
    destruct (isLocalPreconditionFailed e0) eqn:E0; [exact I | exact E0].
  - unfold bind at 1, modify.
    destruct (isLocalPreconditionFailed e0) eqn:E0; [apply IH | exact E0].
Qed.

(** A preview that was just generated holds the local file as it is. *)
Lemma generatePreview_fresh remoteUserData_ lastSyncUserData_ token w preview w1 :
  generatePreview remoteUserData_ lastSyncUserData_ token w = (Ok preview, w1) ->
  fileContent preview = files w keybindingsResource
  /\ files w1 keybindingsResource = files w keybindingsResource.
Proof.
  intros H.
  assert (Hnone : truthy (syncContentOf (keybindingsPerPlatform w) (Some remoteUserData_))
                  = false ->
                  fileContent preview = files w keybindingsResource
                  /\ files w1 keybindingsResource = files w keybindingsResource).
  { intros E. rewrite (generatePreview_without_remote _ _ _ _ E) in H.
    cbv zeta in H.
    destruct (files w keybindingsResource) as [f | ] eqn:Ef;
      [destruct (truthy (Some (value f)) && negb token) | ];
      inversion H; subst; simpl; rewrite ?Ef; split; reflexivity. }
  destruct (syncContentOf (keybindingsPerPlatform w) (Some remoteUserData_))
    as [[ | a t] | ] eqn:E; [now apply Hnone | | now apply Hnone].
  rewrite (generatePreview_with_remote_content _ _ _ _ _ E) in H by discriminate.
  cbv zeta in H.
  repeat match type of H with
         | context [if ?b then _ else _] => destruct b
         end;
    inversion H; subst; split; reflexivity.
Qed.

(** The update of the local file goes through when the preview holds the
    file as it is. *)
Lemma local_update_fresh (perPlatform : bool) (preview : IFileSyncPreviewResult)
    (content_ : string) (w : World) :
  fileContent preview = files w keybindingsResource ->
  exists w',
    (if hasLocalChanged preview then
       bind (backupLocal (toSyncContent perPlatform content_ None))
         (fun _ => updateLocalFileContent content_ (fileContent preview))
     else ret tt) w = (Ok tt, w').
Proof.
  intros Hf. destruct (hasLocalChanged preview); [ | now exists w].
  unfold bind, backupLocal, AbstractSynchroniser.backupLocal, emit, modify,
    updateLocalFileContent, AbstractSynchroniser.updateLocalFileContent, tryCatch,
    fileService_writeFile, fileService_createFile, file.
  rewrite Hf.
  destruct (files w keybindingsResource) as [f | ] eqn:Ef;
    cbv beta iota; cbn [files with_event]; rewrite Ef.
  - rewrite Nat.eqb_refl. eexists; reflexivity.
  - eexists; reflexivity.
Qed.

Lemma applyContent_fresh forcePush preview content_ w r w' :
  fileContent preview = files w keybindingsResource ->
  applyContent forcePush preview content_ w = (r, w') ->
  match r with
  | Ok _ => True
  | Throw e => isLocalPreconditionFailed e = false
  | Spin => False
  end.
Proof.
  intros Hf H. unfold applyContent in H.
  destruct (hasErrors content_); [inversion H; subst; reflexivity | ].
  unfold bind at 1, gets at 1 in H. cbv beta iota in H.
  unfold bind at 1 in H.
  destruct (local_update_fresh (keybindingsPerPlatform w) preview content_ w Hf)
    as [w1 Hl].
  rewrite Hl in H.
  exact (remote_update_raises _ _ _ _ _ _ _ H).
Qed.

Lemma apply_fresh forcePush preview w r w' :
  syncPreviewResultPromise w = Some preview ->
  fileContent preview = files w keybindingsResource ->
  apply forcePush w = (r, w') ->
  match r with
  | Ok _ => True
  | Throw e => isLocalPreconditionFailed e = false
  | Spin => False
  end.
Proof.
  intros Hp Hf H. unfold apply in H.
  unfold bind at 1, gets at 1 in H. rewrite Hp in H. cbv beta iota in H.
  assert (Hrest : forall remoteUserData_,
             raises elsewhere
               (bind (applyLastSync preview remoteUserData_)
                  (fun _ => modify (with_preview None)))).
  { intros. apply raises_bind; [apply applyLastSync_raises | intro; apply raises_modify]. }
  destruct (content preview) as [c | ].
  - unfold bind at 1 in H.
    destruct (applyContent forcePush preview c w) as [[a | e | ] w1] eqn:E.
    + exact (Hrest _ _ _ _ H).
    + inversion H; subst. exact (applyContent_fresh _ _ _ _ _ _ Hf E).
    + destruct (applyContent_fresh _ _ _ _ _ _ Hf E).
  - unfold bind at 1, ret at 1 in H. exact (Hrest _ _ _ _ H).
Qed.

(** An attempt that starts without a stored preview does not meet a
    file that changed underneath. *)
Lemma attempt_fresh remoteUserData_ lastSyncUserData_ w r w' :
  syncPreviewResultPromise w = None ->
  attempt remoteUserData_ lastSyncUserData_ w = (r, w') ->
  match r with
  | Ok _ => True
  | Throw e => isLocalPreconditionFailed e = false
  | Spin => False
  end.
Proof.
  intros Hp H. unfold getPreview in H.
  unfold bind at 1 2, gets at 1 in H. rewrite Hp in H. cbv beta iota in H.
  unfold bind at 1 in H.
  destruct (generatePreview remoteUserData_ lastSyncUserData_ false w)
    as [[p | e | ] w1] eqn:E.
  - destruct (generatePreview_fresh _ _ _ _ _ _ E) as [Hf Hw].
    unfold bind, modify, ret in H. cbv beta iota in H.
    destruct (hasConflicts p); [inversion H; subst; exact I | ].
    destruct (KeybindingsSynchroniser.apply false (with_preview (Some p) w1))
      as [[a | e | ] w2] eqn:Ea; inversion H; subst.
    + exact I.
    + refine (apply_fresh _ _ _ _ _ _ _ Ea); [reflexivity | ].
      now rewrite Hf, <- Hw.
    + refine (apply_fresh _ _ _ _ _ _ _ Ea); [reflexivity | ].
      now rewrite Hf, <- Hw.
  - inversion H; subst. exact (generatePreview_raises _ _ _ _ _ _ E).
  - destruct (generatePreview_raises _ _ _ _ _ _ E).
Qed.

Lemma performSync_fresh retries remoteUserData_ lastSyncUserData_ w :
  syncPreviewResultPromise w = None ->
  fst (performSync retries remoteUserData_ lastSyncUserData_ w) <> Spin.
Proof.
  intros Hp. rewrite performSync_unfold. unfold tryCatch.
  destruct (attempt remoteUserData_ lastSyncUserData_ w) as [[s | e | ] w1] eqn:E.
  - discriminate.
  - pose proof (attempt_fresh _ _ _ _ _ Hp E) as He. cbv beta in He.
    unfold bind, modify. rewrite He. discriminate.
  - destruct (attempt_fresh _ _ _ _ _ Hp E).
Qed.

(** X14.  The retry of [performSync] ends.  Against a file service that
    refuses a write exactly when the file does not carry the stamp of the
    read, and with no one else writing the file in between, a run that
    starts without a stored preview does not retry at all, and a run that
    starts from a stored preview retries at most once. *)
Theorem performSync_ends (remoteUserData_ : IRemoteUserData)
    (lastSyncUserData_ : option IRemoteUserData) (w : World) :
  (syncPreviewResultPromise w = None ->
   forall retries,
     fst (performSync retries remoteUserData_ lastSyncUserData_ w) <> Spin)
  /\ (forall retries,
        fst (performSync (S retries) remoteUserData_ lastSyncUserData_ w) <> Spin).
Proof.
  split.
  - intros Hp retries. now apply performSync_fresh.
  - intros retries. rewrite performSync_unfold. unfold tryCatch.
    destruct (attempt remoteUserData_ lastSyncUserData_ w) as [[s | e | ] w1] eqn:E.
    + discriminate.
    + unfold bind, modify.
      destruct (isLocalPreconditionFailed e); [ | discriminate].
      now apply performSync_fresh.
    + destruct (attempt_raises _ _ _ _ _ E).
Qed.


(** ** The status and the stored preview *)

Lemma getPreview_ok remoteUserData_ lastSyncUserData_ w preview w' :
  getPreview remoteUserData_ lastSyncUserData_ w = (Ok preview, w') ->
  syncPreviewResultPromise w' = Some preview.
Proof.
  unfold getPreview. unfold bind at 1, gets at 1. cbv beta iota.
  destruct (syncPreviewResultPromise w) as [stored | ] eqn:Es.
  - intros H. inversion H; subst. exact Es.
  - intros H. apply bind_ok_inv in H. destruct H as [p [w1 [_ H]]].
    unfold bind, modify, ret in H. inversion H; subst. reflexivity.
Qed.

Lemma apply_ok_clears forcePush w w' :
  apply forcePush w = (Ok tt, w') -> syncPreviewResultPromise w' = None.
Proof.
  unfold apply. unfold bind at 1, gets at 1. cbv beta iota.
  destruct (syncPreviewResultPromise w) as [stored | ] eqn:Es.
  - intros H. apply bind_ok_inv in H. destruct H as [r [w1 [_ H]]].
    apply bind_ok_inv in H. destruct H as [u [w2 [_ H]]].
    unfold modify in H. inversion H; subst. reflexivity.
  - intros H. inversion H; subst. exact Es.
Qed.

(** What the status stands for: [HasConflicts] goes with a stored
    preview that has conflicts, [Idle] with no stored preview. *)
Local Abbreviation settled status w :=
  ((status = HasConflicts
    /\ exists preview,
        syncPreviewResultPromise w = Some preview /\ hasConflicts preview = true)
   \/ (status = Idle /\ syncPreviewResultPromise w = None)).

Lemma performSync_ok retries remoteUserData_ lastSyncUserData_ :
  forall w status w',
    performSync retries remoteUserData_ lastSyncUserData_ w = (Ok status, w') ->
    settled status w'.
Proof.
  induction retries as [ | n IH]; intros w status w' H;
    rewrite performSync_unfold in H; unfold tryCatch in H;
    destruct (attempt remoteUserData_ lastSyncUserData_ w) as [[s | e | ] w1] eqn:E;
    try discriminate.
  1, 3: inversion H; subst;
        apply bind_ok_inv in E; destruct E as [p [w2 [Hp E]]];
        apply getPreview_ok in Hp;
        destruct (hasConflicts p) eqn:Ec;
          [inversion E; subst; left; eauto
          | apply bind_ok_inv in E; destruct E as [[] [w3 [Ha E]]];
            inversion E; subst; right; split; [reflexivity | ];
            eapply apply_ok_clears; eassumption].
  - unfold bind, modify in H. destruct (isLocalPreconditionFailed e); discriminate.
  - unfold bind at 1, modify in H.
    destruct (isLocalPreconditionFailed e); [eapply IH; eassumption | discriminate].
Qed.

Lemma doSync_ok (retries retries' : nat) :
  forall remoteUserData_ lastSyncUserData_ w status w',
    AbstractSynchroniser.doSync version resourceKey (performSync retries') retries
      remoteUserData_ lastSyncUserData_ w = (Ok status, w') ->
    settled status w'.
Proof.
  induction retries as [ | n IH]; intros remote last w status w' H.
  - destruct (AbstractSynchroniser.incompatible version remote) eqn:Hi.
    + simpl in H. rewrite Hi in H. discriminate.
    + rewrite (doSync_unfold _ _ _ _ _ _ Hi) in H. unfold tryCatch in H.
      destruct (performSync retries' remote last w) as [[s | e | ] w1] eqn:Ep;
        try discriminate.
      * inversion H; subst. eapply performSync_ok; eassumption.
      * destruct (isRemotePreconditionFailed e); [ | discriminate].
        unfold bind in H.
        destruct (AbstractSynchroniser.getRemoteUserData version resourceKey None w1)
          as [[r | e1 | ] w2]; discriminate.
  - destruct (AbstractSynchroniser.incompatible version remote) eqn:Hi.
    + simpl in H. rewrite Hi in H. discriminate.
    + rewrite (doSync_unfold _ _ _ _ _ _ Hi) in H. unfold tryCatch in H.
      destruct (performSync retries' remote last w) as [[s | e | ] w1] eqn:Ep;
        try discriminate.
      * inversion H; subst. eapply performSync_ok; eassumption.
      * destruct (isRemotePreconditionFailed e); [ | discriminate].
        unfold bind in H.
        destruct (AbstractSynchroniser.getRemoteUserData version resourceKey None w1)
          as [[r | e1 | ] w2]; try discriminate.
        eapply IH; eassumption.
Qed.

(** X15.  The status a [sync] that returns leaves agrees with the stored
    preview: the status is [HasConflicts] and a preview with conflicts is
    stored, which is what [accept] works on, or the status is [Idle] and
    no preview is stored. *)
Theorem sync_settles (retries : nat) (ref_ : option string) (w w' : World) :
  resourceEnabled w = true ->
  _status w <> HasConflicts ->
  _status w <> Syncing ->
  sync retries ref_ w = (Ok tt, w') ->
  (_status w' = HasConflicts
   /\ exists preview,
       syncPreviewResultPromise w' = Some preview /\ hasConflicts preview = true)
  \/ (_status w' = Idle /\ syncPreviewResultPromise w' = None).
Proof.
  intros Hen Hc Hs H. unfold sync in H.
  rewrite (sync_run _ _ _ _ _ _ Hen Hc Hs) in H.
  apply bind_ok_inv in H. destruct H as [last [w1 [_ H]]].
  apply bind_ok_inv in H. destruct H as [remote [w2 [_ H]]].
  destruct (AbstractSynchroniser.doSync version resourceKey (performSync retries) retries
              remote last w2) as [[s | e | ] w3] eqn:E; try discriminate.
  inversion H; subst.
  rewrite setStatus_status.
  rewrite (proj1 (setStatus_frame s w3)).
  exact (doSync_ok _ _ _ _ _ _ _ E).
Qed.

(** X16.  A stored preview is what [getPreview] returns, whatever remote
    and last-sync data it is called with: the preview a call returns is
    the one every later call returns, with nothing computed again, until
    the preview is cleared. *)
Theorem getPreview_reuses_the_stored_preview
    (remoteUserData_ : IRemoteUserData) (lastSyncUserData_ : option IRemoteUserData)
    (w w' : World) (preview : IFileSyncPreviewResult) :
  getPreview remoteUserData_ lastSyncUserData_ w = (Ok preview, w') ->
  forall remoteUserData' lastSyncUserData',
    getPreview remoteUserData' lastSyncUserData' w' = (Ok preview, w').
Proof.
  intros H remote' last'. apply getPreview_ok in H.
  unfold getPreview, bind, gets. now rewrite H.
Qed.


(** ** What the methods leave alone *)

Lemma generatePreview_keeps {X} (field : World -> X)
    remoteUserData_ lastSyncUserData_ token :
  (forall e w, field (with_event e w) = field w) ->
  (forall f c w, field (with_files f c w) = field w) ->
  respects (keeps field) (generatePreview remoteUserData_ lastSyncUserData_ token).
Proof.
  intros He Hf.
  unfold generatePreview, getLocalFileContent, AbstractSynchroniser.getLocalFileContent.
  footprint;
    first [ apply emit_keeps | apply writeFile_keeps | apply readFile_keeps ];
    assumption.
Qed.

Lemma attempt_keeps {X} (field : World -> X) remoteUserData_ lastSyncUserData_ :
  (forall e w, field (with_event e w) = field w) ->
  (forall f c w, field (with_files f c w) = field w) ->
  (forall n w, field (with_requests n w) = field w) ->
  (forall p w, field (with_preview p w) = field w) ->
  respects (keeps field) (attempt remoteUserData_ lastSyncUserData_).
Proof.
  intros He Hf Hr Hp. unfold getPreview.
  footprint;
    first [ now apply generatePreview_keeps
          | now apply with_preview_keeps
          | now apply apply_keeps ].
Qed.

Lemma performSync_keeps {X} (field : World -> X) retries
    remoteUserData_ lastSyncUserData_ :
  (forall e w, field (with_event e w) = field w) ->
  (forall f c w, field (with_files f c w) = field w) ->
  (forall n w, field (with_requests n w) = field w) ->
  (forall p w, field (with_preview p w) = field w) ->
  respects (keeps field) (performSync retries remoteUserData_ lastSyncUserData_).
Proof.
  intros He Hf Hr Hp.
  induction retries as [ | n IH]; rewrite performSync_unfold;
    (apply respects_tryCatch;
       [typeclasses eauto | now apply attempt_keeps | intros e]);
    footprint; first [now apply with_preview_keeps | exact IH].
Qed.

Lemma doSync_keeps {X} (field : World -> X) (retries retries' : nat) :
  (forall e w, field (with_event e w) = field w) ->
  (forall f c w, field (with_files f c w) = field w) ->
  (forall n w, field (with_requests n w) = field w) ->
  (forall p w, field (with_preview p w) = field w) ->
  forall remoteUserData_ lastSyncUserData_,
    respects (keeps field)
      (AbstractSynchroniser.doSync version resourceKey (performSync retries') retries
         remoteUserData_ lastSyncUserData_).
Proof.
  intros He Hf Hr Hp.
  induction retries as [ | n IH]; intros remote last;
    (destruct (AbstractSynchroniser.incompatible version remote) eqn:Hi;
       [ simpl; rewrite Hi; footprint; now apply emit_keeps
       | rewrite (doSync_unfold _ _ _ _ _ _ Hi) ]);
    (apply respects_tryCatch;
       [typeclasses eauto | now apply performSync_keeps | intros e]);
    footprint;
    first [ now apply getRemoteUserData_keeps | apply IH ].
Qed.

(** A [performSync] that raises has cleared the preview. *)
Lemma performSync_throw_clears retries remoteUserData_ lastSyncUserData_ :
  forall w e w',
    performSync retries remoteUserData_ lastSyncUserData_ w = (Throw e, w') ->
    syncPreviewResultPromise w' = None.
Proof.
  induction retries as [ | n IH]; intros w e w' H;
    rewrite performSync_unfold in H; unfold tryCatch in H;
    destruct (attempt remoteUserData_ lastSyncUserData_ w) as [[s | e0 | ] w1];
    try discriminate.
  - unfold bind, modify in H.
    destruct (isLocalPreconditionFailed e0); [discriminate | ].
    inversion H; subst. reflexivity.
  - unfold bind at 1, modify in H.
    destruct (isLocalPreconditionFailed e0); [eapply IH; eassumption | ].
    inversion H; subst. reflexivity.
Qed.

Lemma doSync_throw_clears (retries retries' : nat) :
  forall remoteUserData_ lastSyncUserData_ w e w',
    syncPreviewResultPromise w = None ->
    AbstractSynchroniser.doSync version resourceKey (performSync retries') retries
      remoteUserData_ lastSyncUserData_ w = (Throw e, w') ->
    syncPreviewResultPromise w' = None.
Proof.
  assert (Hfetch : forall w1 r w2,
             syncPreviewResultPromise w1 = None ->
             AbstractSynchroniser.getRemoteUserData version resourceKey None w1 = (r, w2) ->
             syncPreviewResultPromise w2 = None).
  { intros w1 r w2 Hn Hg.
    assert (Hk : respects (keeps syncPreviewResultPromise)
                   (AbstractSynchroniser.getRemoteUserData version resourceKey None))
      by (apply getRemoteUserData_keeps; reflexivity).
    now rewrite (Hk _ _ _ Hg). }
  induction retries as [ | n IH]; intros remote last w e w' Hn H;
    (destruct (AbstractSynchroniser.incompatible version remote) eqn:Hi;
       [ simpl in H; rewrite Hi in H; inversion H; subst; exact Hn
       | rewrite (doSync_unfold _ _ _ _ _ _ Hi) in H ]);
    unfold tryCatch in H;
    destruct (performSync retries' remote last w) as [[s | e0 | ] w1] eqn:Ep;
    try discriminate;
    apply performSync_throw_clears in Ep;
    (destruct (isRemotePreconditionFailed e0);
       [ | inversion H; subst; exact Ep]);
    unfold bind in H;
    destruct (AbstractSynchroniser.getRemoteUserData version resourceKey None w1)
      as [[r | e1 | ] w2] eqn:Eg; try discriminate.
  - inversion H; subst. eapply Hfetch; eassumption.
  - eapply IH; [ | eassumption]. eapply Hfetch; eassumption.
  - inversion H; subst. eapply Hfetch; eassumption.
Qed.

(** X17.  A local change under [HasConflicts] runs [doSync] again on the
    data of the stored preview, after clearing that preview.  When this
    [doSync] raises, the handler has returned long since and the error
    reaches no one: the status is still [HasConflicts] and no preview is
    stored any more, so that every [accept] raises from then on and
    leaves the status as it is. *)
Theorem failed_resync_strands_the_conflict (onDidChangeLocal : M unit)
    (retries : nat) (preview : IFileSyncPreviewResult) (e : exn) (w w' : World) :
  resourceEnabled w = true ->
  _status w = HasConflicts ->
  syncPreviewResultPromise w = Some preview ->
  doSync retries (remoteUserData preview) (lastSyncUserData preview)
    (with_preview None w) = (Throw e, w') ->
  onFileChanges onDidChangeLocal retries true w = (Ok tt, w')
  /\ _status w' = HasConflicts
  /\ syncPreviewResultPromise w' = None
  /\ forall content_,
      exists e' w'',
        accept content_ w' = (Throw e', w'') /\ _status w'' = HasConflicts.
Proof.
  intros Hen Hst Hp Hrun. unfold doSync in Hrun.
  assert (Hstatus : _status w' = HasConflicts).
  { assert (Hk := doSync_keeps _status retries retries
                    (fun _ _ => eq_refl) (fun _ _ _ => eq_refl)
                    (fun _ _ => eq_refl) (fun _ _ => eq_refl)
                    (remoteUserData preview) (lastSyncUserData preview)).
    now rewrite (Hk _ _ _ Hrun). }
  assert (Hnone : syncPreviewResultPromise w' = None)
    by (eapply doSync_throw_clears; [ | exact Hrun]; reflexivity).
  split; [ | split; [exact Hstatus | split; [exact Hnone | ]]].
  - unfold onFileChanges, AbstractSynchroniser.onFileChanges,
      AbstractSynchroniser.isEnabled.
    cbn [negb]. cbv iota.
    unfold bind at 1, gets at 1. rewrite Hen. cbn [negb]. cbv beta iota.
    unfold bind at 1, gets at 1. rewrite Hst. cbn [SyncStatus_eqb]. cbv beta iota.
    unfold bind at 1, gets at 1. rewrite Hp. cbv beta iota.
    unfold bind at 1, AbstractSynchroniser.cancel, modify. cbv beta iota.
    unfold ignoreErrors, tryCatch, bind. now rewrite Hrun.
  - intros content_. unfold accept.
    unfold bind at 1, gets at 1. rewrite Hstatus. cbn [SyncStatus_eqb]. cbv beta iota.
    unfold bind at 1, gets at 1. rewrite Hnone. cbv beta iota.
    destruct (hasErrors content_); [do 2 eexists; split; [reflexivity | exact Hstatus] | ].
    unfold bind, ignoreErrors, tryCatch, fileService_del, throw.
    destruct (files w' conflictsPreviewResource);
      do 2 eexists; (split; [reflexivity | exact Hstatus]).
Qed.


(** ** Files and requests left alone *)

Lemma URI_eqb_neq a b : a <> b -> URI_eqb a b = false.
Proof. intros H. destruct (URI_eqb a b) eqn:E; [ | reflexivity]. apply URI_eqb_eq in E. contradiction. Qed.

Lemma writeFile_spares u v text o :
  u <> v -> respects (keeps (fun w => files w u)) (fileService_writeFile v text o).
Proof.
  intros Hu w r w' H. unfold fileService_writeFile in H. unfold keeps.
  run_primitive H; simpl; rewrite ?(URI_eqb_neq _ _ Hu); reflexivity.
Qed.

Lemma createFile_spares u v text :
  u <> v -> respects (keeps (fun w => files w u)) (fileService_createFile v text).
Proof.
  intros Hu w r w' H. unfold fileService_createFile in H. unfold keeps.
  run_primitive H; simpl; rewrite ?(URI_eqb_neq _ _ Hu); reflexivity.
Qed.

Lemma del_spares u v :
  u <> v -> respects (keeps (fun w => files w u)) (fileService_del v).
Proof.
  intros Hu w r w' H. unfold fileService_del in H. unfold keeps.
  run_primitive H; simpl; rewrite ?(URI_eqb_neq _ _ Hu); reflexivity.
Qed.

Lemma getLocalFileContent_keeps {X} (field : World -> X) :
  respects (keeps field) getLocalFileContent.
Proof.
  intros w r w' H. rewrite getLocalFileContent_run in H. now inversion H.
Qed.

Lemma generatePreview_spares u remoteUserData_ lastSyncUserData_ token :
  u <> keybindingsSyncPreviewResource ->
  respects (keeps (fun w => files w u))
    (generatePreview remoteUserData_ lastSyncUserData_ token).
Proof.
  intros Hu. unfold generatePreview.
  footprint;
    first [ apply getLocalFileContent_keeps
          | now apply writeFile_spares
          | apply emit_keeps; reflexivity ].
Qed.

Lemma generatePreview_emits (Q : Event -> Prop) remoteUserData_ lastSyncUserData_ token :
  (forall l r b, Q (EvMerge l r b)) ->
  (forall c, Q (EvWriteFile keybindingsSyncPreviewResource c)) ->
  respects (emits Q) (generatePreview remoteUserData_ lastSyncUserData_ token).
Proof.
  intros Hm Hw.
  unfold generatePreview, getLocalFileContent, AbstractSynchroniser.getLocalFileContent.
  footprint;
    first [ now apply emit_emits | now apply writeFile_emits | apply readFile_emits ].
Qed.

(** X18.  Computing a preview touches nothing but the preview file,
    whether it returns or raises: no request is sent, the keybindings
    file and the checkpoint are as they were, and so are the status and
    the stored preview; the events are calls of the merge and writes of
    the preview file. *)
Theorem generatePreview_writes_the_preview_only
    (remoteUserData_ : IRemoteUserData) (lastSyncUserData_ : option IRemoteUserData)
    (token : bool) (w : World) :
  let run := generatePreview remoteUserData_ lastSyncUserData_ token w in
  requests (snd run) = requests w
  /\ (forall u, u <> keybindingsSyncPreviewResource -> files (snd run) u = files w u)
  /\ _status (snd run) = _status w
  /\ syncPreviewResultPromise (snd run) = syncPreviewResultPromise w
  /\ exists new,
      trace (snd run) = (new ++ trace w)%list
      /\ Forall (fun e => (exists l r b, e = EvMerge l r b)
                          \/ exists c, e = EvWriteFile keybindingsSyncPreviewResource c)
           new.
Proof.
  cbv zeta.
  destruct (generatePreview remoteUserData_ lastSyncUserData_ token w) as [r w'] eqn:H.
  cbn [fst snd].
  split; [ | split; [ | split; [ | split]]].
  - exact (generatePreview_keeps requests _ _ _
             (fun _ _ => eq_refl) (fun _ _ _ => eq_refl) _ _ _ H).
  - intros u Hu. exact (generatePreview_spares u _ _ _ Hu _ _ _ H).
  - exact (generatePreview_keeps _status _ _ _
             (fun _ _ => eq_refl) (fun _ _ _ => eq_refl) _ _ _ H).
  - exact (generatePreview_keeps syncPreviewResultPromise _ _ _
             (fun _ _ => eq_refl) (fun _ _ _ => eq_refl) _ _ _ H).
  - refine (generatePreview_emits _ _ _ _ _ _ _ _ _ H).
    + intros l r0 b. left. eauto.
    + intros c. right. eauto.
Qed.

(** [apply] on the preview it finds stored. *)
Local Abbreviation applied forcePush preview :=
  (bind
     match content preview with
     | Some content_ => applyContent forcePush preview content_
     | None => ret (remoteUserData preview)
     end
     (fun remoteUserData_ =>
        bind (applyLastSync preview remoteUserData_)
          (fun _ => modify (with_preview None)))).

Lemma apply_stored forcePush preview w :
  syncPreviewResultPromise w = Some preview ->
  apply forcePush w = applied forcePush preview w.
Proof. intros Hp. unfold apply, bind at 1, gets at 1. now rewrite Hp. Qed.

Lemma applyLastSync_spares u preview remoteUserData_ :
  u <> lastSyncResource ->
  respects (keeps (fun w => files w u)) (applyLastSync preview remoteUserData_).
Proof.
  intros Hu. unfold applyLastSync, updateLastSyncUserData,
    AbstractSynchroniser.updateLastSyncUserData.
  footprint; now apply writeFile_spares.
Qed.

Lemma applied_spares_the_local_file forcePush preview :
  hasLocalChanged preview = false ->
  respects (keeps (fun w => files w keybindingsResource)) (applied forcePush preview).
Proof.
  intros Hl. unfold applyContent. rewrite Hl.
  unfold updateRemoteUserData, AbstractSynchroniser.updateRemoteUserData.
  footprint;
    first [ apply write_keeps; reflexivity
          | apply del_spares; discriminate
          | apply applyLastSync_spares; discriminate
          | apply with_preview_keeps; reflexivity ].
Qed.

Lemma applied_sends_nothing forcePush preview :
  hasRemoteChanged preview = false ->
  respects (keeps requests) (applied forcePush preview).
Proof.
  intros Hr. unfold applyContent. rewrite Hr.
  unfold backupLocal, updateLocalFileContent,
    AbstractSynchroniser.backupLocal, AbstractSynchroniser.updateLocalFileContent.
  footprint;
    first [ apply emit_keeps; reflexivity
          | apply writeFile_keeps; reflexivity
          | apply createFile_keeps; reflexivity
          | apply del_keeps; reflexivity
          | apply applyLastSync_keeps; reflexivity
          | apply with_preview_keeps; reflexivity ].
Qed.

(** X19.  [apply] changes only what the preview marks as changed: with
    [hasLocalChanged] off the keybindings file is as it was, with
    [hasRemoteChanged] off no request is sent, however the run ends. *)
Theorem apply_changes_what_the_preview_marks (forcePush : bool)
    (preview : IFileSyncPreviewResult) (w : World) :
  syncPreviewResultPromise w = Some preview ->
  (hasLocalChanged preview = false ->
   files (snd (apply forcePush w)) keybindingsResource = files w keybindingsResource)
  /\ (hasRemoteChanged preview = false ->
      requests (snd (apply forcePush w)) = requests w).
Proof.
  intros Hp. rewrite (apply_stored _ _ _ Hp). split; intros Hflag.
  - destruct (applied forcePush preview w) as [r w'] eqn:E.
    exact (applied_spares_the_local_file forcePush preview Hflag _ _ _ E).
  - destruct (applied forcePush preview w) as [r w'] eqn:E.
    exact (applied_sends_nothing forcePush preview Hflag _ _ _ E).
Qed.

(** ** [pull] and [push] *)

Lemma respects_tryFinally {A} (R : World -> World -> Prop) `{!Transitive R}
    (m : M A) (f : World -> World) :
  respects R m -> (forall w, R w (f w)) -> respects R (tryFinally m f).
Proof.
  intros Hm Hf w r w' H. unfold tryFinally in H.
  destruct (m w) as [r1 w1] eqn:E. inversion H; subst.
  transitivity w1; [exact (Hm _ _ _ E) | apply Hf].
Qed.

Lemma setStatus__emits (Q : Event -> Prop) s w :
  (forall s', Q (EvStatusChanged s')) -> (forall n, Q (EvTelemetry n)) ->
  emits Q w (AbstractSynchroniser.setStatus_ s w).
Proof.
  intros Hs Ht. exact (setStatus_emits Q s Hs Ht w (Ok tt) _ eq_refl).
Qed.

Lemma setStatus_keeps {X} (field : World -> X) s :
  (forall e w, field (with_event e w) = field w) ->
  (forall s w, field (with_status s w) = field w) ->
  respects (keeps field) (AbstractSynchroniser.setStatus s).
Proof.
  intros He Hs w r w' H. unfold AbstractSynchroniser.setStatus, modify in H.
  inversion H; subst. unfold keeps, AbstractSynchroniser.setStatus_.
  destruct (SyncStatus_eqb (_status w) s); [reflexivity | ].
  destruct (SyncStatus_eqb s HasConflicts),
    (SyncStatus_eqb (_status w) HasConflicts && SyncStatus_eqb s Idle);
    now rewrite ?He, ?Hs.
Qed.

Lemma getLastSyncUserData_respects (R : World -> World -> Prop) `{!Reflexive R} :
  respects R getLastSyncUserData.
Proof.
  intros w r w' H.
  destruct (getLastSyncUserData_quiet version w) as [l Hl].
  unfold getLastSyncUserData in H. rewrite Hl in H. inversion H; subst. reflexivity.
Qed.

Lemma read_emits (Q : Event -> Prop) key oldValue :
  Q EvTokenFailed ->
  (forall o, type o = GET -> Q (EvRequest o)) ->
  respects (emits Q) (read key oldValue).
Proof.
  intros HT HR. unfold read.
  destruct userDataSyncStore as [store | ]; [ | footprint].
  cbv zeta.
  apply respects_bind; [typeclasses eauto | | intro; footprint].
  apply request_emits; [exact HT | ].
  intros t. now apply HR.
Qed.

Lemma getRemoteUserData_emits (Q : Event -> Prop) lastSyncData :
  Q EvTokenFailed ->
  (forall o, type o = GET -> Q (EvRequest o)) ->
  respects (emits Q) (getRemoteUserData lastSyncData).
Proof.
  intros HT HR.
  unfold getRemoteUserData, AbstractSynchroniser.getRemoteUserData,
    AbstractSynchroniser.getUserData.
  footprint. now apply read_emits.
Qed.

(** What is not a request. *)
Local Abbreviation silent Q :=
  ((forall s, Q (EvStatusChanged s))
   /\ (forall n, Q (EvTelemetry n))
   /\ Q EvTokenFailed
   /\ (forall l r b, Q (EvMerge l r b))
   /\ (forall k c, Q (EvBackup k c))
   /\ (forall u c, Q (EvWriteFile u c))
   /\ (forall u c, Q (EvCreateFile u c))
   /\ (forall u, Q (EvDelete u))).

Lemma applied_emits_no_request (Q : Event -> Prop) forcePush preview :
  silent Q ->
  hasRemoteChanged preview = false ->
  respects (emits Q) (applied forcePush preview).
Proof.
  intros [Hs [Hn [HT [Hm [Hb [Hw [Hc Hd]]]]]]] Hr.
  unfold applyContent. rewrite Hr.
  unfold backupLocal, updateLocalFileContent,
    AbstractSynchroniser.backupLocal, AbstractSynchroniser.updateLocalFileContent.
  footprint;
    first [ now apply emit_emits
          | now apply writeFile_emits
          | now apply createFile_emits
          | now apply del_emits
          | now apply applyLastSync_emits
          | apply with_preview_emits ].
Qed.

Lemma stopLater_sends_nothing w : requests (snd (stopLater w)) = requests w.
Proof.
  assert (Hk : respects (keeps requests) stopLater).
  { unfold stopLater, setStatus. footprint;
      first [apply del_keeps; reflexivity | apply setStatus_keeps; reflexivity]. }
  destruct (stopLater w) as [r w'] eqn:E. exact (Hk _ _ _ E).
Qed.

(** X20.  [pull] never writes to the store: every request it sends is a
    [GET]; and it ends with the status [Idle] however it ends.  What is
    left of the [stop] it starts, [stopLater], sends nothing. *)
Theorem pull_never_writes_the_remote (w : World) :
  (exists new,
      trace (snd (pull w)) = (new ++ trace w)%list
      /\ forall o, In (EvRequest o) new -> type o = GET)
  /\ (resourceEnabled w = true -> _status (snd (pull w)) = Idle)
  /\ requests (snd (stopLater (snd (pull w)))) = requests (snd (pull w)).
Proof.
  destruct (pull w) as [r w'] eqn:H. cbn [snd].
  set (Q := fun e => forall o, e = EvRequest o -> type o = GET).
  assert (HQ : silent Q) by (unfold Q; repeat split; intros; discriminate).
  destruct HQ as [Hs [Hn [HT [Hm [Hb [Hw [Hc Hd]]]]]]].
  assert (Hpull : respects (emits Q) pull).
  { unfold pull, AbstractSynchroniser.isEnabled, cancel, AbstractSynchroniser.cancel.
    apply respects_bind; [typeclasses eauto | footprint | intros enabled].
    destruct (negb enabled); [footprint | ].
    apply respects_bind; [typeclasses eauto | apply with_preview_emits | intros _].
    apply respects_tryFinally;
      [typeclasses eauto | | intros w0; now apply setStatus__emits].
    apply respects_bind;
      [typeclasses eauto | now apply setStatus_emits | intros _].
    apply respects_bind;
      [typeclasses eauto | apply getLastSyncUserData_respects; typeclasses eauto
      | intros last].
    apply respects_bind; [typeclasses eauto | | intros remote].
    { apply getRemoteUserData_emits; [exact HT | ].
      intros o Ho o' E. inversion E; subst. exact Ho. }
    apply respects_bind; [typeclasses eauto | footprint | intros perPlatform].
    destruct (syncContentOf perPlatform (Some remote)) as [c | ]; [ | footprint].
    apply respects_bind;
      [typeclasses eauto
      | unfold getLocalFileContent, AbstractSynchroniser.getLocalFileContent;
        footprint; apply readFile_emits
      | intros fileContent_].
    intros w1 r1 w2 H1. unfold bind at 1, modify in H1.
    rewrite apply_stored with (preview :=
      {| fileContent := fileContent_; remoteUserData := remote;
         lastSyncUserData := last; content := Some c; hasLocalChanged := true;
         hasRemoteChanged := false; hasConflicts := false |}) in H1 by reflexivity.
    assert (Hsilent : silent Q) by (repeat split; assumption).
    exact (applied_emits_no_request Q false
             {| fileContent := fileContent_; remoteUserData := remote;
                lastSyncUserData := last; content := Some c; hasLocalChanged := true;
                hasRemoteChanged := false; hasConflicts := false |}
             Hsilent eq_refl _ _ _ H1). }
  split; [ | split].
  - destruct (Hpull _ _ _ H) as [new [Ht Hall]]. exists new. split; [exact Ht | ].
    intros o Hin. rewrite Forall_forall in Hall. exact (Hall _ Hin o eq_refl).
  - intros Hen. unfold pull, AbstractSynchroniser.isEnabled in H.
    unfold bind at 1, gets at 1 in H. rewrite Hen in H. cbn [negb] in H.
    cbv beta iota in H. unfold bind at 1 in H.
    destruct (cancel w) as [[[] | e | ] w0] eqn:Ec; try discriminate.
    unfold tryFinally in H.
    match type of H with
    | (let (_, _) := ?m in _) = _ => destruct m as [rb wb]
    end.
    inversion H; subst. apply setStatus_status.
  - apply stopLater_sends_nothing.
Qed.

Lemma updateLocalFileContent_ok newContent oldContent w w' :
  updateLocalFileContent newContent oldContent w = (Ok tt, w') ->
  option_map value (files w' keybindingsResource) = Some newContent.
Proof.
  intros H.
  unfold updateLocalFileContent, AbstractSynchroniser.updateLocalFileContent, tryCatch,
    fileService_writeFile, fileService_createFile, file in H.
  destruct oldContent as [o | ].
  - destruct (files w keybindingsResource) as [c | ]; [ | discriminate].
    destruct (Nat.eqb (mtime c) (mtime o)); [ | discriminate].
    inversion H; subst. reflexivity.
  - destruct (files w keybindingsResource); [discriminate | ].
    inversion H; subst. reflexivity.
Qed.

(** After the first part of an [apply] that has only the local file to
    change, the file holds the candidate content. *)
Lemma applyContent_local_ok forcePush preview content_ w r w' :
  hasLocalChanged preview = true ->
  hasRemoteChanged preview = false ->
  applyContent forcePush preview content_ w = (Ok r, w') ->
  option_map value (files w' keybindingsResource) = Some content_.
Proof.
  intros Hl Hr H. unfold applyContent in H. rewrite Hl, Hr in H.
  destruct (hasErrors content_); [discriminate | ].
  apply bind_ok_inv in H. destruct H as [perPlatform [w1 [Hg H]]].
  inversion Hg; subst. clear Hg.
  apply bind_ok_inv in H. destruct H as [[] [w2 [Hlocal H]]].
  apply bind_ok_inv in Hlocal. destruct Hlocal as [[] [w3 [_ Hlocal]]].
  apply updateLocalFileContent_ok in Hlocal.
  assert (Hk : respects (keeps (fun w => files w keybindingsResource))
                 (bind (ret (remoteUserData preview))
                    (fun remoteUserData_ =>
                       bind (ignoreErrors (fileService_del conflictsPreviewResource))
                         (fun _ => ret remoteUserData_)))).
  { footprint. apply del_spares. discriminate. }
  unfold keeps in Hk. now rewrite (Hk _ _ _ H).
Qed.

Lemma pull_run (w : World) :
  resourceEnabled w = true ->
  pull w
  = tryFinally
      (bind (setStatus Syncing)
         (fun _ =>
            bind getLastSyncUserData
              (fun lastSyncUserData_ =>
                 bind (getRemoteUserData lastSyncUserData_)
                   (fun remoteUserData_ =>
                      bind (gets keybindingsPerPlatform)
                        (fun perPlatform =>
                           match syncContentOf perPlatform (Some remoteUserData_) with
                           | Some content_ =>
                               bind getLocalFileContent
                                 (fun fileContent_ =>
                                    bind
                                      (modify
                                         (with_preview
                                            (Some {| fileContent := fileContent_;
                                                     remoteUserData := remoteUserData_;
                                                     lastSyncUserData := lastSyncUserData_;
                                                     content := Some content_;
                                                     hasLocalChanged := true;
                                                     hasRemoteChanged := false;
                                                     hasConflicts := false |})))
                                      (fun _ => apply false))
                           | None => ret tt
                           end)))))
      (AbstractSynchroniser.setStatus_ Idle) (with_preview None w).
Proof.
  intros Hen. unfold pull, AbstractSynchroniser.isEnabled.
  unfold bind at 1, gets at 1. rewrite Hen. reflexivity.
Qed.

(** X21.  A [pull] that returns has replaced the keybindings file by the
    keybindings of the remote data it read, without merging; when the
    remote data holds no keybindings for this platform the file is as it
    was. *)
Theorem pull_replaces_the_local_file (w w' : World) :
  resourceEnabled w = true ->
  pull w = (Ok tt, w') ->
  let started := AbstractSynchroniser.setStatus_ Syncing (with_preview None w) in
  exists lastSyncUserData_ remoteUserData_ w1,
    getLastSyncUserData started = (Ok lastSyncUserData_, started)
    /\ getRemoteUserData lastSyncUserData_ started = (Ok remoteUserData_, w1)
    /\ match syncContentOf (keybindingsPerPlatform w) (Some remoteUserData_) with
       | Some content_ =>
           option_map value (files w' keybindingsResource) = Some content_
       | None => files w' keybindingsResource = files w keybindingsResource
       end.
Proof.
  intros Hen H started. rewrite (pull_run _ Hen) in H. unfold tryFinally in H.
  match type of H with
  | (let (_, _) := ?m in _) = _ => destruct m as [rb wb] eqn:Eb
  end.
  inversion H; subst. clear H.
  rewrite (proj1 (proj2 (setStatus_frame Idle wb))).
  apply bind_ok_inv in Eb. destruct Eb as [[] [ws [Hs Eb]]].
  inversion Hs; subst. clear Hs. fold started in Eb.
  apply bind_ok_inv in Eb. destruct Eb as [last [w1 [Hlast Eb]]].
  destruct (getLastSyncUserData_quiet version started) as [l Hl].
  unfold getLastSyncUserData in Hlast. rewrite Hl in Hlast. inversion Hlast; subst.
  apply bind_ok_inv in Eb. destruct Eb as [remote [w2 [Hremote Eb]]].
  exists last, remote, w2. split; [exact Hl | split; [exact Hremote | ]].
  assert (Hpp : keybindingsPerPlatform w2 = keybindingsPerPlatform w).
  { assert (Hk : respects (keeps keybindingsPerPlatform) (getRemoteUserData last))
      by (apply getRemoteUserData_keeps; reflexivity).
    rewrite (Hk _ _ _ Hremote). unfold started.
    exact (setStatus_keeps keybindingsPerPlatform Syncing
             (fun _ _ => eq_refl) (fun _ _ => eq_refl)
             (with_preview None w) (Ok tt) _ eq_refl). }
  assert (Hfiles : files w2 keybindingsResource = files w keybindingsResource).
  { assert (Hk : respects (keeps (fun w => files w keybindingsResource))
                   (getRemoteUserData last))
      by (apply getRemoteUserData_keeps; reflexivity).
    unfold keeps in Hk. rewrite (Hk _ _ _ Hremote). unfold started.
    now rewrite (proj1 (proj2 (setStatus_frame Syncing (with_preview None w)))). }
  apply bind_ok_inv in Eb. destruct Eb as [pp [w3 [Hg Eb]]].
  inversion Hg; subst. clear Hg. rewrite Hpp in Eb.
  destruct (syncContentOf (keybindingsPerPlatform w) (Some remote)) as [c | ].
  - apply bind_ok_inv in Eb. destruct Eb as [fc [w4 [Hfc Eb]]].
    rewrite getLocalFileContent_run in Hfc. inversion Hfc; subst. clear Hfc.
    unfold bind at 1, modify in Eb.
    rewrite apply_stored with (preview :=
      {| fileContent := files w4 keybindingsResource; remoteUserData := remote;
         lastSyncUserData := last; content := Some c; hasLocalChanged := true;
         hasRemoteChanged := false; hasConflicts := false |}) in Eb by reflexivity.
    apply bind_ok_inv in Eb. destruct Eb as [current [w5 [Hc Eb]]].
    cbn [content] in Hc.
    apply applyContent_local_ok in Hc; [ | reflexivity | reflexivity].
    assert (Hk : respects (keeps (fun w => files w keybindingsResource))
                   (bind (applyLastSync
                            {| fileContent := files w4 keybindingsResource;
                               remoteUserData := remote; lastSyncUserData := last;
                               content := Some c; hasLocalChanged := true;
                               hasRemoteChanged := false; hasConflicts := false |}
                            current)
                      (fun _ => modify (with_preview None)))).
    { footprint; [apply applyLastSync_spares; discriminate
                 | apply with_preview_keeps; reflexivity]. }
    unfold keeps in Hk. now rewrite (Hk _ _ _ Eb).
  - inversion Eb; subst. exact Hfiles.
Qed.


Lemma push_run (w : World) :
  resourceEnabled w = true ->
  push w
  = tryFinally
      (bind (setStatus Syncing)
         (fun _ =>
            bind getLocalFileContent
              (fun fileContent_ =>
                 match fileContent_ with
                 | Some f =>
                     bind getLastSyncUserData
                       (fun lastSyncUserData_ =>
                          bind (getRemoteUserData lastSyncUserData_)
                            (fun remoteUserData_ =>
                               bind
                                 (modify
                                    (with_preview
                                       (Some {| fileContent := fileContent_;
                                                remoteUserData := remoteUserData_;
                                                lastSyncUserData := lastSyncUserData_;
                                                content := Some (value f);
                                                hasLocalChanged := false;
                                                hasRemoteChanged := true;
                                                hasConflicts := false |})))
                                 (fun _ => apply true)))
                 | None => ret tt
                 end)))
      (AbstractSynchroniser.setStatus_ Idle) (with_preview None w).
Proof.
  intros Hen. unfold push, AbstractSynchroniser.isEnabled.
  unfold bind at 1, gets at 1. rewrite Hen. reflexivity.
Qed.

(** X22.  [push] never touches the keybindings file and ends with the
    status [Idle] however it ends.  Besides [GET]s, the one kind of
    request it sends is a [POST] without [If-Match], whatever the store
    holds by then.  The remote data that [push] has fetched by then is
    [fetched]; where its sync content is of the declared type, the [POST]
    carries the sync data that wraps the content of the keybindings file,
    put into that sync content. *)
Theorem push_sends_the_local_file (w : World) :
  let started := AbstractSynchroniser.setStatus_ Syncing (with_preview None w) in
  let fetched := fst (bind getLastSyncUserData getRemoteUserData started) in
  files (snd (push w)) keybindingsResource = files w keybindingsResource
  /\ (resourceEnabled w = true -> _status (snd (push w)) = Idle)
  /\ exists new,
      trace (snd (push w)) = (new ++ trace w)%list
      /\ forall o,
          In (EvRequest o) new ->
          type o = GET
          \/ (type o = POST
              /\ header "If-Match" (headers o) = None
              /\ exists f remote,
                  files w keybindingsResource = Some f
                  /\ fetched = Ok remote
                  /\ (isSyncContent (option_map sd_content (syncData remote)) ->
                      data o
                      = Some (JSON_stringify
                                (AbstractSynchroniser.syncDataToJson
                                   {| sd_version := version;
                                      sd_content :=
                                        toSyncContent (keybindingsPerPlatform w)
                                          (value f)
                                          (option_map sd_content
                                             (syncData remote)) |})))).
Proof.
  cbv zeta.
  destruct (push w) as [r w'] eqn:H. cbn [snd].
  destruct (resourceEnabled w) eqn:Hen.
  2: { unfold push, AbstractSynchroniser.isEnabled in H.
       unfold bind at 1, gets at 1 in H. rewrite Hen in H. inversion H; subst.
       split; [reflexivity | split; [discriminate | ]].
       exists []. split; [reflexivity | intros o []]. }
  rewrite (push_run _ Hen) in H. unfold tryFinally in H.
  match type of H with
  | (let (_, _) := ?m in _) = _ => destruct m as [rb wb] eqn:Eb
  end.
  inversion H; subst. clear H.
  set (Q := fun e : Event =>
              forall o, e = EvRequest o ->
                type o = GET
                \/ (type o = POST
                    /\ header "If-Match" (headers o) = None
                    /\ exists f remote,
                        files w keybindingsResource = Some f
                        /\ fst (bind getLastSyncUserData getRemoteUserData
                                  (AbstractSynchroniser.setStatus_ Syncing
                                     (with_preview None w)))
                           = Ok remote
                        /\ (isSyncContent (option_map sd_content (syncData remote)) ->
                            data o
                            = Some (JSON_stringify
                                      (AbstractSynchroniser.syncDataToJson
                                         {| sd_version := version;
                                            sd_content :=
                                              toSyncContent (keybindingsPerPlatform w)
                                                (value f)
                                                (option_map sd_content
                                                   (syncData remote)) |}))))).
  assert (HQ : silent Q) by (unfold Q; repeat split; intros; discriminate).
  destruct HQ as [Hs [Hn [HT [Hm [Hb [Hw [Hc Hd]]]]]]].
  assert (Hget : forall o, type o = GET -> Q (EvRequest o)).
  { intros o Ho o' E. inversion E; subst. now left. }
  set (started := AbstractSynchroniser.setStatus_ Syncing (with_preview None w)).
  assert (Hstarted : files started keybindingsResource = files w keybindingsResource
                     /\ keybindingsPerPlatform started = keybindingsPerPlatform w
                     /\ emits Q w started).
  { unfold started. split; [ | split].
    - now rewrite (proj1 (proj2 (setStatus_frame Syncing (with_preview None w)))).
    - exact (setStatus_keeps keybindingsPerPlatform Syncing
               (fun _ _ => eq_refl) (fun _ _ => eq_refl)
               (with_preview None w) (Ok tt) _ eq_refl).
    - exact (setStatus__emits Q Syncing (with_preview None w) Hs Hn). }
  destruct Hstarted as [Hfiles [Hpp Hemits]].
  assert (Hbody : files wb keybindingsResource = files w keybindingsResource
                  /\ emits Q w wb).
  { unfold bind at 1, setStatus, AbstractSynchroniser.setStatus, modify in Eb.
    fold started in Eb. unfold bind at 1 in Eb.
    rewrite getLocalFileContent_run in Eb. rewrite Hfiles in Eb.
    destruct (files w keybindingsResource) as [f | ] eqn:Ef.
    2: { inversion Eb; subst. rewrite Hfiles. split; [reflexivity | exact Hemits]. }
    unfold bind at 1 in Eb.
    destruct (getLastSyncUserData_quiet version started) as [last Hl].
    unfold getLastSyncUserData at 1 in Eb. rewrite Hl in Eb.
    unfold bind at 1 in Eb.
    destruct (getRemoteUserData last started) as [rg w2] eqn:Eg.
    assert (Hw2 : files w2 keybindingsResource = Some f
                  /\ keybindingsPerPlatform w2 = keybindingsPerPlatform w
                  /\ emits Q w w2).
    { split; [ | split].
      - assert (Hk : respects (keeps (fun w => files w keybindingsResource))
                       (getRemoteUserData last))
          by (apply getRemoteUserData_keeps; reflexivity).
        unfold keeps in Hk. now rewrite (Hk _ _ _ Eg), Hfiles.
      - assert (Hk : respects (keeps keybindingsPerPlatform) (getRemoteUserData last))
          by (apply getRemoteUserData_keeps; reflexivity).
        now rewrite (Hk _ _ _ Eg).
      - transitivity started; [exact Hemits | ].
        exact (getRemoteUserData_emits Q last HT Hget _ _ _ Eg). }
    destruct Hw2 as [Hf2 [Hpp2 He2]].
    destruct rg as [remote | e | ]; [ | inversion Eb; subst; auto | inversion Eb; subst; auto].
    unfold bind at 1, modify in Eb.
    set (p := {| fileContent := Some f; remoteUserData := remote;
                 lastSyncUserData := last; content := Some (value f);
                 hasLocalChanged := false; hasRemoteChanged := true;
                 hasConflicts := false |}) in Eb.
    split.
    - rewrite (apply_stored true p (with_preview (Some p) w2) eq_refl) in Eb.
      assert (Hk := applied_spares_the_local_file true p eq_refl _ _ _ Eb).
      unfold keeps in Hk. rewrite Hk. exact Hf2.
    - transitivity w2; [exact He2 | ].
      refine (apply_emits Q true p (with_preview (Some p) w2) eq_refl
                Hb Hw Hc Hd HT _ _ _ Eb).
      intros content_ o Hcontent Ho Hdata Hmatch o' E. inversion E; subst o'.
      right. split; [exact Ho | split; [exact Hmatch | ]].
      inversion Hcontent; subst content_.
      exists f, remote.
      split; [reflexivity | split].
      + fold started. unfold bind, getLastSyncUserData. now rewrite Hl, Eg.
      + intros _. rewrite Hdata. cbn [keybindingsPerPlatform with_preview].
        now rewrite Hpp2. }
  destruct Hbody as [Hf He].
  split; [ | split].
  - now rewrite (proj1 (proj2 (setStatus_frame Idle wb))).
  - intros _. apply setStatus_status.
  - assert (Hall : emits Q w (AbstractSynchroniser.setStatus_ Idle wb)).
    { transitivity wb; [exact He | now apply setStatus__emits]. }
    destruct Hall as [new [Ht Hall]]. exists new. split; [exact Ht | ].
    intros o Hin. rewrite Forall_forall in Hall. exact (Hall _ Hin o eq_refl).
Qed.

(** ** What the views are shown *)

Lemma generatePreview_remote remoteUserData_ lastSyncUserData_ token w preview w1 :
  generatePreview remoteUserData_ lastSyncUserData_ token w = (Ok preview, w1) ->
  remoteUserData preview = remoteUserData_
  /\ keybindingsPerPlatform w1 = keybindingsPerPlatform w.
Proof.
  intros H. split.
  - unfold generatePreview in H.
    apply bind_ok_inv in H. destruct H as [pp [w2 [_ H]]].
    apply bind_ok_inv in H. destruct H as [fc [w3 [_ H]]].
    apply bind_ok_inv in H. destruct H as [[[[c l] r] k] [w4 [_ H]]].
    apply bind_ok_inv in H. destruct H as [[] [w5 [_ H]]].
    inversion H; subst. reflexivity.
  - exact (generatePreview_keeps keybindingsPerPlatform _ _ _
             (fun _ _ => eq_refl) (fun _ _ _ => eq_refl) _ _ _ H).
Qed.

(** X23.  The remote content of the preview is the remote side of the
    merge: once [getPreview] has computed a preview from some remote
    data, [getRemoteContentFromPreview] returns the keybindings of that
    remote data, and changes nothing. *)
Theorem getRemoteContentFromPreview_is_the_merged_remote
    (remoteUserData_ : IRemoteUserData) (lastSyncUserData_ : option IRemoteUserData)
    (w w' : World) (preview : IFileSyncPreviewResult) :
  syncPreviewResultPromise w = None ->
  getPreview remoteUserData_ lastSyncUserData_ w = (Ok preview, w') ->
  getRemoteContentFromPreview w'
  = (Ok (syncContentOf (keybindingsPerPlatform w) (Some remoteUserData_)), w').
Proof.
  intros Hn H.
  assert (Hs := getPreview_ok _ _ _ _ _ H).
  unfold getPreview in H. unfold bind at 1, gets at 1 in H. rewrite Hn in H.
  apply bind_ok_inv in H. destruct H as [p [w1 [Hg H]]].
  destruct (generatePreview_remote _ _ _ _ _ _ Hg) as [Hr Hpp].
  unfold bind, modify, ret in H. inversion H; subst p w'. clear H.
  unfold getRemoteContentFromPreview, AbstractSynchroniser.getRemoteContentFromPreview.
  unfold bind at 1 2, gets at 1. rewrite Hs. unfold ret at 1. cbv beta iota.
  rewrite Hr. unfold syncContentOf.
  destruct (syncData remoteUserData_) as [sd | ]; [ | reflexivity].
  cbn [option_map]. unfold bind, gets, ret. cbn [keybindingsPerPlatform with_preview].
  now rewrite Hpp.
Qed.

(** X24.  [getRemoteContent] of a ref with the fragment [keybindings]: one
    [GET] of that ref is sent, and when the store answers it 2xx with the
    text of a sync data that wraps a sync content made by
    [toSyncContent], what is returned is the keybindings that were put
    in. *)
Theorem getRemoteContent_of_a_ref (ref_ store keybindingsContent : string)
    (syncContent_ : option string) (context : IRequestContext) (w : World) :
  let wrapped :=
    toSyncContent (keybindingsPerPlatform w) keybindingsContent syncContent_ in
  let syncData_ := {| sd_version := version; sd_content := wrapped |} in
  isSyncContent syncContent_ ->
  userDataSyncStore = Some store ->
  truthy (authToken w) = true ->
  ref_ <> EmptyString ->
  (forall o,
      type o = GET ->
      url o = store ++ "/resource/keybindings/" ++ ref_ ->
      header "If-None-Match" (headers o) = None ->
      respond (requests w) o = Some context) ->
  isSuccess context = true ->
  res_text context = Some (JSON_stringify (AbstractSynchroniser.syncDataToJson syncData_)) ->
  wrapped <> EmptyString ->
  readsBack (JObj (syncContentObject (keybindingsPerPlatform w) keybindingsContent
                     syncContent_)) ->
  readsBack (AbstractSynchroniser.syncDataToJson syncData_) ->
  fst (getRemoteContent (Some ref_) (Some "keybindings") w) = Ok (Some keybindingsContent).
Proof.
  intros wrapped syncData_ _ Hs Ht Href Hstore Hok Htext Hne Hobj Hdata.
  unfold getRemoteContent, AbstractSynchroniser.getRemoteContent,
    AbstractSynchroniser.getUserDataOfRef, resolveContent.
  destruct ref_ as [ | a t]; [now destruct Href | ].
  rewrite Hs. cbv zeta.
  match goal with
  | |- context [request ?o] => set (o0 := o)
  end.
  assert (Hc : respond (requests w) (authorize (authToken w) o0) = Some context)
    by (apply Hstore; reflexivity).
  destruct (isSuccess_not_refused _ Hok) as [E1 [E2 [E3 E4]]].
  unfold bind at 1 2 3 4. rewrite (request_run _ _ Ht). cbv zeta.
  rewrite Hc, E1, E2, E3, E4, Hok. cbn [negb]. cbv beta iota.
  unfold ret at 1 2 3. cbv beta iota. cbn [ud_content]. rewrite Htext.
  unfold bind, gets, ret. cbn [fst keybindingsPerPlatform with_event with_requests].
  do 2 f_equal.
  unfold getFragment, parseSyncData.
  rewrite (parseSyncData_well_formed version syncData_) by
    (try discriminate; assumption).
  cbn [String.eqb Ascii.eqb Bool.eqb sd_content syncData_]. cbv iota.
  subst wrapped. now apply written_keybindings.
Qed.

End PerformSyncProperties.

(** ** Errors across processes, sources and resource keys *)

(** X25.  The name of a [UserDataSyncError] carries its code and its
    source, and [toUserDataSyncError] reads them back from an error that
    has nothing but that name and the message, for every code and every
    source.  A source that is [undefined] comes back as the word
    [undefined]. *)
Theorem toUserDataSyncError_round_trip (code : UserDataSyncErrorCode)
    (source : option SyncSource) (message : string) :
  let error :=
    {| se_message := message;
       se_code := UserDataSyncErrorCode_toString code;
       se_source := option_map SyncSource_toString source |} in
  toUserDataSyncError (se_name error) (se_message error)
  = {| se_message := message;
       se_code := UserDataSyncErrorCode_toString code;
       se_source := Some match source with
                         | Some s => SyncSource_toString s
                         | None => "undefined"
                         end |}.
Proof.
  destruct code, source as [[] | ]; vm_compute; reflexivity.
Qed.

(** X26.  [getResourceKeyFromSyncSource] and
    [getSyncSourceFromResourceKey] are inverse to each other. *)
Theorem sources_and_resource_keys_correspond :
  (forall source,
      getSyncSourceFromResourceKey (getResourceKeyFromSyncSource source) = source)
  /\ (forall resourceKey,
         getResourceKeyFromSyncSource (getSyncSourceFromResourceKey resourceKey)
         = resourceKey).
Proof. split; intros []; reflexivity. Qed.

(** ** The telemetry of [setStatus] *)

Local Abbreviation telemetry name :=
  (fun e => match e with
            | EvTelemetry n => String.eqb n name
            | _ => false
            end).

Local Abbreviation inConflict w :=
  (if SyncStatus_eqb (_status w) HasConflicts then 1 else 0).

Lemma setStatus_balance (s : SyncStatus) (w : World) :
  exists new,
    trace (AbstractSynchroniser.setStatus_ s w) = (new ++ trace w)%list
    /\ length (filter (telemetry "sync/conflictsResolved") new)
       + inConflict (AbstractSynchroniser.setStatus_ s w)
       <= length (filter (telemetry "sync/conflictsDetected") new) + inConflict w.
Proof.
  unfold AbstractSynchroniser.setStatus_.
  destruct (SyncStatus_eqb (_status w) s) eqn:E.
  - exists []. split; [reflexivity | simpl; lia].
  - exists ((if SyncStatus_eqb (_status w) HasConflicts && SyncStatus_eqb s Idle
             then [EvTelemetry "sync/conflictsResolved"] else [])
            ++ (if SyncStatus_eqb s HasConflicts
                then [EvTelemetry "sync/conflictsDetected"] else [])
            ++ [EvStatusChanged s])%list.
    split.
    + destruct (SyncStatus_eqb s HasConflicts),
        (SyncStatus_eqb (_status w) HasConflicts && SyncStatus_eqb s Idle); reflexivity.
    + destruct (_status w), s; try discriminate E; simpl; lia.
Qed.

(** X27.  However [setStatus] is called, conflicts are reported resolved
    no more often than they were reported: from a status other than
    [HasConflicts], the [sync/conflictsResolved] events of a sequence of
    calls are at most as many as its [sync/conflictsDetected] events, and
    one fewer at least while the status is [HasConflicts]. *)
Theorem conflicts_resolved_were_detected (statuses : list SyncStatus) (w : World) :
  _status w <> HasConflicts ->
  let w' := fold_left (fun w s => AbstractSynchroniser.setStatus_ s w) statuses w in
  exists new,
    trace w' = (new ++ trace w)%list
    /\ length (filter (telemetry "sync/conflictsResolved") new) + inConflict w'
       <= length (filter (telemetry "sync/conflictsDetected") new).
Proof.
  intros Hw.
  assert (Hall : forall statuses w,
             exists new,
               trace (fold_left (fun w s => AbstractSynchroniser.setStatus_ s w) statuses w)
               = (new ++ trace w)%list
               /\ length (filter (telemetry "sync/conflictsResolved") new)
                  + inConflict
                      (fold_left (fun w s => AbstractSynchroniser.setStatus_ s w) statuses w)
                  <= length (filter (telemetry "sync/conflictsDetected") new)
                     + inConflict w).
  { clear. induction statuses as [ | s rest IH]; intros w.
    - exists []. split; [reflexivity | simpl; lia].
    - destruct (setStatus_balance s w) as [new1 [H1 B1]].
      destruct (IH (AbstractSynchroniser.setStatus_ s w)) as [new2 [H2 B2]].
      exists (new2 ++ new1)%list. cbn [fold_left]. split.
      + now rewrite H2, H1, app_assoc.
      + rewrite !filter_app, !length_app. lia. }
  destruct (Hall statuses w) as [new [H B]]. exists new. split; [exact H | ].
  cbv zeta.
  assert (E : SyncStatus_eqb (_status w) HasConflicts = false)
    by (destruct (_status w); try reflexivity; now destruct Hw).
  rewrite E in B. lia.
Qed.

(** ** Runs on explicit inputs *)

Section Runs.

Import Runtime Demo.

Local Abbreviation honestly := (honest emptyStore).

(** A world in which [sync] is a no-op: the one a conflict leaves. *)
Lemma sync_is_a_no_op_witness :
  (resourceEnabled conflictWorld = false
   \/ _status conflictWorld = Syncing
   \/ _status conflictWorld = HasConflicts)
  /\ @KeybindingsSynchroniser.sync runtime (honest (storeOf 1 "[2]")) 1 None conflictWorld
     = (Ok tt, conflictWorld).
Proof.
  assert (H : resourceEnabled conflictWorld = false
              \/ _status conflictWorld = Syncing
              \/ _status conflictWorld = HasConflicts)
    by (right; right; vm_compute; reflexivity).
  split; [exact H | ].
  exact (@sync_is_a_no_op runtime (honest (storeOf 1 "[2]"))
           KeybindingsSynchroniser.version KeybindingsSynchroniser.resourceKey
           (KeybindingsSynchroniser.performSync 1) 1 None conflictWorld H).
Defined.

(** A remote envelope of version 2 against the version 1 of the
    keybindings synchroniser. *)
Lemma doSync_incompatible_witness :
  let future := {| sd_version := 2; sd_content := syncContent "[2]" |} in
  let remote := {| ref := etag 1; syncData := Some future |} in
  syncData remote = Some future
  /\ (KeybindingsSynchroniser.version < sd_version future)%Z
  /\ @KeybindingsSynchroniser.doSync runtime honestly 1 remote None (freshWorld (Some "[1]"))
     = (Throw (UserDataSyncError Incompatible),
        with_event (EvTelemetry "sync/incompatible") (freshWorld (Some "[1]"))).
Proof.
  intros future remote.
  assert (H1 : syncData remote = Some future) by reflexivity.
  assert (H2 : (KeybindingsSynchroniser.version < sd_version future)%Z) by reflexivity.
  split; [exact H1 | split; [exact H2 | ]].
  exact (@doSync_incompatible runtime honestly
           KeybindingsSynchroniser.version KeybindingsSynchroniser.resourceKey
           (KeybindingsSynchroniser.performSync 1) 1 remote None future
           (freshWorld (Some "[1]")) H1 H2).
Defined.

(** A write against a stale ref is refused by the store; [doSync]
    fetches again and calls itself. *)
Lemma doSync_retries_on_precondition_failed_witness :
  let w := freshWorld (Some "[1]") in
  let refused := UserDataSyncStoreError RemotePreconditionFailed in
  let w1 := snd (@KeybindingsSynchroniser.performSync runtime honestly 1 staleRemote None w) in
  AbstractSynchroniser.incompatible KeybindingsSynchroniser.version staleRemote = false
  /\ @KeybindingsSynchroniser.performSync runtime honestly 1 staleRemote None w
     = (Throw refused, w1)
  /\ isRemotePreconditionFailed refused = true
  /\ @AbstractSynchroniser.doSync runtime honestly
       KeybindingsSynchroniser.version KeybindingsSynchroniser.resourceKey
       (@KeybindingsSynchroniser.performSync runtime honestly 1) 2 staleRemote None w
     = bind (@AbstractSynchroniser.getRemoteUserData runtime honestly
               KeybindingsSynchroniser.version KeybindingsSynchroniser.resourceKey None)
         (fun fresh =>
            @AbstractSynchroniser.doSync runtime honestly
              KeybindingsSynchroniser.version KeybindingsSynchroniser.resourceKey
              (@KeybindingsSynchroniser.performSync runtime honestly 1) 1 fresh None) w1.
Proof.
  intros w refused w1.
  assert (H1 : AbstractSynchroniser.incompatible KeybindingsSynchroniser.version
                 staleRemote = false) by reflexivity.
  assert (H2 : @KeybindingsSynchroniser.performSync runtime honestly 1 staleRemote None w
               = (Throw refused, w1)) by (vm_compute; reflexivity).
  assert (H3 : isRemotePreconditionFailed refused = true) by reflexivity.
  split; [exact H1 | split; [exact H2 | split; [exact H3 | ]]].
  exact (proj1 (@doSync_retries_on_precondition_failed runtime honestly
                  KeybindingsSynchroniser.version KeybindingsSynchroniser.resourceKey
                  (@KeybindingsSynchroniser.performSync runtime honestly 1) 1 staleRemote None w w1
                  refused H1 H2 H3)).
Defined.

(** C1, as stated, fails: the store refuses every request with 412.
    [performSync] raises [RemotePreconditionFailed] on its write, the
    re-fetch of [doSync] is refused as well, and that
    [RemotePreconditionFailed] leaves [doSync]. *)
Lemma doSync_propagates_precondition_failed :
  let refusing := withServer (always 412) in
  let w := freshWorld (Some "[1]") in
  fst (@KeybindingsSynchroniser.performSync runtime refusing 1 staleRemote None w)
  = Throw (UserDataSyncStoreError RemotePreconditionFailed)
  /\ fst (@KeybindingsSynchroniser.doSync runtime refusing 1 staleRemote None w)
     = Throw (UserDataSyncStoreError RemotePreconditionFailed).
Proof. split; vm_compute; reflexivity. Qed.

(** A first read of the keybindings from a store without the resource. *)
Lemma status_code_mapping_witness :
  let w := freshWorld None in
  @userDataSyncStore honestly = Some "https://store/v1"
  /\ truthy (authToken w) = true
  /\ (exists o, type o = GET
                /\ requests (snd (@read honestly keybindings None w)) = o :: requests w)
  /\ (exists o, type o = POST
                /\ requests (snd (@write honestly keybindings (envelope "[1]") None w))
                   = o :: requests w).
Proof.
  intros w.
  assert (H1 : @userDataSyncStore honestly = Some "https://store/v1") by reflexivity.
  assert (H2 : truthy (authToken w) = true) by reflexivity.
  split; [exact H1 | split; [exact H2 | ]].
  destruct (@status_code_mapping honestly keybindings None (envelope "[1]") None
              "https://store/v1" w H1 H2)
    as [[o [Ho [Hr _]]] [o' [Ho' [Hr' _]]]].
  split; [exists o | exists o']; split; assumption.
Defined.

(** C2, as stated, fails: a conditional read of the current entity tag
    is answered 304, a status outside 2xx and none of 401, 403, 412, 413,
    for which the wording has [Unknown]; [read] raises nothing and
    returns the previous value. *)
Lemma read_not_modified_raises_nothing :
  let store := honest (storeOf 1 "[1]") in
  let previous := {| ud_ref := etag 1; ud_content := Some (envelope "[1]") |} in
  let run := @read store keybindings (Some previous) (freshWorld None) in
  exists o context,
    requests (snd run) = [o]
    /\ @respond store [] o = Some context
    /\ statusCode context = 304%Z
    /\ isSuccess context = false
    /\ errorOfResponse (Some context) = Some Unknown
    /\ fst run = Ok (Some previous).
Proof.
  intros store previous run. eexists. eexists.
  split; [vm_compute; reflexivity | ].
  split; [vm_compute; reflexivity | ].
  split; [vm_compute; reflexivity | ].
  split; [vm_compute; reflexivity | ].
  split; vm_compute; reflexivity.
Qed.

(** C3 fails on the code: the remote moved from [[1]] to [[2]], the
    merge takes the remote side, and [apply] replaces the local [[1]] by
    [[2]].  The one backup taken holds the new content [[2]]; the content
    the file held before the write, [[1]], is not backed up. *)
Lemma apply_backs_up_the_new_content :
  fst remoteForwardedSync = Ok tt
  /\ option_map value (files remoteForwardedWorld keybindingsResource) = Some "[1]"
  /\ option_map value (files (snd remoteForwardedSync) keybindingsResource) = Some "[2]"
  /\ In (EvBackup keybindings (envelope "[2]")) (trace (snd remoteForwardedSync))
  /\ (forall k text,
         In (EvBackup k text) (trace (snd remoteForwardedSync)) ->
         text = envelope "[2]")
  /\ envelope "[2]" <> envelope "[1]".
Proof.
  split; [vm_compute; reflexivity | ].
  split; [vm_compute; reflexivity | ].
  split; [vm_compute; reflexivity | ].
  split; [vm_compute; tauto | ].
  split; [ | vm_compute; discriminate].
  intros k text. vm_compute.
  intros H; repeat (destruct H as [H | H]; [try discriminate | ]);
    try (inversion H; reflexivity); destruct H.
Qed.

(** X29.  The write of the local file is conditioned on the stamp of the
    read: when the file carries another stamp, or is gone, the update
    raises [LocalPreconditionFailed] and writes nothing. *)
Lemma updateLocalFileContent_conditioned (newContent : string) (known : IFileContent)
    (w : World) :
  option_map mtime (files w keybindingsResource) <> Some (mtime known) ->
  KeybindingsSynchroniser.updateLocalFileContent newContent (Some known) w
  = (Throw (UserDataSyncError LocalPreconditionFailed), w).
Proof.
  intros H.
  unfold KeybindingsSynchroniser.updateLocalFileContent,
    AbstractSynchroniser.updateLocalFileContent, tryCatch, fileService_writeFile,
    KeybindingsSynchroniser.file.
  destruct (files w keybindingsResource) as [current | ]; [ | reflexivity].
  destruct (Nat.eqb_spec (mtime current) (mtime known)) as [E | E]; [ | reflexivity].
  simpl in H. now rewrite E in H.
Qed.

(** A preview computed against a remote that has new content. *)
Lemma generatePreview_merges_when_forwarded_witness :
  let remote := remoteOf 2 "[2]" in
  let lastSync := Some (remoteOf 1 "[1]") in
  @KeybindingsSynchroniser.syncContentOf runtime honestly
    (keybindingsPerPlatform remoteForwardedWorld) (Some remote) = Some "[2]"
  /\ "[2]" <> EmptyString
  /\ exists preview w',
      @KeybindingsSynchroniser.generatePreview runtime honestly remote lastSync false
        remoteForwardedWorld
      = (Ok preview, w').
Proof.
  intros remote lastSync.
  assert (H1 : @KeybindingsSynchroniser.syncContentOf runtime honestly
                 (keybindingsPerPlatform remoteForwardedWorld) (Some remote)
               = Some "[2]") by (vm_compute; reflexivity).
  assert (H2 : "[2]" <> EmptyString) by discriminate.
  split; [exact H1 | split; [exact H2 | ]].
  apply (proj1 (@generatePreview_merges_when_forwarded runtime honestly
                  remote lastSync false "[2]" remoteForwardedWorld H1 H2)).
  vm_compute. reflexivity.
Defined.

(** The preview of a pull applied. *)
Lemma apply_updates_the_checkpoint_witness :
  syncPreviewResultPromise pulledWorld = Some pulledPreview
  /\ @KeybindingsSynchroniser.apply runtime (honest (storeOf 1 "[2]")) false pulledWorld
     = (fst pulledApply, snd pulledApply)
  /\ exists new,
      trace (snd pulledApply) = (new ++ trace pulledWorld)%list
      /\ ((exists text, In (EvWriteFile lastSyncResource text) new) ->
          fst pulledApply = Ok tt).
Proof.
  assert (H1 : syncPreviewResultPromise pulledWorld = Some pulledPreview) by reflexivity.
  assert (H2 : @KeybindingsSynchroniser.apply runtime (honest (storeOf 1 "[2]")) false
                 pulledWorld
               = (fst pulledApply, snd pulledApply))
    by (unfold pulledApply; now destruct (KeybindingsSynchroniser.apply false pulledWorld)).
  split; [exact H1 | split; [exact H2 | ]].
  destruct (@apply_updates_the_checkpoint runtime (honest (storeOf 1 "[2]")) false
              pulledPreview pulledWorld (fst pulledApply) (snd pulledApply) H1 H2)
    as [new [Ht [Hw _]]].
  exists new. split; assumption.
Defined.

(** C5, as stated, fails in both directions.  The remote ref changed
    and the checkpoint is not updated: the keybindings file is gone, the
    remote moved from the tag 1 to the tag 2, the merge of two empty
    arrays reports no changes, and the checkpoint keeps the tag 1.  The
    content changed and the checkpoint is not updated: the preview of a
    pull replaces the local content while the remote ref still is the ref
    of the checkpoint. *)
Lemma checkpoint_not_updated :
  (fst bothEmptiedSync = Ok tt
   /\ KeybindingsSynchroniser.refChanged
        (Some (remoteOf 1 "[1]")) (remoteOf 2 "[]") = true
   /\ files (snd bothEmptiedSync) lastSyncResource
      = files bothEmptiedWorld lastSyncResource
   /\ forall text, ~ In (EvWriteFile lastSyncResource text) (trace (snd bothEmptiedSync)))
  /\ (fst pulledApply = Ok tt
      /\ option_map value (files pulledWorld keybindingsResource) = Some "[1]"
      /\ option_map value (files (snd pulledApply) keybindingsResource) = Some "[2]"
      /\ files (snd pulledApply) lastSyncResource = files pulledWorld lastSyncResource
      /\ forall text, ~ In (EvWriteFile lastSyncResource text) (trace (snd pulledApply))).
Proof.
  split.
  - split; [vm_compute; reflexivity | ].
    split; [vm_compute; reflexivity | ].
    split; [vm_compute; reflexivity | ].
    intros text. vm_compute.
    intros H; repeat (destruct H as [H | H]; [discriminate | ]); destruct H.
  - split; [vm_compute; reflexivity | ].
    split; [vm_compute; reflexivity | ].
    split; [vm_compute; reflexivity | ].
    split; [vm_compute; reflexivity | ].
    intros text. vm_compute.
    intros H; repeat (destruct H as [H | H]; [discriminate | ]); destruct H.
Qed.

(** The conflict resolved by hand. *)
Lemma accept_applies_the_resolution_witness :
  let store := honest (storeOf 1 "[2]") in
  _status conflictWorld = HasConflicts
  /\ syncPreviewResultPromise conflictWorld = Some conflictPreview
  /\ _status (snd (@KeybindingsSynchroniser.accept runtime store "[3]" conflictWorld)) = Idle.
Proof.
  intros store.
  assert (H1 : _status conflictWorld = HasConflicts) by (vm_compute; reflexivity).
  assert (H2 : syncPreviewResultPromise conflictWorld = Some conflictPreview)
    by (vm_compute; reflexivity).
  split; [exact H1 | split; [exact H2 | ]].
  destruct (@accept_applies_the_resolution runtime store "[3]" conflictPreview
              conflictWorld H1 H2) as [_ [_ [Hok _]]].
  apply Hok. vm_compute. reflexivity.
Defined.

(** C8, as stated, fails: the content accepted under [HasConflicts] has
    errors, [apply] raises [LocalInvalidContent], and the status stays
    [HasConflicts]. *)
Lemma accept_can_leave_the_conflict :
  let store := honest (storeOf 1 "[2]") in
  let run := @KeybindingsSynchroniser.accept runtime store "oops" conflictWorld in
  _status conflictWorld = HasConflicts
  /\ syncPreviewResultPromise conflictWorld = Some conflictPreview
  /\ fst run = Throw (UserDataSyncError LocalInvalidContent)
  /\ _status (snd run) = HasConflicts.
Proof.
  intros store run.
  split; [vm_compute; reflexivity | ].
  split; [vm_compute; reflexivity | ].
  split; vm_compute; reflexivity.
Qed.

(** C9 fails on the code.  The keybindings file is there and empty, the
    store has no keybindings.  The first [sync] completes: it pushes the
    empty content and writes the checkpoint.  Nothing changes then: the
    file is the same and the conditional read of the second [sync] is
    answered 304.  The second [sync] nevertheless pushes again, and
    writes a new checkpoint. *)
Lemma second_sync_of_an_empty_file_pushes_again :
  fst emptyFileFirstSync = Ok tt
  /\ fst emptyFileSecondSync = Ok tt
  /\ map type (requests (snd emptyFileFirstSync)) = [POST; GET]
  /\ map type (requests (snd emptyFileSecondSync)) = [POST; GET; POST; GET]
  /\ files (snd emptyFileSecondSync) keybindingsResource
     = Some {| value := EmptyString; mtime := 0 |}
  /\ (exists o,
         nth_error (requests (snd emptyFileSecondSync)) 1 = Some o
         /\ type o = GET
         /\ option_map statusCode
              (@respond (honest emptyStore) (requests (snd emptyFileFirstSync)) o)
            = Some 304%Z)
  /\ (exists o,
         nth_error (requests (snd emptyFileSecondSync)) 0 = Some o
         /\ type o = POST
         /\ data o = Some (envelope EmptyString))
  /\ option_map value (files (snd emptyFileSecondSync) lastSyncResource)
     <> option_map value (files (snd emptyFileFirstSync) lastSyncResource).
Proof.
  split; [vm_compute; reflexivity | ].
  split; [vm_compute; reflexivity | ].
  split; [vm_compute; reflexivity | ].
  split; [vm_compute; reflexivity | ].
  split; [vm_compute; reflexivity | ].
  split.
  { eexists. split; [vm_compute; reflexivity | ].
    split; vm_compute; reflexivity. }
  split.
  { eexists. split; [vm_compute; reflexivity | ].
    split; vm_compute; reflexivity. }
  vm_compute. discriminate.
Qed.

(** With keybindings in the file the second [sync] does what the
    idempotence property asks for: one conditional read, answered 304, no
    write to the remote, to the file or to the checkpoint. *)
Lemma second_sync_of_a_filled_file_is_idle :
  fst firstSync = Ok tt
  /\ fst secondSync = Ok tt
  /\ map type (requests (snd firstSync)) = [POST; GET]
  /\ map type (requests (snd secondSync)) = [GET; POST; GET]
  /\ files (snd secondSync) keybindingsResource = files (snd firstSync) keybindingsResource
  /\ files (snd secondSync) lastSyncResource = files (snd firstSync) lastSyncResource.
Proof.
  split; [vm_compute; reflexivity | ].
  split; [vm_compute; reflexivity | ].
  split; [vm_compute; reflexivity | ].
  split; [vm_compute; reflexivity | ].
  split; vm_compute; reflexivity.
Qed.

(** A remote resource without keybindings for this platform. *)
Lemma generatePreview_without_remote_content_witness :
  let w := freshWorld (Some "[1]") in
  let hollow := {| sd_version := 1; sd_content := "{}" |} in
  syncData hollowRemote = Some hollow
  /\ @hasTypedKeybindings runtime honestly (keybindingsPerPlatform w) (sd_content hollow)
  /\ truthy (@KeybindingsSynchroniser.syncContentOf runtime honestly
               (keybindingsPerPlatform w) (Some hollowRemote)) = false
  /\ exists preview w',
      @KeybindingsSynchroniser.generatePreview runtime honestly hollowRemote None false w
      = (Ok preview, w')
      /\ remoteUserData preview = hollowRemote
      /\ hasLocalChanged preview = false
      /\ hasConflicts preview = false
      /\ content preview = Some "[1]"
      /\ hasRemoteChanged preview = true.
Proof.
  intros w hollow.
  assert (H1 : syncData hollowRemote = Some hollow) by reflexivity.
  assert (H2 : @hasTypedKeybindings runtime honestly (keybindingsPerPlatform w)
                 (sd_content hollow))
    by (vm_compute; exact I).
  assert (H3 : truthy (@KeybindingsSynchroniser.syncContentOf runtime honestly
                         (keybindingsPerPlatform w) (Some hollowRemote)) = false)
    by (vm_compute; reflexivity).
  split; [exact H1 | split; [exact H2 | split; [exact H3 | ]]].
  destruct (@generatePreview_without_remote_content runtime honestly hollowRemote None
              false hollow w H1 H2 H3)
    as [preview [w' [Hrun [_ [_ [Hr [Hl [Hc Hfile]]]]]]]].
  destruct (Hfile {| value := "[1]"; mtime := 0 |} eq_refl) as [Hcontent [Hchanged _]].
  exists preview, w'.
  split; [exact Hrun | split; [exact Hr | split; [exact Hl | split; [exact Hc | ]]]].
  split; [exact Hcontent | exact Hchanged].
Defined.

(** C10, as stated, fails on its last clause: the keybindings file does
    not parse and the remote holds keybindings for no platform.  The
    preview takes the content of the file as it is, the remote marked as
    changed; [apply] refuses it, [performSync] ends in
    [LocalInvalidContent] and no request is sent. *)
Lemma invalid_local_content_is_not_pushed :
  let w := freshWorld (Some "oops") in
  let preview :=
    {| fileContent := Some {| value := "oops"; mtime := 0 |};
       remoteUserData := hollowRemote;
       lastSyncUserData := None;
       content := Some "oops";
       hasLocalChanged := false;
       hasRemoteChanged := true;
       hasConflicts := false |} in
  let run := @KeybindingsSynchroniser.performSync runtime honestly 1 hollowRemote None w in
  syncData hollowRemote = Some {| sd_version := 1; sd_content := "{}" |}
  /\ @KeybindingsSynchroniser.syncContentOf runtime honestly
       (keybindingsPerPlatform w) (Some hollowRemote) = None
  /\ fst (@KeybindingsSynchroniser.generatePreview runtime honestly hollowRemote None
            false w) = Ok preview
  /\ fst (@KeybindingsSynchroniser.apply runtime honestly false
            (with_preview (Some preview) w))
     = Throw (UserDataSyncError LocalInvalidContent)
  /\ fst run = Throw (UserDataSyncError LocalInvalidContent)
  /\ requests (snd run) = []
  /\ forall o, ~ In (EvRequest o) (trace (snd run)).
Proof.
  intros w preview run.
  split; [reflexivity | ].
  split; [vm_compute; reflexivity | ].
  split; [vm_compute; reflexivity | ].
  split; [vm_compute; reflexivity | ].
  split; [vm_compute; reflexivity | ].
  split; [vm_compute; reflexivity | ].
  intros o. vm_compute. intros [H | [ ]]; discriminate H.
Qed.

End Runs.

(** ** Further runs on explicit inputs *)

Section MoreRuns.

Import Runtime Demo.

Local Abbreviation honestly := (honest emptyStore).

(** A run, given how it ends. *)
Lemma run_eq {A} (m : M A) (w : World) (r : result A) :
  fst (m w) = r -> m w = (r, snd (m w)).
Proof. intros H. rewrite <- H. apply surjective_pairing. Defined.

(** A machine that is signed in, against the store of the runs above. *)
Lemma maintenance_succeeds_on_2xx_witness :
  let w := freshWorld None in
  @userDataSyncStore honestly = Some "https://store/v1"
  /\ truthy (authToken w) = true
  /\ exists o, type o = DELETE /\ requests (snd (@clear honestly w)) = o :: requests w.
Proof.
  intros w.
  assert (H1 : @userDataSyncStore honestly = Some "https://store/v1") by reflexivity.
  assert (H2 : truthy (authToken w) = true) by reflexivity.
  split; [exact H1 | split; [exact H2 | ]].
  destruct (@maintenance_succeeds_on_2xx honestly keybindings "1" "https://store/v1" w
              H1 H2) as [_ [_ [o [Ho [_ [Hr _]]]]]].
  exists o. split; [exact Ho | exact Hr].
Defined.

(** The machine that is signed out. *)
Lemma store_operations_need_a_token_witness :
  @userDataSyncStore honestly = Some "https://store/v1"
  /\ truthy (authToken signedOut) = false
  /\ @clear honestly signedOut
     = (Throw (UserDataSyncStoreError Unauthorized), signedOut).
Proof.
  assert (H1 : @userDataSyncStore honestly = Some "https://store/v1") by reflexivity.
  assert (H2 : truthy (authToken signedOut) = false) by reflexivity.
  split; [exact H1 | split; [exact H2 | ]].
  exact (proj2 (proj2 (proj2 (proj2
           (@store_operations_need_a_token honestly keybindings None "[]" None "1"
              "https://store/v1" signedOut H1 H2))))).
Defined.

(** Keybindings written per platform and read with the setting off. *)
Lemma toSyncContent_round_trip_witness :
  @isSyncContent runtime None
  /\ @readsBack runtime
    (JObj (@KeybindingsSynchroniser.syncContentObject runtime honestly true "[1]" None))
  /\ @KeybindingsSynchroniser.getKeybindingsContentFromSyncContent runtime honestly false
       (@KeybindingsSynchroniser.toSyncContent runtime honestly true "[1]" None)
     = None.
Proof.
  assert (H1 : @readsBack runtime
                 (JObj (@KeybindingsSynchroniser.syncContentObject runtime honestly
                          true "[1]" None))) by (vm_compute; reflexivity).
  split; [exact I | split; [exact H1 | ]].
  exact (@toSyncContent_round_trip runtime honestly true false "[1]" None I H1).
Defined.

(** The keybindings of a Macintosh survive a write from Linux. *)
Lemma toSyncContent_keeps_other_platforms_witness :
  macContent <> EmptyString
  /\ parse macContent = Some (JObj [("mac", JStr "[9]"); ("all", JStr "[0]")])
  /\ @readsBack runtime
       (JObj (@KeybindingsSynchroniser.syncContentObject runtime honestly true "[1]"
                (Some macContent)))
  /\ exists written,
      parse (@KeybindingsSynchroniser.toSyncContent runtime honestly true "[1]"
               (Some macContent))
      = Some (JObj written)
      /\ member "mac" written = Some (JStr "[9]").
Proof.
  assert (H1 : macContent <> EmptyString) by (vm_compute; discriminate).
  assert (H2 : @JSON_parse runtime macContent
               = Some (JObj [("mac", JStr "[9]"); ("all", JStr "[0]")]))
    by (vm_compute; reflexivity).
  assert (H3 : @readsBack runtime
                 (JObj (@KeybindingsSynchroniser.syncContentObject runtime honestly
                          true "[1]" (Some macContent)))) by (vm_compute; reflexivity).
  split; [exact H1 | split; [exact H2 | split; [exact H3 | ]]].
  destruct (@toSyncContent_keeps_other_platforms runtime honestly true "[1]" macContent
              _ H1 H2 H3) as [written [Hw Hm]].
  exists written. split; [exact Hw | ].
  rewrite (Hm "mac"); [reflexivity | discriminate | discriminate].
Defined.

(** The envelope of the keybindings [[1]]. *)
Lemma parseSyncData_round_trip_witness :
  @readsBack runtime (AbstractSynchroniser.syncDataToJson (syncDataOf "[1]"))
  /\ @AbstractSynchroniser.parseSyncData runtime 1 (envelope "[1]")
     = Some (syncDataOf "[1]").
Proof.
  assert (H1 : @readsBack runtime (AbstractSynchroniser.syncDataToJson (syncDataOf "[1]")))
    by (vm_compute; reflexivity).
  split; [exact H1 | ].
  exact (@parseSyncData_round_trip runtime 1 (syncDataOf "[1]") H1).
Defined.

(** The fragment of the envelope of the keybindings [[1]]. *)
Lemma getFragment_round_trip_witness :
  let wrapped := @KeybindingsSynchroniser.toSyncContent runtime honestly false "[1]" None in
  let syncData_ := {| sd_version := 1; sd_content := wrapped |} in
  @isSyncContent runtime None
  /\ 1%Z <> 0%Z
  /\ wrapped <> EmptyString
  /\ @readsBack runtime
       (JObj (@KeybindingsSynchroniser.syncContentObject runtime honestly false "[1]" None))
  /\ @readsBack runtime (AbstractSynchroniser.syncDataToJson syncData_)
  /\ @KeybindingsSynchroniser.getFragment runtime honestly false
       (stringify (AbstractSynchroniser.syncDataToJson syncData_)) "keybindings"
     = Some "[1]".
Proof.
  intros wrapped syncData_.
  assert (H1 : 1%Z <> 0%Z) by discriminate.
  assert (H2 : wrapped <> EmptyString) by (vm_compute; discriminate).
  assert (H3 : @readsBack runtime
                 (JObj (@KeybindingsSynchroniser.syncContentObject runtime honestly
                          false "[1]" None))) by (vm_compute; reflexivity).
  assert (H4 : @readsBack runtime (AbstractSynchroniser.syncDataToJson syncData_))
    by (vm_compute; reflexivity).
  split; [exact I | ].
  split; [exact H1 | split; [exact H2 | split; [exact H3 | split; [exact H4 | ]]]].
  exact (proj1 (@getFragment_round_trip runtime honestly false "[1]" None 1
                  I H1 H2 H3 H4)).
Defined.

(** The checkpoint of the keybindings [[1]] under the tag 1. *)
Lemma checkpoint_round_trip_witness :
  let checkpoint := remoteOf 1 "[1]" in
  syncData checkpoint = Some (syncDataOf "[1]")
  /\ sd_version (syncDataOf "[1]") <> 0%Z
  /\ sd_content (syncDataOf "[1]") <> EmptyString
  /\ @readsBack runtime (AbstractSynchroniser.syncDataToJson (syncDataOf "[1]"))
  /\ @readsBack runtime
       (JObj [("ref", JStr (ref checkpoint));
              ("content",
               JStr (stringify (AbstractSynchroniser.syncDataToJson (syncDataOf "[1]"))))])
  /\ exists w',
      @AbstractSynchroniser.updateLastSyncUserData runtime checkpoint (freshWorld None)
      = (Ok tt, w')
      /\ @AbstractSynchroniser.getLastSyncUserData runtime 1 w'
         = (Ok (Some checkpoint), w').
Proof.
  intros checkpoint.
  assert (H1 : syncData checkpoint = Some (syncDataOf "[1]")) by reflexivity.
  assert (H2 : sd_version (syncDataOf "[1]") <> 0%Z) by discriminate.
  assert (H3 : sd_content (syncDataOf "[1]") <> EmptyString) by (vm_compute; discriminate).
  assert (H4 : @readsBack runtime (AbstractSynchroniser.syncDataToJson (syncDataOf "[1]")))
    by (vm_compute; reflexivity).
  assert (H5 : @readsBack runtime
                 (JObj [("ref", JStr (ref checkpoint));
                        ("content",
                         JStr (stringify
                                 (AbstractSynchroniser.syncDataToJson (syncDataOf "[1]"))))]))
    by (vm_compute; reflexivity).
  split; [exact H1 | split; [exact H2 | split; [exact H3 | split; [exact H4 | ]]]].
  split; [exact H5 | ].
  exact (@checkpoint_round_trip runtime 1 checkpoint (syncDataOf "[1]") (freshWorld None)
           H1 H2 H3 H4 H5).
Defined.


(** The store still holds what the checkpoint holds. *)
Lemma getRemoteUserData_not_modified_witness :
  let store := honest (storeOf 1 "[1]") in
  let checkpoint := remoteOf 1 "[1]" in
  let w := freshWorld None in
  @userDataSyncStore store = Some "https://store/v1"
  /\ truthy (authToken w) = true
  /\ (forall o,
         type o = GET ->
         header "If-None-Match" (headers o) = Some (ref checkpoint) ->
         exists context,
           @respond store (requests w) o = Some context /\ statusCode context = 304%Z)
  /\ (forall syncData_,
         syncData checkpoint = Some syncData_ ->
         sd_version syncData_ <> 0%Z
         /\ sd_content syncData_ <> EmptyString
         /\ @readsBack runtime (AbstractSynchroniser.syncDataToJson syncData_))
  /\ fst (@AbstractSynchroniser.getRemoteUserData runtime store 1 keybindings
            (Some checkpoint) w)
     = Ok checkpoint.
Proof.
  intros store checkpoint w.
  assert (H1 : @userDataSyncStore store = Some "https://store/v1") by reflexivity.
  assert (H2 : truthy (authToken w) = true) by reflexivity.
  assert (H3 : forall o,
             type o = GET ->
             header "If-None-Match" (headers o) = Some (ref checkpoint) ->
             exists context,
               @respond store (requests w) o = Some context
               /\ statusCode context = 304%Z).
  { intros o Ht Hh. eexists. split; [reflexivity | ].
    unfold serve. rewrite Ht, Hh. reflexivity. }
  assert (H4 : forall syncData_,
             syncData checkpoint = Some syncData_ ->
             sd_version syncData_ <> 0%Z
             /\ sd_content syncData_ <> EmptyString
             /\ @readsBack runtime (AbstractSynchroniser.syncDataToJson syncData_)).
  { intros syncData_ H. inversion H; subst syncData_.
    split; [discriminate | split; [vm_compute; discriminate | vm_compute; reflexivity]]. }
  split; [exact H1 | split; [exact H2 | split; [exact H3 | split; [exact H4 | ]]]].
  destruct (@getRemoteUserData_not_modified runtime store 1 keybindings checkpoint
              "https://store/v1" w H1 H2 H3 H4) as [o [Hrun _]].
  now rewrite Hrun.
Defined.

(** A [sync] while the store cannot be reached. *)
Lemma sync_leaves_Syncing_when_the_fetch_fails_witness :
  let w := freshWorld (Some "[1]") in
  let started := AbstractSynchroniser.setStatus_ Syncing w in
  let refused := UserDataSyncStoreError ConnectionRefused in
  let fetch :=
    @AbstractSynchroniser.getRemoteUserData runtime unreachable 1 keybindings None started in
  resourceEnabled w = true
  /\ _status w <> HasConflicts
  /\ _status w <> Syncing
  /\ @AbstractSynchroniser.getLastSyncUserData runtime 1 started = (Ok None, started)
  /\ (truthy None = false \/ option_map ref (@None IRemoteUserData) <> None)
  /\ fetch = (Throw refused, snd fetch)
  /\ @KeybindingsSynchroniser.sync runtime unreachable 1 None w = (Throw refused, snd fetch)
  /\ _status (snd fetch) = Syncing.
Proof.
  intros w started refused fetch.
  assert (H1 : resourceEnabled w = true) by reflexivity.
  assert (H2 : _status w <> HasConflicts) by discriminate.
  assert (H3 : _status w <> Syncing) by discriminate.
  assert (H4 : @AbstractSynchroniser.getLastSyncUserData runtime 1 started
               = (Ok None, started)) by reflexivity.
  assert (H5 : truthy None = false \/ option_map ref (@None IRemoteUserData) <> None)
    by (left; reflexivity).
  assert (H6 : fetch = (Throw refused, snd fetch))
    by (apply run_eq; vm_compute; reflexivity).
  split; [exact H1 | split; [exact H2 | split; [exact H3 | split; [exact H4 | ]]]].
  split; [exact H5 | split; [exact H6 | ]].
  destruct (@sync_leaves_Syncing_when_the_fetch_fails runtime unreachable
              KeybindingsSynchroniser.version KeybindingsSynchroniser.resourceKey
              (@KeybindingsSynchroniser.performSync runtime unreachable 1)
              1 None None refused w (snd fetch) H1 H2 H3 H4 H5 H6) as [Hrun [Hst _]].
  split; [exact Hrun | exact Hst].
Defined.

(** The [sync] that ends in a conflict. *)
Lemma sync_settles_witness :
  let store := honest (storeOf 1 "[2]") in
  let w := freshWorld (Some "[1]") in
  let run := @KeybindingsSynchroniser.sync runtime store 1 None w in
  resourceEnabled w = true
  /\ _status w <> HasConflicts
  /\ _status w <> Syncing
  /\ run = (Ok tt, snd run)
  /\ ((_status (snd run) = HasConflicts
       /\ exists preview,
           syncPreviewResultPromise (snd run) = Some preview
           /\ hasConflicts preview = true)
      \/ (_status (snd run) = Idle /\ syncPreviewResultPromise (snd run) = None)).
Proof.
  intros store w run.
  assert (H1 : resourceEnabled w = true) by reflexivity.
  assert (H2 : _status w <> HasConflicts) by discriminate.
  assert (H3 : _status w <> Syncing) by discriminate.
  assert (H4 : run = (Ok tt, snd run)) by (apply run_eq; vm_compute; reflexivity).
  split; [exact H1 | split; [exact H2 | split; [exact H3 | split; [exact H4 | ]]]].
  exact (@sync_settles runtime store 1 None w (snd run) H1 H2 H3 H4).
Defined.

(** The preview of the conflict, asked for again with other data. *)
Lemma getPreview_reuses_the_stored_preview_witness :
  let store := honest (storeOf 1 "[2]") in
  let w := freshWorld (Some "[1]") in
  let first := @KeybindingsSynchroniser.getPreview runtime store (remoteOf 1 "[2]") None w in
  first = (Ok conflictPreview, snd first)
  /\ @KeybindingsSynchroniser.getPreview runtime store hollowRemote None (snd first)
     = (Ok conflictPreview, snd first).
Proof.
  intros store w first.
  assert (H1 : first = (Ok conflictPreview, snd first))
    by (apply run_eq; vm_compute; reflexivity).
  split; [exact H1 | ].
  exact (@getPreview_reuses_the_stored_preview runtime store (remoteOf 1 "[2]") None
           w (snd first) conflictPreview H1 hollowRemote None).
Defined.

(** The keybindings file is edited into an invalid text while the
    conflict is open. *)
Lemma failed_resync_strands_the_conflict_witness :
  let store := honest (storeOf 1 "[2]") in
  let invalid := UserDataSyncError LocalInvalidContent in
  let resync :=
    @KeybindingsSynchroniser.doSync runtime store 1 (remoteUserData conflictPreview)
      (lastSyncUserData conflictPreview) (with_preview None brokenConflictWorld) in
  resourceEnabled brokenConflictWorld = true
  /\ _status brokenConflictWorld = HasConflicts
  /\ syncPreviewResultPromise brokenConflictWorld = Some conflictPreview
  /\ resync = (Throw invalid, snd resync)
  /\ @KeybindingsSynchroniser.onFileChanges runtime store (ret tt) 1 true
       brokenConflictWorld
     = (Ok tt, snd resync)
  /\ _status (snd resync) = HasConflicts
  /\ syncPreviewResultPromise (snd resync) = None.
Proof.
  intros store invalid resync.
  assert (H1 : resourceEnabled brokenConflictWorld = true) by (vm_compute; reflexivity).
  assert (H2 : _status brokenConflictWorld = HasConflicts) by (vm_compute; reflexivity).
  assert (H3 : syncPreviewResultPromise brokenConflictWorld = Some conflictPreview)
    by (vm_compute; reflexivity).
  assert (H4 : resync = (Throw invalid, snd resync))
    by (apply run_eq; vm_compute; reflexivity).
  split; [exact H1 | split; [exact H2 | split; [exact H3 | split; [exact H4 | ]]]].
  destruct (@failed_resync_strands_the_conflict runtime store (ret tt) 1 conflictPreview
              invalid brokenConflictWorld (snd resync) H1 H2 H3 H4)
    as [Hrun [Hst [Hp _]]].
  split; [exact Hrun | split; [exact Hst | exact Hp]].
Defined.

(** The preview of a pull has nothing to send. *)
Lemma apply_changes_what_the_preview_marks_witness :
  let store := honest (storeOf 1 "[2]") in
  syncPreviewResultPromise pulledWorld = Some pulledPreview
  /\ requests (snd (@KeybindingsSynchroniser.apply runtime store false pulledWorld))
     = requests pulledWorld.
Proof.
  intros store.
  assert (H1 : syncPreviewResultPromise pulledWorld = Some pulledPreview) by reflexivity.
  split; [exact H1 | ].
  exact (proj2 (@apply_changes_what_the_preview_marks runtime store false pulledPreview
                  pulledWorld H1) eq_refl).
Defined.

(** A [pull] on a machine whose file is behind the store. *)
Lemma pull_replaces_the_local_file_witness :
  let store := honest (storeOf 1 "[2]") in
  let run := @KeybindingsSynchroniser.pull runtime store behindWorld in
  let started := AbstractSynchroniser.setStatus_ Syncing (with_preview None behindWorld) in
  resourceEnabled behindWorld = true
  /\ run = (Ok tt, snd run)
  /\ exists lastSyncUserData_ remoteUserData_ w1,
      @KeybindingsSynchroniser.getLastSyncUserData runtime started
      = (Ok lastSyncUserData_, started)
      /\ @KeybindingsSynchroniser.getRemoteUserData runtime store lastSyncUserData_ started
         = (Ok remoteUserData_, w1)
      /\ match @KeybindingsSynchroniser.syncContentOf runtime store
                 (keybindingsPerPlatform behindWorld) (Some remoteUserData_) with
         | Some content_ =>
             option_map value (files (snd run) keybindingsResource) = Some content_
         | None =>
             files (snd run) keybindingsResource = files behindWorld keybindingsResource
         end.
Proof.
  intros store run started.
  assert (H1 : resourceEnabled behindWorld = true) by reflexivity.
  assert (H2 : run = (Ok tt, snd run)) by (apply run_eq; vm_compute; reflexivity).
  split; [exact H1 | split; [exact H2 | ]].
  exact (@pull_replaces_the_local_file runtime store behindWorld (snd run) H1 H2).
Defined.

(** A push of the keybindings [[1]] over a store that holds [[2]]: the
    read is answered 304, and the one [POST] carries [[1]]. *)
Lemma push_sends_the_local_file_witness :
  let store := honest (storeOf 1 "[2]") in
  let run := @KeybindingsSynchroniser.push runtime store behindWorld in
  map type (requests (snd run)) = [POST; GET]
  /\ forall o,
      In (EvRequest o) (trace (snd run)) ->
      type o = POST ->
      data o = Some (envelope "[1]").
Proof.
  intros store run.
  split; [vm_compute; reflexivity | ].
  intros o Hin Ho.
  destruct (@push_sends_the_local_file runtime store behindWorld)
    as [_ [_ [new [Ht Hall]]]].
  change (trace behindWorld) with (@nil Event) in Ht. rewrite app_nil_r in Ht.
  fold run in Ht. rewrite Ht in Hin.
  destruct (Hall o Hin) as [Hget | [_ [_ [f [remote [Hf [Hfetched Hdata]]]]]]].
  - rewrite Hget in Ho. discriminate Ho.
  - assert (Hr : remote = remoteOf 1 "[2]").
    { vm_compute in Hfetched. inversion Hfetched. reflexivity. }
    assert (Hfile : f = {| value := "[1]"; mtime := 0 |}).
    { vm_compute in Hf. inversion Hf. reflexivity. }
    subst remote f. rewrite Hdata.
    + vm_compute. reflexivity.
    + right. eexists. vm_compute. reflexivity.
Defined.

(** The remote side of the conflict. *)
Lemma getRemoteContentFromPreview_is_the_merged_remote_witness :
  let store := honest (storeOf 1 "[2]") in
  let w := freshWorld (Some "[1]") in
  let first := @KeybindingsSynchroniser.getPreview runtime store (remoteOf 1 "[2]") None w in
  syncPreviewResultPromise w = None
  /\ first = (Ok conflictPreview, snd first)
  /\ @KeybindingsSynchroniser.getRemoteContentFromPreview runtime store (snd first)
     = (Ok (@KeybindingsSynchroniser.syncContentOf runtime store
              (keybindingsPerPlatform w) (Some (remoteOf 1 "[2]"))), snd first).
Proof.
  intros store w first.
  assert (H1 : syncPreviewResultPromise w = None) by reflexivity.
  assert (H2 : first = (Ok conflictPreview, snd first))
    by (apply run_eq; vm_compute; reflexivity).
  split; [exact H1 | split; [exact H2 | ]].
  exact (@getRemoteContentFromPreview_is_the_merged_remote runtime store
           (remoteOf 1 "[2]") None w (snd first) conflictPreview H1 H2).
Defined.

(** The keybindings [[1]] read back from the store under the ref 1. *)
Lemma getRemoteContent_of_a_ref_witness :
  let store := honest (storeOf 1 "[1]") in
  let w := freshWorld None in
  let wrapped :=
    @KeybindingsSynchroniser.toSyncContent runtime store (keybindingsPerPlatform w)
      "[1]" None in
  let syncData_ := {| sd_version := KeybindingsSynchroniser.version; sd_content := wrapped |} in
  let context := reply 200 (Some 1) (Some (envelope "[1]")) in
  @isSyncContent runtime None
  /\ @userDataSyncStore store = Some "https://store/v1"
  /\ truthy (authToken w) = true
  /\ "1" <> EmptyString
  /\ (forall o,
         type o = GET ->
         url o = "https://store/v1" ++ "/resource/keybindings/" ++ "1" ->
         header "If-None-Match" (headers o) = None ->
         @respond store (requests w) o = Some context)
  /\ isSuccess context = true
  /\ res_text context = Some (stringify (AbstractSynchroniser.syncDataToJson syncData_))
  /\ wrapped <> EmptyString
  /\ @readsBack runtime
       (JObj (@KeybindingsSynchroniser.syncContentObject runtime store
                (keybindingsPerPlatform w) "[1]" None))
  /\ @readsBack runtime (AbstractSynchroniser.syncDataToJson syncData_)
  /\ fst (@KeybindingsSynchroniser.getRemoteContent runtime store (Some "1")
            (Some "keybindings") w)
     = Ok (Some "[1]").
Proof.
  intros store w wrapped syncData_ context.
  assert (H1 : @userDataSyncStore store = Some "https://store/v1") by reflexivity.
  assert (H2 : truthy (authToken w) = true) by reflexivity.
  assert (H3 : "1" <> EmptyString) by discriminate.
  assert (H4 : forall o,
             type o = GET ->
             url o = "https://store/v1" ++ "/resource/keybindings/" ++ "1" ->
             header "If-None-Match" (headers o) = None ->
             @respond store (requests w) o = Some context).
  { intros o Ht _ Hh. unfold respond, store, honest, withServer, answer, serve.
    cbn [requests w freshWorld replay]. rewrite Ht, Hh. reflexivity. }
  assert (H5 : isSuccess context = true) by reflexivity.
  assert (H6 : res_text context
               = Some (stringify (AbstractSynchroniser.syncDataToJson syncData_)))
    by (vm_compute; reflexivity).
  assert (H7 : wrapped <> EmptyString) by (vm_compute; discriminate).
  assert (H8 : @readsBack runtime
                 (JObj (@KeybindingsSynchroniser.syncContentObject runtime store
                          (keybindingsPerPlatform w) "[1]" None)))
    by (vm_compute; reflexivity).
  assert (H9 : @readsBack runtime (AbstractSynchroniser.syncDataToJson syncData_))
    by (vm_compute; reflexivity).
  split; [exact I | ].
  split; [exact H1 | split; [exact H2 | split; [exact H3 | split; [exact H4 | ]]]].
  split; [exact H5 | split; [exact H6 | split; [exact H7 | split; [exact H8 | ]]]].
  split; [exact H9 | ].
  exact (@getRemoteContent_of_a_ref runtime store "1" "https://store/v1" "[1]" None
           context w I H1 H2 H3 H4 H5 H6 H7 H8 H9).
Defined.

(** A conflict, its resolution and another conflict. *)
Lemma conflicts_resolved_were_detected_witness :
  let w := freshWorld None in
  let w' :=
    fold_left (fun w s => AbstractSynchroniser.setStatus_ s w)
      [HasConflicts; Idle; HasConflicts] w in
  _status w <> HasConflicts
  /\ exists new,
      trace w' = (new ++ trace w)%list
      /\ length (filter (fun e => match e with
                                  | EvTelemetry n => String.eqb n "sync/conflictsResolved"
                                  | _ => false
                                  end) new)
         + (if SyncStatus_eqb (_status w') HasConflicts then 1 else 0)
         <= length (filter (fun e => match e with
                                     | EvTelemetry n => String.eqb n "sync/conflictsDetected"
                                     | _ => false
                                     end) new).
Proof.
  intros w w'.
  assert (H1 : _status w <> HasConflicts) by discriminate.
  split; [exact H1 | ].
  exact (conflicts_resolved_were_detected [HasConflicts; Idle; HasConflicts] w H1).
Defined.

(** A [doSync] that fails on an invalid keybindings file, against the
    store of the runs above. *)
Lemma doSync_hides_precondition_failed_witness :
  let store := honest (storeOf 1 "[2]") in
  let invalid := UserDataSyncError LocalInvalidContent in
  let run :=
    @KeybindingsSynchroniser.doSync runtime store 1 (remoteOf 1 "[2]") None
      (freshWorld (Some "oops")) in
  (forall history o context,
      header "If-Match" (headers o) = None ->
      @respond store history o = Some context ->
      statusCode context <> 412%Z)
  /\ run = (Throw invalid, snd run)
  /\ isRemotePreconditionFailed invalid = false.
Proof.
  intros store invalid run.
  assert (H1 : forall history o context,
             header "If-Match" (headers o) = None ->
             @respond store history o = Some context ->
             statusCode context <> 412%Z).
  { intros history o context Hh Hr.
    unfold respond, store, honest, withServer, answer in Hr.
    inversion Hr; subst context. clear Hr. unfold serve. rewrite Hh.
    destruct (type o).
    - destruct (header "If-None-Match" (headers o)) as [r | ];
        [destruct (String.eqb r (etag (stored_tag (replay (storeOf 1 "[2]") history)))) | ];
        cbn [fst statusCode reply];
        try discriminate;
        destruct (stored_content (replay (storeOf 1 "[2]") history)); discriminate.
    - cbn [fst statusCode reply]. discriminate.
    - cbn [fst statusCode reply]. discriminate. }
  assert (H2 : run = (Throw invalid, snd run)) by (apply run_eq; vm_compute; reflexivity).
  split; [exact H1 | split; [exact H2 | ]].
  exact (@doSync_hides_precondition_failed runtime store
           KeybindingsSynchroniser.version KeybindingsSynchroniser.resourceKey
           (@KeybindingsSynchroniser.performSync runtime store 1)
           1 (remoteOf 1 "[2]") None (freshWorld (Some "oops")) (snd run) invalid H1 H2).
Defined.

(** A write against a stamp the file does not carry. *)
Lemma updateLocalFileContent_conditioned_witness :
  let w := freshWorld (Some "[1]") in
  let known := {| value := "[1]"; mtime := 5 |} in
  option_map mtime (files w keybindingsResource) <> Some (mtime known)
  /\ @KeybindingsSynchroniser.updateLocalFileContent "[2]" (Some known) w
     = (Throw (UserDataSyncError LocalPreconditionFailed), w).
Proof.
  intros w known.
  assert (H1 : option_map mtime (files w keybindingsResource) <> Some (mtime known))
    by discriminate.
  split; [exact H1 | ].
  exact (updateLocalFileContent_conditioned "[2]" known w H1).
Defined.

End MoreRuns.
